(** * dok.arealanalyse.process: the analysis pipeline and the coverage
      quality evaluator

    A shallow embedding of
      - [dokanalyse/models/analysis.py]           (class [Analysis]),
      - [dokanalyse/models/ogc_api_analysis.py]   (class [OgcApiAnalysis]),
      - [dokanalyse/services/quality/coverage_quality.py],
      - [dokanalyse/services/config.py]           ([get_quality_indicator_configs]).

    Python objects are records, mutation of [self] is explicit state
    passing in a small state-and-exception monad, and attribute lookup on
    [self] goes through the class namespaces along the method resolution
    order.  Remote services, OGR geometry operations and Python's float
    arithmetic are collaborators gathered in one record. *)

From Stdlib Require Import List String Ascii ZArith Bool Lia Permutation Sorted.
Import ListNotations.
Local Open Scope string_scope.
Local Open Scope list_scope.
Local Open Scope Z_scope.

(** ** Enumerations *)

(** Modelled from the spec: [models/result_status.py] is not part of the
    sources; the spec lists the closed enumeration of result statuses. *)
Inductive ResultStatus :=
| NO_HIT_GREEN | NO_HIT_YELLOW | HIT_GREEN | HIT_YELLOW | HIT_RED | TIMEOUT | ERROR.

Definition ResultStatus_eqb (a b : ResultStatus) : bool :=
  match a, b with
  | NO_HIT_GREEN, NO_HIT_GREEN | NO_HIT_YELLOW, NO_HIT_YELLOW
  | HIT_GREEN, HIT_GREEN | HIT_YELLOW, HIT_YELLOW | HIT_RED, HIT_RED
  | TIMEOUT, TIMEOUT | ERROR, ERROR => true
  | _, _ => false
  end.

(** Modelled from the spec: [models/config/quality_indicator_type.py] is not
    part of the sources; the spec gives the indicator kind as COVERAGE or
    some other kind. *)
Inductive QualityIndicatorType := COVERAGE | OTHER_KIND.

Definition QualityIndicatorType_eqb (a b : QualityIndicatorType) : bool :=
  match a, b with
  | COVERAGE, COVERAGE | OTHER_KIND, OTHER_KIND => true
  | _, _ => false
  end.

(** The exceptions the modelled code can raise. *)
Inductive Exn :=
| DokAnalysisException (msg : string)
| AttributeError (attr : string)
| TypeError (msg : string)
| IndexError (msg : string).

(** A dataset identifier, in its canonical text form. *)
Definition UUID := string.

(** [id in strs] for a [uuid.UUID] and a list of [str]: a UUID and a [str]
    never compare equal, so the test is [False] whatever the list holds. *)
Definition uuid_in_strs (id : UUID) (strs : list string) : bool := false.

(** [bool(s)] for a Python [str]: only the empty string is falsy. *)
Definition truthy (s : string) : bool := negb (String.eqb s "").

(** [value in values] for a list of [str]. *)
Definition str_in (value : string) (values : list string) : bool :=
  existsb (String.eqb value) values.

(** [s.replace(old, new)] for one-character [old] and [new]. *)
Fixpoint replace (old new : ascii) (s : string) : string :=
  match s with
  | EmptyString => EmptyString
  | String c rest =>
      String (if Ascii.eqb c old then new else c) (replace old new rest)
  end.

(** [sys.maxsize] on a 64-bit build. *)
Definition maxsize : Z := 9223372036854775807.

(** [osgeo.ogr.wkbPolygon] and [osgeo.ogr.wkbMultiPolygon]. *)
Definition wkbPolygon : Z := 3.
Definition wkbMultiPolygon : Z := 6.

(** ** Records of the data model *)

(** [models/quality_measurement.py]: the constructor takes the four
    attributes in this order. *)
Record QualityMeasurement := {
  quality_dimension_id : string;
  quality_dimension_name : string;
  value : string;
  comment : option string
}.

(** One entry of a codelist: a dict with the keys ['value'] and ['label']. *)
Record CodelistEntry := {
  entry_value : string;
  entry_label : option string
}.

(** One link of a guidance entry, and the guidance entry itself (a dict of
    the geolett register). *)
Record GeolettLink := { lenke_href : string; lenke_tittel : string }.

Record Geolett := {
  geolett_id : string;
  tittel : string;
  forklarendeTekst : string;
  dialogtekst : string;
  lenker : list GeolettLink;
  muligeTiltak : string
}.

(** An entry of [guidance_uri]: a dict with the keys ['href'] and ['title']. *)
Record GuidanceUri := { href : string; uri_title : string }.

(** One layer of a dataset configuration and the configuration itself; only
    the attributes the pipeline reads. *)
Record Layer := {
  layer_ogc_api : string;
  layer_wms : string;
  layer_geolett_id : option UUID;
  layer_result_status : ResultStatus
}.

Record DatasetConfig := {
  config_title : string;
  config_themes : list string;
  config_layers : list Layer;
  config_ogc_api : string;
  config_geom_field : string;
  config_properties : list string;
  config_wms : string
}.

(** ** Classes and attribute lookup

    The methods that are looked up on [self] by name.  A class is its
    namespace (the names its body binds) in front of its base class;
    [getattr] on an instance walks this chain. *)
Inductive Method :=
| Analysis_add_run_algorithm          (* def add_run_algorithm(self, algorithm) *)
| Analysis_set_default_data           (* async def set_default_data(self) *)
| Analysis_run_queries                (* @abstractmethod async def run_queries(self): pass *)
| Analysis_set_distance_to_object     (* @abstractmethod def set_distance_to_object(self): pass *)
| OgcApiAnalysis__run_queries         (* async def _run_queries(self) *)
| OgcApiAnalysis__set_distance_to_object.  (* async def _set_distance_to_object(self) *)

Definition is_coroutine_function (m : Method) : bool :=
  match m with
  | Analysis_add_run_algorithm | Analysis_set_distance_to_object => false
  | _ => true
  end.

Definition is_abstract (m : Method) : bool :=
  match m with
  | Analysis_run_queries | Analysis_set_distance_to_object => true
  | _ => false
  end.

Definition PyType := string -> option Method.
Definition Namespace := list (string * Method).

Definition object_type : PyType := fun _ => None.

Definition class_ (namespace : Namespace) (base : PyType) : PyType :=
  fun name =>
    match find (fun entry => String.eqb (fst entry) name) namespace with
    | Some entry => Some (snd entry)
    | None => base name
    end.

Definition Analysis_namespace : Namespace :=
  [ ("add_run_algorithm", Analysis_add_run_algorithm);
    ("set_default_data", Analysis_set_default_data);
    ("run_queries", Analysis_run_queries);
    ("set_distance_to_object", Analysis_set_distance_to_object) ].

Definition OgcApiAnalysis_namespace : Namespace :=
  [ ("_run_queries", OgcApiAnalysis__run_queries);
    ("_set_distance_to_object", OgcApiAnalysis__set_distance_to_object) ].

Definition Analysis_class : PyType := class_ Analysis_namespace object_type.
Definition OgcApiAnalysis_class : PyType :=
  class_ OgcApiAnalysis_namespace Analysis_class.

(** [Analysis.__abstractmethods__] as far as a subclass leaves them
    abstract; a class with a non-empty set cannot be instantiated. *)
Definition abstractmethods (ty : PyType) : list string :=
  filter
    (fun name => match ty name with Some m => is_abstract m | None => false end)
    ["run_queries"; "set_distance_to_object"].

(** [list.sort()] on a list of ints. *)
Fixpoint insert_sorted (x : Z) (l : list Z) : list Z :=
  match l with
  | [] => [x]
  | y :: rest => if x <=? y then x :: l else y :: insert_sorted x rest
  end.

Definition sort (l : list Z) : list Z := fold_right insert_sorted [] l.

Definition _LOCAL_GEOLETT_IDS : list string :=
  ["0c5dc043-e5b3-4349-8587-9b464d013aaa"].

(** The fixed display order of quality dimensions. *)
Definition _QMS_SORT_ORDER : list string :=
  [ "fullstendighet_dekning";
    "stedfestingsnøyaktighet";
    "egnethet_reguleringsplan";
    "egnethet_kommuneplan";
    "egnethet_byggesak" ].

(** The least of the integers [d :: ds]. *)
Definition minimum (d : Z) (ds : list Z) : Z := fold_left Z.min ds d.

(** The place of a dimension id in a priority list (its length when the id
    is not in it). *)
Fixpoint index_of (id : string) (order : list string) : nat :=
  match order with
  | [] => 0
  | x :: rest => if String.eqb x id then 0 else S (index_of id rest)
  end.

Definition priority (qm : QualityMeasurement) : nat :=
  index_of (quality_dimension_id qm) _QMS_SORT_ORDER.

Definition has_dimension (id : string) (qm : QualityMeasurement) : bool :=
  String.eqb (quality_dimension_id qm) id.

(** A class of the [Analysis] hierarchy: it inherits [add_run_algorithm] and
    [set_default_data], and what it finds under [set_distance_to_object] is
    the abstract method or the implementation of [OgcApiAnalysis]. *)
Definition Analysis_subclass (ty : PyType) : Prop :=
  ty "add_run_algorithm" = Some Analysis_add_run_algorithm /\
  ty "set_default_data" = Some Analysis_set_default_data /\
  (ty "set_distance_to_object" = Some Analysis_set_distance_to_object \/
   ty "set_distance_to_object" = Some OgcApiAnalysis__set_distance_to_object).

Definition is_DokAnalysisException {A : Type} (r : Exn + A) : Prop :=
  match r with
  | inl (DokAnalysisException _) => True
  | _ => False
  end.

Section Dokanalyse.

(** ** Opaque Python values *)

Context {Geometry : Type}.        (* osgeo.ogr.Geometry *)
Context {Num : Type}.             (* a Python number: an int or a float *)
Context {Feature : Type}.         (* one GeoJSON feature of an API response *)
Context {PropValue : Type}.       (* a property value of a feature, or None *)
Context {Metadata : Type}.        (* models/metadata.py *)
Context {CoverageWfs : Type}.     (* the WFS reference of a coverage indicator *)
Context {GeoJson : Type}.         (* the dict create_run_on_input_geometry_json returns *)
Context {RequestContext : Type}.  (* the request context given to [run] *)

(** [models/config/quality_indicator.py], the attributes the code reads,
    and [models/config/quality_config.py]. *)
Record QualityIndicator := {
  indicator_type : QualityIndicatorType;
  indicator_quality_dimension_id : string;
  indicator_quality_dimension_name : string;
  indicator_quality_warning_text : string;
  indicator_warning_threshold : list string;
  indicator_wfs : option CoverageWfs
}.

Record QualityConfig := {
  quality_config_dataset_id : option UUID;
  quality_config_indicators : list QualityIndicator
}.

(** A matched record: the dict [__map_properties] builds, in insertion
    order. *)
Definition Props := list (string * PropValue).

(** ** Collaborators

    Everything the modelled code calls and the sources do not contain: remote
    services, helpers of other modules, OGR methods and Python built-ins on
    numbers and strings. *)
Record Collaborators := {
  (* services/config.py: the cached configuration _load_config returns *)
  _load_config : list DatasetConfig * list QualityConfig;
  (* services/quality/__init__.py *)
  get_threshold_values : QualityIndicator -> list string;
  (* services/coverage.py *)
  get_values_from_wfs : CoverageWfs -> option Geometry -> Z -> list string * Num;
  (* services/codelist.py *)
  get_codelist : string -> option (list CodelistEntry);
  (* services/kartkatalog.py *)
  get_kartkatalog_metadata : UUID -> option Metadata;
  (* services/geolett.py: the register as fetched (None when the request
     failed) and the local file *)
  _fetch_geolett_data : option (list Geolett);
  _fetch_local_geolett_data : list Geolett;
  (* services/raster_result.py *)
  get_raster_result : string -> string -> option string;
  get_cartography_url : string -> string -> option string;
  (* services/quality/dataset_quality.py, object_quality.py *)
  get_dataset_quality :
    UUID -> list QualityIndicator -> RequestContext -> option (list string) ->
    list QualityMeasurement * list string;
  get_object_quality :
    list QualityIndicator -> list Props -> list QualityMeasurement * list string;
  (* http_clients/ogc_api.py: (status_code, response['features'] or None) *)
  query_ogc_api :
    string -> string -> string -> option Geometry -> Z -> Z * option (list Feature);
  (* utils/helpers/geometry.py *)
  create_buffered_geometry : Geometry -> Z -> Z -> Geometry;
  create_run_on_input_geometry_json : option Geometry -> Z -> Z -> GeoJson;
  geometry_from_json : string -> option Geometry;
  transform_geometry : option Geometry -> Z -> Z -> option Geometry;
  (* osgeo.ogr.Geometry methods *)
  Clone : Geometry -> Geometry;
  GetArea : Geometry -> Num;
  Intersection : Geometry -> Geometry -> option Geometry;
  GetGeometryType : Geometry -> Z;
  Distance : Geometry -> Geometry -> Num;
  (* json.dumps(feature['geometry']) and pydash.get(feature['properties'], m, None) *)
  dumps_geometry : Feature -> string;
  get_property : Feature -> string -> PropValue;
  (* Python numbers: int literals, +, <, round(x, 2), round(x), str(x) *)
  num_of_Z : Z -> Num;
  num_add : Num -> Num -> Num;
  num_lt : Num -> Num -> bool;
  round_ndigits : Num -> Z -> Num;
  round_int : Num -> Z;
  str_num : Num -> string;
  (* str.lower(), str.splitlines(), str.lstrip(chars), mapping.split('.')[-1] *)
  lower : string -> string;
  splitlines : string -> list string;
  lstrip : string -> string -> string;
  last_segment : string -> string;
  (* utils/helpers/common.py *)
  keys_to_camel_case : Props -> Props
}.

Variable ext : Collaborators.

(** ** services/config.py *)

(** [not id or id == dataset_id], for [id] a UUID or [None]. *)
Definition applies_to (id : option UUID) (dataset_id : UUID) : bool :=
  match id with
  | None => true
  | Some i => String.eqb i dataset_id
  end.

Definition get_quality_indicator_configs (dataset_id : UUID) : list QualityIndicator :=
  let quality_configs := snd (_load_config ext) in
  flat_map
    (fun config =>
       if applies_to (quality_config_dataset_id config) dataset_id
       then quality_config_indicators config
       else [])
    quality_configs.

(** ** services/geolett.py *)

Definition get_geolett_data (id : option UUID) : Exn + option Geolett :=
  match id with
  | None => inr None
  | Some id =>
      let geolett :=
        if uuid_in_strs id _LOCAL_GEOLETT_IDS
        then Some (_fetch_local_geolett_data ext)
        else _fetch_geolett_data ext in
      match geolett with
      | None => inl (TypeError "'NoneType' object is not iterable")
      | Some items =>
          let result :=
            filter (fun item => String.eqb (geolett_id item) id) items in
          inr (hd_error result)
      end
  end.

(** ** services/quality/coverage_quality.py *)

Record MeasValue := { meas_value : string; meas_comment : option string }.

(** The dict [_get_coverage_quality_data] returns. *)
Record CoverageQualityData := {
  data_id : string;
  data_name : string;
  data_values : list MeasValue;
  data_warning_text : option string
}.

Definition _get_label_from_codelist
    (value : string) (codelist : option (list CodelistEntry)) : option string :=
  match codelist with
  | None => None
  | Some [] => None
  | Some entries =>
      match find (fun entry => String.eqb (entry_value entry) value) entries with
      | Some result => entry_label result
      | None => None
      end
  end.

Definition _has_coverage (values : list string) : bool :=
  if str_in "ikkeKartlagt" values
  then existsb (fun value => negb (String.eqb value "ikkeKartlagt")) values
  else true.

(** [any(value for value in values if any(t_value for t_value in
    threshold_values if t_value == value))]: both generators yield the
    strings themselves, so [any] tests their truth value. *)
Definition should_warn (threshold_values values : list string) : bool :=
  existsb
    (fun value =>
       existsb (fun t_value => String.eqb t_value value && truthy t_value)
               threshold_values
       && truthy value)
    values.

Definition _get_warning_text
    (quality_indicator : QualityIndicator) (values : list string)
    (hit_area_percent : Num) : option string :=
  let threshold_values := get_threshold_values ext quality_indicator in
  if should_warn threshold_values values then
    let warning_text := indicator_quality_warning_text quality_indicator in
    if num_lt ext (num_of_Z ext 0) hit_area_percent
       && num_lt ext hit_area_percent (num_of_Z ext 100)
    then
      let hit_area := replace "." "," (str_num ext hit_area_percent) in
      Some (hit_area ++ " % av " ++ lower ext warning_text)%string
    else Some warning_text
  else None.

Definition _get_values_from_web_service
    (quality_indicator : QualityIndicator) (geometry : option Geometry)
    (epsg : Z) : list string * Num :=
  match indicator_wfs quality_indicator with
  | Some wfs => get_values_from_wfs ext wfs geometry epsg
  | None => ([], num_of_Z ext 0)
  end.

Definition _get_coverage_quality_data
    (quality_indicator : QualityIndicator) (geometry : option Geometry)
    (epsg : Z) : option CoverageQualityData * bool :=
  let '(values, hit_area_percent) :=
    _get_values_from_web_service quality_indicator geometry epsg in
  match values with
  | [] => (None, false)
  | _ =>
      let codelist := get_codelist ext "fullstendighet_dekning" in
      let meas_values :=
        map (fun value =>
               {| meas_value :=
                    if str_in value ["ikkeKartlagt"; "ikkeRelevant"]
                    then "Nei" else "Ja";
                  meas_comment := _get_label_from_codelist value codelist |})
            values in
      (Some {| data_id := indicator_quality_dimension_id quality_indicator;
               data_name := indicator_quality_dimension_name quality_indicator;
               data_values := meas_values;
               data_warning_text :=
                 _get_warning_text quality_indicator values hit_area_percent |},
       _has_coverage values)
  end.

Definition get_coverage_quality
    (quality_indicator : QualityIndicator) (geometry : option Geometry)
    (epsg : Z) : list QualityMeasurement * option string * bool :=
  let '(quality_data, has_coverage) :=
    _get_coverage_quality_data quality_indicator geometry epsg in
  match quality_data with
  | None => ([], None, false)
  | Some quality_data =>
      let measurements :=
        map (fun v =>
               {| quality_dimension_id := data_id quality_data;
                  quality_dimension_name := data_name quality_data;
                  value := meas_value v;
                  comment := meas_comment v |})
            (data_values quality_data) in
      (measurements, data_warning_text quality_data, has_coverage)
  end.

(** ** models/analysis.py: the attributes of an analysis object *)

Record Analysis := {
  dataset_id : UUID;
  config : DatasetConfig;
  geometry : Geometry;
  run_on_input_geometry : option Geometry;
  epsg : Z;
  orig_epsg : Z;
  geometries : list (option Geometry);
  geolett : option Geolett;
  title : option string;
  description : option string;
  guidance_text : option string;
  guidance_uri : list GuidanceUri;
  possible_actions : list string;
  quality_measurement : list QualityMeasurement;
  quality_warning : list string;
  buffer : Z;
  input_geometry_area : option Num;
  run_on_input_geometry_json : option GeoJson;
  hit_area : option Num;
  distance_to_object : Z;
  raster_result : option string;
  cartography : option string;
  data : list Props;
  themes : option (list string);
  run_on_dataset : option Metadata;
  run_algorithm : list string;
  result_status : ResultStatus;
  coverage_statuses : list string;
  has_coverage : bool
}.

(** Assignments [self.attr = v], one per attribute the pipeline writes. *)
Definition set_run_on_input_geometry (v : option Geometry) (a : Analysis) : Analysis :=
  {| dataset_id := dataset_id a; config := config a; geometry := geometry a;
     run_on_input_geometry := v; epsg := epsg a; orig_epsg := orig_epsg a;
     geometries := geometries a; geolett := geolett a; title := title a;
     description := description a; guidance_text := guidance_text a; guidance_uri
     := guidance_uri a; possible_actions := possible_actions a;
     quality_measurement := quality_measurement a; quality_warning :=
     quality_warning a; buffer := buffer a; input_geometry_area :=
     input_geometry_area a; run_on_input_geometry_json :=
     run_on_input_geometry_json a; hit_area := hit_area a; distance_to_object :=
     distance_to_object a; raster_result := raster_result a; cartography :=
     cartography a; data := data a; themes := themes a; run_on_dataset :=
     run_on_dataset a; run_algorithm := run_algorithm a; result_status :=
     result_status a; coverage_statuses := coverage_statuses a; has_coverage :=
     has_coverage a |}.
Definition set_geometries (v : list (option Geometry)) (a : Analysis) : Analysis :=
  {| dataset_id := dataset_id a; config := config a; geometry := geometry a;
     run_on_input_geometry := run_on_input_geometry a; epsg := epsg a; orig_epsg
     := orig_epsg a; geometries := v; geolett := geolett a; title := title a;
     description := description a; guidance_text := guidance_text a; guidance_uri
     := guidance_uri a; possible_actions := possible_actions a;
     quality_measurement := quality_measurement a; quality_warning :=
     quality_warning a; buffer := buffer a; input_geometry_area :=
     input_geometry_area a; run_on_input_geometry_json :=
     run_on_input_geometry_json a; hit_area := hit_area a; distance_to_object :=
     distance_to_object a; raster_result := raster_result a; cartography :=
     cartography a; data := data a; themes := themes a; run_on_dataset :=
     run_on_dataset a; run_algorithm := run_algorithm a; result_status :=
     result_status a; coverage_statuses := coverage_statuses a; has_coverage :=
     has_coverage a |}.
Definition set_geolett (v : option Geolett) (a : Analysis) : Analysis :=
  {| dataset_id := dataset_id a; config := config a; geometry := geometry a;
     run_on_input_geometry := run_on_input_geometry a; epsg := epsg a; orig_epsg
     := orig_epsg a; geometries := geometries a; geolett := v; title := title a;
     description := description a; guidance_text := guidance_text a; guidance_uri
     := guidance_uri a; possible_actions := possible_actions a;
     quality_measurement := quality_measurement a; quality_warning :=
     quality_warning a; buffer := buffer a; input_geometry_area :=
     input_geometry_area a; run_on_input_geometry_json :=
     run_on_input_geometry_json a; hit_area := hit_area a; distance_to_object :=
     distance_to_object a; raster_result := raster_result a; cartography :=
     cartography a; data := data a; themes := themes a; run_on_dataset :=
     run_on_dataset a; run_algorithm := run_algorithm a; result_status :=
     result_status a; coverage_statuses := coverage_statuses a; has_coverage :=
     has_coverage a |}.
Definition set_title (v : option string) (a : Analysis) : Analysis :=
  {| dataset_id := dataset_id a; config := config a; geometry := geometry a;
     run_on_input_geometry := run_on_input_geometry a; epsg := epsg a; orig_epsg
     := orig_epsg a; geometries := geometries a; geolett := geolett a; title :=
     v; description := description a; guidance_text := guidance_text a;
     guidance_uri := guidance_uri a; possible_actions := possible_actions a;
     quality_measurement := quality_measurement a; quality_warning :=
     quality_warning a; buffer := buffer a; input_geometry_area :=
     input_geometry_area a; run_on_input_geometry_json :=
     run_on_input_geometry_json a; hit_area := hit_area a; distance_to_object :=
     distance_to_object a; raster_result := raster_result a; cartography :=
     cartography a; data := data a; themes := themes a; run_on_dataset :=
     run_on_dataset a; run_algorithm := run_algorithm a; result_status :=
     result_status a; coverage_statuses := coverage_statuses a; has_coverage :=
     has_coverage a |}.
Definition set_description (v : option string) (a : Analysis) : Analysis :=
  {| dataset_id := dataset_id a; config := config a; geometry := geometry a;
     run_on_input_geometry := run_on_input_geometry a; epsg := epsg a; orig_epsg
     := orig_epsg a; geometries := geometries a; geolett := geolett a; title :=
     title a; description := v; guidance_text := guidance_text a; guidance_uri :=
     guidance_uri a; possible_actions := possible_actions a; quality_measurement
     := quality_measurement a; quality_warning := quality_warning a; buffer :=
     buffer a; input_geometry_area := input_geometry_area a;
     run_on_input_geometry_json := run_on_input_geometry_json a; hit_area :=
     hit_area a; distance_to_object := distance_to_object a; raster_result :=
     raster_result a; cartography := cartography a; data := data a; themes :=
     themes a; run_on_dataset := run_on_dataset a; run_algorithm := run_algorithm
     a; result_status := result_status a; coverage_statuses := coverage_statuses
     a; has_coverage := has_coverage a |}.
Definition set_guidance_text (v : option string) (a : Analysis) : Analysis :=
  {| dataset_id := dataset_id a; config := config a; geometry := geometry a;
     run_on_input_geometry := run_on_input_geometry a; epsg := epsg a; orig_epsg
     := orig_epsg a; geometries := geometries a; geolett := geolett a; title :=
     title a; description := description a; guidance_text := v; guidance_uri :=
     guidance_uri a; possible_actions := possible_actions a; quality_measurement
     := quality_measurement a; quality_warning := quality_warning a; buffer :=
     buffer a; input_geometry_area := input_geometry_area a;
     run_on_input_geometry_json := run_on_input_geometry_json a; hit_area :=
     hit_area a; distance_to_object := distance_to_object a; raster_result :=
     raster_result a; cartography := cartography a; data := data a; themes :=
     themes a; run_on_dataset := run_on_dataset a; run_algorithm := run_algorithm
     a; result_status := result_status a; coverage_statuses := coverage_statuses
     a; has_coverage := has_coverage a |}.
Definition set_guidance_uri (v : list GuidanceUri) (a : Analysis) : Analysis :=
  {| dataset_id := dataset_id a; config := config a; geometry := geometry a;
     run_on_input_geometry := run_on_input_geometry a; epsg := epsg a; orig_epsg
     := orig_epsg a; geometries := geometries a; geolett := geolett a; title :=
     title a; description := description a; guidance_text := guidance_text a;
     guidance_uri := v; possible_actions := possible_actions a;
     quality_measurement := quality_measurement a; quality_warning :=
     quality_warning a; buffer := buffer a; input_geometry_area :=
     input_geometry_area a; run_on_input_geometry_json :=
     run_on_input_geometry_json a; hit_area := hit_area a; distance_to_object :=
     distance_to_object a; raster_result := raster_result a; cartography :=
     cartography a; data := data a; themes := themes a; run_on_dataset :=
     run_on_dataset a; run_algorithm := run_algorithm a; result_status :=
     result_status a; coverage_statuses := coverage_statuses a; has_coverage :=
     has_coverage a |}.
Definition set_possible_actions (v : list string) (a : Analysis) : Analysis :=
  {| dataset_id := dataset_id a; config := config a; geometry := geometry a;
     run_on_input_geometry := run_on_input_geometry a; epsg := epsg a; orig_epsg
     := orig_epsg a; geometries := geometries a; geolett := geolett a; title :=
     title a; description := description a; guidance_text := guidance_text a;
     guidance_uri := guidance_uri a; possible_actions := v; quality_measurement
     := quality_measurement a; quality_warning := quality_warning a; buffer :=
     buffer a; input_geometry_area := input_geometry_area a;
     run_on_input_geometry_json := run_on_input_geometry_json a; hit_area :=
     hit_area a; distance_to_object := distance_to_object a; raster_result :=
     raster_result a; cartography := cartography a; data := data a; themes :=
     themes a; run_on_dataset := run_on_dataset a; run_algorithm := run_algorithm
     a; result_status := result_status a; coverage_statuses := coverage_statuses
     a; has_coverage := has_coverage a |}.
Definition set_quality_measurement (v : list QualityMeasurement) (a : Analysis) : Analysis :=
  {| dataset_id := dataset_id a; config := config a; geometry := geometry a;
     run_on_input_geometry := run_on_input_geometry a; epsg := epsg a; orig_epsg
     := orig_epsg a; geometries := geometries a; geolett := geolett a; title :=
     title a; description := description a; guidance_text := guidance_text a;
     guidance_uri := guidance_uri a; possible_actions := possible_actions a;
     quality_measurement := v; quality_warning := quality_warning a; buffer :=
     buffer a; input_geometry_area := input_geometry_area a;
     run_on_input_geometry_json := run_on_input_geometry_json a; hit_area :=
     hit_area a; distance_to_object := distance_to_object a; raster_result :=
     raster_result a; cartography := cartography a; data := data a; themes :=
     themes a; run_on_dataset := run_on_dataset a; run_algorithm := run_algorithm
     a; result_status := result_status a; coverage_statuses := coverage_statuses
     a; has_coverage := has_coverage a |}.
Definition set_quality_warning (v : list string) (a : Analysis) : Analysis :=
  {| dataset_id := dataset_id a; config := config a; geometry := geometry a;
     run_on_input_geometry := run_on_input_geometry a; epsg := epsg a; orig_epsg
     := orig_epsg a; geometries := geometries a; geolett := geolett a; title :=
     title a; description := description a; guidance_text := guidance_text a;
     guidance_uri := guidance_uri a; possible_actions := possible_actions a;
     quality_measurement := quality_measurement a; quality_warning := v; buffer
     := buffer a; input_geometry_area := input_geometry_area a;
     run_on_input_geometry_json := run_on_input_geometry_json a; hit_area :=
     hit_area a; distance_to_object := distance_to_object a; raster_result :=
     raster_result a; cartography := cartography a; data := data a; themes :=
     themes a; run_on_dataset := run_on_dataset a; run_algorithm := run_algorithm
     a; result_status := result_status a; coverage_statuses := coverage_statuses
     a; has_coverage := has_coverage a |}.
Definition set_input_geometry_area (v : option Num) (a : Analysis) : Analysis :=
  {| dataset_id := dataset_id a; config := config a; geometry := geometry a;
     run_on_input_geometry := run_on_input_geometry a; epsg := epsg a; orig_epsg
     := orig_epsg a; geometries := geometries a; geolett := geolett a; title :=
     title a; description := description a; guidance_text := guidance_text a;
     guidance_uri := guidance_uri a; possible_actions := possible_actions a;
     quality_measurement := quality_measurement a; quality_warning :=
     quality_warning a; buffer := buffer a; input_geometry_area := v;
     run_on_input_geometry_json := run_on_input_geometry_json a; hit_area :=
     hit_area a; distance_to_object := distance_to_object a; raster_result :=
     raster_result a; cartography := cartography a; data := data a; themes :=
     themes a; run_on_dataset := run_on_dataset a; run_algorithm := run_algorithm
     a; result_status := result_status a; coverage_statuses := coverage_statuses
     a; has_coverage := has_coverage a |}.
Definition set_run_on_input_geometry_json (v : option GeoJson) (a : Analysis) : Analysis :=
  {| dataset_id := dataset_id a; config := config a; geometry := geometry a;
     run_on_input_geometry := run_on_input_geometry a; epsg := epsg a; orig_epsg
     := orig_epsg a; geometries := geometries a; geolett := geolett a; title :=
     title a; description := description a; guidance_text := guidance_text a;
     guidance_uri := guidance_uri a; possible_actions := possible_actions a;
     quality_measurement := quality_measurement a; quality_warning :=
     quality_warning a; buffer := buffer a; input_geometry_area :=
     input_geometry_area a; run_on_input_geometry_json := v; hit_area := hit_area
     a; distance_to_object := distance_to_object a; raster_result :=
     raster_result a; cartography := cartography a; data := data a; themes :=
     themes a; run_on_dataset := run_on_dataset a; run_algorithm := run_algorithm
     a; result_status := result_status a; coverage_statuses := coverage_statuses
     a; has_coverage := has_coverage a |}.
Definition set_hit_area (v : option Num) (a : Analysis) : Analysis :=
  {| dataset_id := dataset_id a; config := config a; geometry := geometry a;
     run_on_input_geometry := run_on_input_geometry a; epsg := epsg a; orig_epsg
     := orig_epsg a; geometries := geometries a; geolett := geolett a; title :=
     title a; description := description a; guidance_text := guidance_text a;
     guidance_uri := guidance_uri a; possible_actions := possible_actions a;
     quality_measurement := quality_measurement a; quality_warning :=
     quality_warning a; buffer := buffer a; input_geometry_area :=
     input_geometry_area a; run_on_input_geometry_json :=
     run_on_input_geometry_json a; hit_area := v; distance_to_object :=
     distance_to_object a; raster_result := raster_result a; cartography :=
     cartography a; data := data a; themes := themes a; run_on_dataset :=
     run_on_dataset a; run_algorithm := run_algorithm a; result_status :=
     result_status a; coverage_statuses := coverage_statuses a; has_coverage :=
     has_coverage a |}.
Definition set_distance_to_object (v : Z) (a : Analysis) : Analysis :=
  {| dataset_id := dataset_id a; config := config a; geometry := geometry a;
     run_on_input_geometry := run_on_input_geometry a; epsg := epsg a; orig_epsg
     := orig_epsg a; geometries := geometries a; geolett := geolett a; title :=
     title a; description := description a; guidance_text := guidance_text a;
     guidance_uri := guidance_uri a; possible_actions := possible_actions a;
     quality_measurement := quality_measurement a; quality_warning :=
     quality_warning a; buffer := buffer a; input_geometry_area :=
     input_geometry_area a; run_on_input_geometry_json :=
     run_on_input_geometry_json a; hit_area := hit_area a; distance_to_object :=
     v; raster_result := raster_result a; cartography := cartography a; data :=
     data a; themes := themes a; run_on_dataset := run_on_dataset a;
     run_algorithm := run_algorithm a; result_status := result_status a;
     coverage_statuses := coverage_statuses a; has_coverage := has_coverage a |}.
Definition set_raster_result (v : option string) (a : Analysis) : Analysis :=
  {| dataset_id := dataset_id a; config := config a; geometry := geometry a;
     run_on_input_geometry := run_on_input_geometry a; epsg := epsg a; orig_epsg
     := orig_epsg a; geometries := geometries a; geolett := geolett a; title :=
     title a; description := description a; guidance_text := guidance_text a;
     guidance_uri := guidance_uri a; possible_actions := possible_actions a;
     quality_measurement := quality_measurement a; quality_warning :=
     quality_warning a; buffer := buffer a; input_geometry_area :=
     input_geometry_area a; run_on_input_geometry_json :=
     run_on_input_geometry_json a; hit_area := hit_area a; distance_to_object :=
     distance_to_object a; raster_result := v; cartography := cartography a; data
     := data a; themes := themes a; run_on_dataset := run_on_dataset a;
     run_algorithm := run_algorithm a; result_status := result_status a;
     coverage_statuses := coverage_statuses a; has_coverage := has_coverage a |}.
Definition set_cartography (v : option string) (a : Analysis) : Analysis :=
  {| dataset_id := dataset_id a; config := config a; geometry := geometry a;
     run_on_input_geometry := run_on_input_geometry a; epsg := epsg a; orig_epsg
     := orig_epsg a; geometries := geometries a; geolett := geolett a; title :=
     title a; description := description a; guidance_text := guidance_text a;
     guidance_uri := guidance_uri a; possible_actions := possible_actions a;
     quality_measurement := quality_measurement a; quality_warning :=
     quality_warning a; buffer := buffer a; input_geometry_area :=
     input_geometry_area a; run_on_input_geometry_json :=
     run_on_input_geometry_json a; hit_area := hit_area a; distance_to_object :=
     distance_to_object a; raster_result := raster_result a; cartography := v;
     data := data a; themes := themes a; run_on_dataset := run_on_dataset a;
     run_algorithm := run_algorithm a; result_status := result_status a;
     coverage_statuses := coverage_statuses a; has_coverage := has_coverage a |}.
Definition set_data (v : list Props) (a : Analysis) : Analysis :=
  {| dataset_id := dataset_id a; config := config a; geometry := geometry a;
     run_on_input_geometry := run_on_input_geometry a; epsg := epsg a; orig_epsg
     := orig_epsg a; geometries := geometries a; geolett := geolett a; title :=
     title a; description := description a; guidance_text := guidance_text a;
     guidance_uri := guidance_uri a; possible_actions := possible_actions a;
     quality_measurement := quality_measurement a; quality_warning :=
     quality_warning a; buffer := buffer a; input_geometry_area :=
     input_geometry_area a; run_on_input_geometry_json :=
     run_on_input_geometry_json a; hit_area := hit_area a; distance_to_object :=
     distance_to_object a; raster_result := raster_result a; cartography :=
     cartography a; data := v; themes := themes a; run_on_dataset :=
     run_on_dataset a; run_algorithm := run_algorithm a; result_status :=
     result_status a; coverage_statuses := coverage_statuses a; has_coverage :=
     has_coverage a |}.
Definition set_themes (v : option (list string)) (a : Analysis) : Analysis :=
  {| dataset_id := dataset_id a; config := config a; geometry := geometry a;
     run_on_input_geometry := run_on_input_geometry a; epsg := epsg a; orig_epsg
     := orig_epsg a; geometries := geometries a; geolett := geolett a; title :=
     title a; description := description a; guidance_text := guidance_text a;
     guidance_uri := guidance_uri a; possible_actions := possible_actions a;
     quality_measurement := quality_measurement a; quality_warning :=
     quality_warning a; buffer := buffer a; input_geometry_area :=
     input_geometry_area a; run_on_input_geometry_json :=
     run_on_input_geometry_json a; hit_area := hit_area a; distance_to_object :=
     distance_to_object a; raster_result := raster_result a; cartography :=
     cartography a; data := data a; themes := v; run_on_dataset := run_on_dataset
     a; run_algorithm := run_algorithm a; result_status := result_status a;
     coverage_statuses := coverage_statuses a; has_coverage := has_coverage a |}.
Definition set_run_on_dataset (v : option Metadata) (a : Analysis) : Analysis :=
  {| dataset_id := dataset_id a; config := config a; geometry := geometry a;
     run_on_input_geometry := run_on_input_geometry a; epsg := epsg a; orig_epsg
     := orig_epsg a; geometries := geometries a; geolett := geolett a; title :=
     title a; description := description a; guidance_text := guidance_text a;
     guidance_uri := guidance_uri a; possible_actions := possible_actions a;
     quality_measurement := quality_measurement a; quality_warning :=
     quality_warning a; buffer := buffer a; input_geometry_area :=
     input_geometry_area a; run_on_input_geometry_json :=
     run_on_input_geometry_json a; hit_area := hit_area a; distance_to_object :=
     distance_to_object a; raster_result := raster_result a; cartography :=
     cartography a; data := data a; themes := themes a; run_on_dataset := v;
     run_algorithm := run_algorithm a; result_status := result_status a;
     coverage_statuses := coverage_statuses a; has_coverage := has_coverage a |}.
Definition set_run_algorithm (v : list string) (a : Analysis) : Analysis :=
  {| dataset_id := dataset_id a; config := config a; geometry := geometry a;
     run_on_input_geometry := run_on_input_geometry a; epsg := epsg a; orig_epsg
     := orig_epsg a; geometries := geometries a; geolett := geolett a; title :=
     title a; description := description a; guidance_text := guidance_text a;
     guidance_uri := guidance_uri a; possible_actions := possible_actions a;
     quality_measurement := quality_measurement a; quality_warning :=
     quality_warning a; buffer := buffer a; input_geometry_area :=
     input_geometry_area a; run_on_input_geometry_json :=
     run_on_input_geometry_json a; hit_area := hit_area a; distance_to_object :=
     distance_to_object a; raster_result := raster_result a; cartography :=
     cartography a; data := data a; themes := themes a; run_on_dataset :=
     run_on_dataset a; run_algorithm := v; result_status := result_status a;
     coverage_statuses := coverage_statuses a; has_coverage := has_coverage a |}.
Definition set_result_status (v : ResultStatus) (a : Analysis) : Analysis :=
  {| dataset_id := dataset_id a; config := config a; geometry := geometry a;
     run_on_input_geometry := run_on_input_geometry a; epsg := epsg a; orig_epsg
     := orig_epsg a; geometries := geometries a; geolett := geolett a; title :=
     title a; description := description a; guidance_text := guidance_text a;
     guidance_uri := guidance_uri a; possible_actions := possible_actions a;
     quality_measurement := quality_measurement a; quality_warning :=
     quality_warning a; buffer := buffer a; input_geometry_area :=
     input_geometry_area a; run_on_input_geometry_json :=
     run_on_input_geometry_json a; hit_area := hit_area a; distance_to_object :=
     distance_to_object a; raster_result := raster_result a; cartography :=
     cartography a; data := data a; themes := themes a; run_on_dataset :=
     run_on_dataset a; run_algorithm := run_algorithm a; result_status := v;
     coverage_statuses := coverage_statuses a; has_coverage := has_coverage a |}.
Definition set_has_coverage (v : bool) (a : Analysis) : Analysis :=
  {| dataset_id := dataset_id a; config := config a; geometry := geometry a;
     run_on_input_geometry := run_on_input_geometry a; epsg := epsg a; orig_epsg
     := orig_epsg a; geometries := geometries a; geolett := geolett a; title :=
     title a; description := description a; guidance_text := guidance_text a;
     guidance_uri := guidance_uri a; possible_actions := possible_actions a;
     quality_measurement := quality_measurement a; quality_warning :=
     quality_warning a; buffer := buffer a; input_geometry_area :=
     input_geometry_area a; run_on_input_geometry_json :=
     run_on_input_geometry_json a; hit_area := hit_area a; distance_to_object :=
     distance_to_object a; raster_result := raster_result a; cartography :=
     cartography a; data := data a; themes := themes a; run_on_dataset :=
     run_on_dataset a; run_algorithm := run_algorithm a; result_status :=
     result_status a; coverage_statuses := coverage_statuses a; has_coverage := v |}.

(** [__init__]: [buffer or 0] turns a missing buffer into 0. *)
Definition __init__
    (dataset_id : UUID) (config : DatasetConfig) (geometry : Geometry)
    (epsg orig_epsg : Z) (buffer : option Z) : Analysis :=
  {| dataset_id := dataset_id; config := config; geometry := geometry;
     run_on_input_geometry := None; epsg := epsg; orig_epsg := orig_epsg;
     geometries := []; geolett := None; title := None; description := None;
     guidance_text := None; guidance_uri := []; possible_actions := [];
     quality_measurement := []; quality_warning := [];
     buffer := match buffer with Some b => b | None => 0 end;
     input_geometry_area := None; run_on_input_geometry_json := None;
     hit_area := None; distance_to_object := 0; raster_result := None;
     cartography := None; data := []; themes := None; run_on_dataset := None;
     run_algorithm := []; result_status := NO_HIT_GREEN;
     coverage_statuses := []; has_coverage := true |}.

(** Creating an instance of a class of the [Analysis] hierarchy: [ABCMeta]
    refuses a class that still has abstract methods. *)
Definition instantiate
    (ty : PyType) (dataset_id : UUID) (config : DatasetConfig)
    (geometry : Geometry) (epsg orig_epsg : Z) (buffer : option Z)
    : Exn + Analysis :=
  match abstractmethods ty with
  | [] => inr (__init__ dataset_id config geometry epsg orig_epsg buffer)
  | _ => inl (TypeError "Can't instantiate abstract class")
  end.

(** ** The state-and-exception monad

    A computation mutates [self] and either returns or raises; what it did to
    [self] before raising stays done.  [calls] is ghost state: it records the
    methods entered and the collaborator calls the claims speak about, and
    nothing ever reads it. *)
Inductive Call :=
| Invoke (name : string)
| GetCoverageQuality (quality_indicator : QualityIndicator)
| QueryOgcApi (layer : string) (geometry : option Geometry) (status_code : Z).

Record World := { self : Analysis; calls : list Call }.

Definition M (A : Type) : Type := World -> (Exn + A) * World.

Definition ret {A : Type} (x : A) : M A := fun w => (inr x, w).

Definition bind {A B : Type} (c : M A) (k : A -> M B) : M B :=
  fun w =>
    match c w with
    | (inl e, w') => (inl e, w')
    | (inr x, w') => k x w'
    end.

Definition raise {A : Type} (e : Exn) : M A := fun w => (inl e, w).

Definition get_self : M Analysis := fun w => (inr (self w), w).

Definition assign (f : Analysis -> Analysis) : M unit :=
  fun w => (inr tt, {| self := f (self w); calls := calls w |}).

Definition log (c : Call) : M unit :=
  fun w => (inr tt, {| self := self w; calls := calls w ++ [c] |}).

(** A collaborator that returns or raises. *)
Definition lift {A : Type} (r : Exn + A) : M A :=
  match r with
  | inl e => raise e
  | inr x => ret x
  end.

Notation "x <- c1 ;; c2" := (bind c1 (fun x => c2))
  (at level 61, c1 at next level, right associativity).
Notation "c1 ;; c2" := (bind c1 (fun _ => c2))
  (at level 61, right associativity).

(** ** models/analysis.py: methods *)

Definition add_run_algorithm (algorithm : string) : M unit :=
  assign (fun a => set_run_algorithm (run_algorithm a ++ [algorithm]) a).

(** [self.<name>(arg)] for a method taking one string: the lookup fails with
    [AttributeError] when no class on the chain binds [name]. *)
Definition call_str (ty : PyType) (name : string) (arg : string) : M unit :=
  match ty name with
  | None => raise (AttributeError name)
  | Some m =>
      log (Invoke name) ;;
      match m with
      | Analysis_add_run_algorithm => add_run_algorithm arg
      | _ => raise (TypeError "takes 1 positional argument but 2 were given")
      end
  end.

Definition set_default_data : M unit :=
  a <- get_self ;;
  assign (set_title (Some (match geolett a with
                           | Some g => tittel g
                           | None => config_title (config a)
                           end))) ;;
  assign (set_themes (Some (config_themes (config a)))) ;;
  assign (set_run_on_dataset (get_kartkatalog_metadata ext (dataset_id a))).

Definition __run_coverage_analysis (ty : PyType) : M unit :=
  a <- get_self ;;
  let quality_indicators := get_quality_indicator_configs (dataset_id a) in
  if (List.length quality_indicators =? 0)%nat then ret tt
  else
    let coverage_indicators :=
      filter (fun indicator =>
                QualityIndicatorType_eqb (indicator_type indicator) COVERAGE)
             quality_indicators in
    if (List.length coverage_indicators =? 0)%nat then ret tt
    else if (1 <? List.length coverage_indicators)%nat then
      raise (DokAnalysisException
               "A dataset can only have one coverage quality indicator")
    else
      call_str ty "add_run_algorithm" "check coverage" ;;
      match nth_error quality_indicators 0 with
      | None => raise (IndexError "list index out of range")
      | Some quality_indicator =>
          a <- get_self ;;
          log (GetCoverageQuality quality_indicator) ;;
          let '(measurements, warning, has_coverage) :=
            get_coverage_quality quality_indicator
                                 (run_on_input_geometry a) (epsg a) in
          assign (fun a => set_quality_measurement
                             (quality_measurement a ++ measurements) a) ;;
          assign (set_has_coverage has_coverage) ;;
          match warning with
          | Some w =>
              assign (fun a => set_quality_warning (quality_warning a ++ [w]) a)
          | None => ret tt
          end
      end.

Definition __set_input_geometry (ty : PyType) : M unit :=
  call_str ty "add_run_algorithm" "set input_geometry" ;;
  a <- get_self ;;
  if 0 <? buffer a then
    let buffered_geom :=
      create_buffered_geometry ext (geometry a) (buffer a) (epsg a) in
    call_str ty "add_run_algorithm" "add buffer" ;;
    assign (set_run_on_input_geometry (Some buffered_geom))
  else
    assign (set_run_on_input_geometry (Some (Clone ext (geometry a)))).

(** One turn of the loop of [__set_geometry_areas] over [self.geometries]. *)
Definition add_hit_area
    (run_on : Geometry) (hit_area : Num) (geometry : option Geometry) : Num :=
  match geometry with
  | None => hit_area
  | Some geom =>
      match Intersection ext run_on geom with
      | None => hit_area
      | Some intersection =>
          let geom_type := GetGeometryType ext intersection in
          if (geom_type =? wkbPolygon) || (geom_type =? wkbMultiPolygon)
          then num_add ext hit_area (GetArea ext intersection)
          else hit_area
      end
  end.

Definition __set_geometry_areas : M unit :=
  a <- get_self ;;
  match run_on_input_geometry a with
  | None => raise (AttributeError "GetArea")
  | Some run_on =>
      assign (set_input_geometry_area
                (Some (round_ndigits ext (GetArea ext run_on) 2))) ;;
      if (List.length (geometries a) =? 0)%nat then ret tt
      else
        let hit_area :=
          fold_left (add_hit_area run_on) (geometries a) (num_of_Z ext 0) in
        assign (set_hit_area (Some (round_ndigits ext hit_area 2)))
  end.

Definition __set_guidance_data : M unit :=
  a <- get_self ;;
  match geolett a with
  | None => raise (TypeError "'NoneType' object is not subscriptable")
  | Some g =>
      (if negb (ResultStatus_eqb (result_status a) NO_HIT_GREEN) then
         assign (set_description (Some (forklarendeTekst g))) ;;
         assign (set_guidance_text (Some (dialogtekst g)))
       else ret tt) ;;
      assign (fun a =>
                set_guidance_uri
                  (guidance_uri a ++
                   map (fun link => {| href := lenke_href link;
                                       uri_title := lenke_tittel link |})
                       (lenker g)) a) ;;
      assign (fun a =>
                set_possible_actions
                  (possible_actions a ++
                   map (fun line => lstrip ext line "- ")
                       (splitlines ext (muligeTiltak g))) a)
  end.

Definition __set_quality_measurements (context : RequestContext) : M unit :=
  a <- get_self ;;
  let quality_indicators := get_quality_indicator_configs (dataset_id a) in
  if (List.length quality_indicators =? 0)%nat then ret tt
  else
    let '(dataset_qms, dataset_warnings) :=
      get_dataset_quality ext (dataset_id a) quality_indicators context
                          (themes a) in
    let '(object_qms, object_warnings) :=
      get_object_quality ext quality_indicators (data a) in
    assign (fun a => set_quality_measurement
                       (quality_measurement a ++ dataset_qms) a) ;;
    assign (fun a => set_quality_measurement
                       (quality_measurement a ++ object_qms) a) ;;
    assign (fun a => set_quality_warning
                       (quality_warning a ++ dataset_warnings) a) ;;
    assign (fun a => set_quality_warning
                       (quality_warning a ++ object_warnings) a).

Definition __sort_quality_measurements (a : Analysis) : list QualityMeasurement :=
  fold_left
    (fun qms id =>
       let result :=
         filter (fun qm => String.eqb (quality_dimension_id qm) id)
                (quality_measurement a) in
       if (0 <? List.length result)%nat then qms ++ result else qms)
    _QMS_SORT_ORDER [].

(** ** models/ogc_api_analysis.py *)

(** [props[key] = value] on a dict kept in insertion order. *)
Fixpoint dict_set (props : Props) (key : string) (v : PropValue) : Props :=
  match props with
  | [] => [(key, v)]
  | (k, old) :: rest =>
      if String.eqb k key then (k, v) :: rest
      else (k, old) :: dict_set rest key v
  end.

Definition __map_properties (feature : Feature) (mappings : list string) : Props :=
  fold_left
    (fun props mapping =>
       dict_set props (last_segment ext mapping) (get_property ext feature mapping))
    mappings [].

Definition __get_geometry_from_response (feature : Feature) : option Geometry :=
  let json_str := dumps_geometry ext feature in
  let geometry := geometry_from_json ext json_str in
  transform_geometry ext geometry 4326 25833.

(** The dict with the keys ['properties'] and ['geometries']. *)
Definition __parse_response
    (a : Analysis) (features : list Feature)
    : list Props * list (option Geometry) :=
  (map (fun feature => __map_properties feature (config_properties (config a)))
       features,
   map __get_geometry_from_response features).

(** The [for layer in self.config.layers] loop of [_run_queries]; it returns
    the local [geolett_data].  Returning without the recursive call is the
    loop's [break]. *)
Fixpoint query_layers
    (ty : PyType) (layers : list Layer) (geolett_data : option Geolett)
    : M (option Geolett) :=
  match layers with
  | [] => ret geolett_data
  | layer :: rest =>
      a <- get_self ;;
      let '(status_code, api_response) :=
        query_ogc_api ext (config_ogc_api (config a)) (layer_ogc_api layer)
                      (config_geom_field (config a)) (run_on_input_geometry a)
                      (epsg a) in
      log (QueryOgcApi (layer_ogc_api layer) (run_on_input_geometry a)
                       status_code) ;;
      if status_code =? 408 then
        assign (set_result_status TIMEOUT) ;; ret geolett_data
      else if negb (status_code =? 200) then
        assign (set_result_status ERROR) ;; ret geolett_data
      else
        call_str ty "_add_run_algorithm"
                 ("intersect layer " ++ layer_ogc_api layer)%string ;;
        match api_response with
        | None => query_layers ty rest geolett_data
        | Some features =>
            let response := __parse_response a features in
            if (0 <? List.length (fst response))%nat then
              geolett_data <- lift (get_geolett_data (layer_geolett_id layer)) ;;
              assign (set_data (fst response)) ;;
              assign (set_geometries (snd response)) ;;
              assign (set_raster_result
                        (get_raster_result ext (config_wms (config a))
                                           (layer_wms layer))) ;;
              assign (set_cartography
                        (get_cartography_url ext (config_wms (config a))
                                             (layer_wms layer))) ;;
              assign (set_result_status (layer_result_status layer)) ;;
              ret geolett_data
            else query_layers ty rest geolett_data
        end
  end.

Definition _run_queries (ty : PyType) : M unit :=
  a <- get_self ;;
  match nth_error (config_layers (config a)) 0 with
  | None => raise (IndexError "list index out of range")
  | Some first_layer =>
      geolett_data <- lift (get_geolett_data (layer_geolett_id first_layer)) ;;
      geolett_data <- query_layers ty (config_layers (config a)) geolett_data ;;
      assign (set_geolett geolett_data)
  end.

(** The [for feature in response['features']] loop of
    [_set_distance_to_object]: the rounded distances, in feature order. *)
Fixpoint feature_distances
    (run_on : option Geometry) (features : list Feature) : M (list Z) :=
  match features with
  | [] => ret []
  | feature :: rest =>
      match __get_geometry_from_response feature with
      | None => feature_distances run_on rest
      | Some feature_geom =>
          match run_on with
          | None => raise (AttributeError "Distance")
          | Some g =>
              let distance := round_int ext (Distance ext g feature_geom) in
              distances <- feature_distances run_on rest ;;
              ret (distance :: distances)
          end
      end
  end.

Definition _set_distance_to_object (ty : PyType) : M unit :=
  a <- get_self ;;
  let buffered_geom := create_buffered_geometry ext (geometry a) 20000 (epsg a) in
  match nth_error (config_layers (config a)) 0 with
  | None => raise (IndexError "list index out of range")
  | Some layer =>
      let '(status_code, response) :=
        query_ogc_api ext (config_ogc_api (config a)) (layer_ogc_api layer)
                      (config_geom_field (config a)) (Some buffered_geom)
                      (epsg a) in
      log (QueryOgcApi (layer_ogc_api layer) (Some buffered_geom) status_code) ;;
      match response with
      | None => assign (set_distance_to_object maxsize)
      | Some features =>
          distances <- feature_distances (run_on_input_geometry a) features ;;
          let distances := sort distances in
          call_str ty "_add_run_algorithm" "get distance" ;;
          match distances with
          | [] => assign (set_distance_to_object maxsize)
          | nearest :: _ => assign (set_distance_to_object nearest)
          end
      end
  end.

(** ** Calling a method found on [self] *)

(** The body a method runs when called with [self] alone. *)
Definition method_body (ty : PyType) (m : Method) : M unit :=
  match m with
  | Analysis_add_run_algorithm =>
      raise (TypeError "missing 1 required positional argument: 'algorithm'")
  | Analysis_set_default_data => set_default_data
  | Analysis_run_queries => ret tt
  | Analysis_set_distance_to_object => ret tt
  | OgcApiAnalysis__run_queries => _run_queries ty
  | OgcApiAnalysis__set_distance_to_object => _set_distance_to_object ty
  end.

(** [await self.<name>()]: look the name up on the class chain, run the
    method, and await what the call returned; a plain [def] returns [None],
    which cannot be awaited. *)
Definition await_method (ty : PyType) (name : string) : M unit :=
  match ty name with
  | None => raise (AttributeError name)
  | Some m =>
      log (Invoke name) ;;
      method_body ty m ;;
      if is_coroutine_function m then ret tt
      else raise (TypeError "object NoneType can't be used in 'await' expression")
  end.

(** A call of one of the name-mangled private methods of [Analysis]. *)
Definition private (name : string) (body : M unit) : M unit :=
  log (Invoke name) ;; body.

(** ** Analysis.run *)

(** Lines 76 to 90 of [run]: the distance stage and the final stages. *)
Definition finish
    (ty : PyType) (context : RequestContext)
    (include_guidance include_quality_measurement : bool) : M unit :=
  a <- get_self ;;
  (if ResultStatus_eqb (result_status a) NO_HIT_GREEN
      || ResultStatus_eqb (result_status a) NO_HIT_YELLOW
   then await_method ty "set_distance_to_object"
   else ret tt) ;;
  call_str ty "add_run_algorithm" "deliver result" ;;
  assign (fun a =>
            set_run_on_input_geometry_json
              (Some (create_run_on_input_geometry_json
                       ext (run_on_input_geometry a) (epsg a) (orig_epsg a))) a) ;;
  await_method ty "set_default_data" ;;
  a <- get_self ;;
  (if include_guidance && match geolett a with Some _ => true | None => false end
   then private "__set_guidance_data" __set_guidance_data
   else ret tt) ;;
  if include_quality_measurement
  then private "__set_quality_measurements" (__set_quality_measurements context)
  else ret tt.

Definition run
    (ty : PyType) (context : RequestContext)
    (include_guidance include_quality_measurement : bool) : M unit :=
  private "__set_input_geometry" (__set_input_geometry ty) ;;
  private "__run_coverage_analysis" (__run_coverage_analysis ty) ;;
  a <- get_self ;;
  if has_coverage a then
    await_method ty "run_queries" ;;
    a <- get_self ;;
    if ResultStatus_eqb (result_status a) TIMEOUT
       || ResultStatus_eqb (result_status a) ERROR
    then await_method ty "set_default_data"
    else
      private "__set_geometry_areas" __set_geometry_areas ;;
      finish ty context include_guidance include_quality_measurement
  else
    assign (set_result_status NO_HIT_YELLOW) ;;
    finish ty context include_guidance include_quality_measurement.

(** Lines 65 to 90 of [run]: what follows the coverage check. *)
Definition after_prepare
    (ty : PyType) (context : RequestContext)
    (include_guidance include_quality_measurement : bool) : M unit :=
  a <- get_self ;;
  if has_coverage a then
    await_method ty "run_queries" ;;
    a <- get_self ;;
    if ResultStatus_eqb (result_status a) TIMEOUT
       || ResultStatus_eqb (result_status a) ERROR
    then await_method ty "set_default_data"
    else
      private "__set_geometry_areas" __set_geometry_areas ;;
      finish ty context include_guidance include_quality_measurement
  else
    assign (set_result_status NO_HIT_YELLOW) ;;
    finish ty context include_guidance include_quality_measurement.

(** Lines 68 to 90 of [run]: what follows the query stage. *)
Definition after_queries
    (ty : PyType) (context : RequestContext)
    (include_guidance include_quality_measurement : bool) : M unit :=
  a <- get_self ;;
  if ResultStatus_eqb (result_status a) TIMEOUT
     || ResultStatus_eqb (result_status a) ERROR
  then await_method ty "set_default_data"
  else
    private "__set_geometry_areas" __set_geometry_areas ;;
    finish ty context include_guidance include_quality_measurement.

(** The world in which [run] starts on a fresh object. *)
Definition start (a : Analysis) : World := {| self := a; calls := [] |}.

(** ** Analysis.to_dict

    The serialized result, one field per key.  [to_dict()] of a quality
    measurement and of the dataset metadata are kept as the records
    themselves. *)
Record AnalysisDict := {
  key_title : option string;
  key_runOnInputGeometry : option GeoJson;
  key_buffer : Z;
  key_runAlgorithm : list string;
  key_inputGeometryArea : option Num;
  key_hitArea : option Num;
  key_resultStatus : ResultStatus;
  key_distanceToObject : Z;
  key_rasterResult : option string;
  key_cartography : option string;
  key_data : list Props;
  key_themes : option (list string);
  key_runOnDataset : option Metadata;
  key_description : option string;
  key_guidanceText : option string;
  key_guidanceUri : list GuidanceUri;
  key_possibleActions : list string;
  key_qualityMeasurement : list QualityMeasurement;
  key_qualityWarning : list string
}.

Definition to_dict (a : Analysis) : AnalysisDict :=
  let sorted_qms := __sort_quality_measurements a in
  {| key_title := title a;
     key_runOnInputGeometry := run_on_input_geometry_json a;
     key_buffer := buffer a;
     key_runAlgorithm := run_algorithm a;
     key_inputGeometryArea := input_geometry_area a;
     key_hitArea := hit_area a;
     key_resultStatus := result_status a;
     key_distanceToObject := distance_to_object a;
     key_rasterResult := raster_result a;
     key_cartography := cartography a;
     key_data := map (fun entry => keys_to_camel_case ext entry) (data a);
     key_themes := themes a;
     key_runOnDataset := run_on_dataset a;
     key_description := description a;
     key_guidanceText := guidance_text a;
     key_guidanceUri := guidance_uri a;
     key_possibleActions := possible_actions a;
     key_qualityMeasurement := map (fun item => item) sorted_qms;
     key_qualityWarning := quality_warning a |}.

(** The working geometry [__set_input_geometry] computes: the buffered input
    geometry when the buffer is positive, a clone of it otherwise. *)
Definition working_geometry (a : Analysis) : Geometry :=
  if 0 <? buffer a
  then create_buffered_geometry ext (geometry a) (buffer a) (epsg a)
  else Clone ext (geometry a).

(** Lines 61 to 63 of [run]: the working geometry and the coverage check. *)
Definition prepare (ty : PyType) : M unit :=
  private "__set_input_geometry" (__set_input_geometry ty) ;;
  private "__run_coverage_analysis" (__run_coverage_analysis ty).

(** Lines 61 to 66 of [run]: [prepare], then the query stage when coverage
    allows it.  The result tells whether the query stage ran. *)
Definition through_queries (ty : PyType) : M bool :=
  prepare ty ;;
  a <- get_self ;;
  if has_coverage a then await_method ty "run_queries" ;; ret true
  else ret false.

(** ** The hit area in the words of the specification

    The areas of the intersections of the working geometry with the non-null
    result geometries, kept only for polygon and multi-polygon intersections,
    and their sum. *)
Definition is_polygonal (g : Geometry) : bool :=
  (GetGeometryType ext g =? wkbPolygon) || (GetGeometryType ext g =? wkbMultiPolygon).

Definition polygonal_hit_areas
    (run_on : Geometry) (result_geometries : list (option Geometry)) : list Num :=
  flat_map
    (fun geometry =>
       match geometry with
       | None => []
       | Some geom =>
           match Intersection ext run_on geom with
           | Some intersection =>
               if is_polygonal intersection then [GetArea ext intersection] else []
           | None => []
           end
       end)
    result_geometries.

Definition hit_area_sum
    (run_on : Geometry) (result_geometries : list (option Geometry)) : Num :=
  fold_left (num_add ext) (polygonal_hit_areas run_on result_geometries)
            (num_of_Z ext 0).

(** ** The nearest object in the words of the specification

    The distances from the working geometry to the returned feature
    geometries, each rounded to an integer, and the least of a non-empty list
    of them. *)
Definition rounded_distances
    (run_on : Geometry) (features : list Feature) : list Z :=
  flat_map
    (fun feature =>
       match __get_geometry_from_response feature with
       | Some feature_geom => [round_int ext (Distance ext run_on feature_geom)]
       | None => []
       end)
    features.

(** An answer of the dataset service that lets the loop of [_run_queries]
    go on to the next layer: status 200 and no matching record. *)
Definition without_hit (answer : Z * option (list Feature)) : Prop :=
  fst answer = 200 /\ (snd answer = None \/ snd answer = Some []).

(** The coverage indicators among the quality indicators of a dataset. *)
Definition is_coverage (indicator : QualityIndicator) : bool :=
  QualityIndicatorType_eqb (indicator_type indicator) COVERAGE.

Definition coverage_indicators (dataset_id : UUID) : list QualityIndicator :=
  filter is_coverage (get_quality_indicator_configs dataset_id).

End Dokanalyse.


(** * More of the sources

    [services/config.py] ([_create_configs]), [services/fact_sheet/roads.py]
    ([_map_response]), [models/analysis_response.py]
    ([AnalysisResponse.create]), the last stages of [Analysis.run] on their
    own, and the dict lookups the properties below speak about. *)

(** [l'] is [l] followed by elements that all satisfy [p]; with [p] always
    true, [l] is a prefix of [l']. *)
Definition appended_by {A : Type} (p : A -> bool) (l l' : list A) : Prop :=
  exists suffix, l' = l ++ suffix /\ forallb p suffix = true.

Definition prefix_of {A : Type} (l l' : list A) : Prop :=
  appended_by (fun _ => true) l l'.

(** The double quote, for the messages that hold one. *)
Definition dquote : string := String (Ascii.ascii_of_nat 34) EmptyString.

(** ** services/config.py: the configuration files *)

(** What a pydantic constructor called with the entries of [data] as
    keyword arguments does: it returns the model, raises [ValidationError],
    or raises something else (a [TypeError] when a key of [data] is not a
    string). *)
Inductive Constructed (A : Type) :=
| Built (config : A)
| ValidationError
| Raised (e : Exn).

Arguments Built {A} config.
Arguments ValidationError {A}.
Arguments Raised {A} e.

Section Configuration.

Context {CoverageWfs : Type}.

(** One document [yaml.safe_load_all] yields: any YAML value, [None] for an
    empty document. *)
Context {Document : Type}.

(** Whether the document is a mapping, so that [result.get] exists; for a
    mapping, [result.get('type')] when it is a string ([None] without this
    key or with another kind of value under it); and the constructors of
    [DatasetConfig] and [QualityConfig] called with the entries of the
    document as keyword arguments. *)
Variable is_mapping : Document -> bool.
Variable document_type : Document -> option string.
Variable construct_dataset : Document -> Constructed DatasetConfig.
Variable construct_quality : Document -> Constructed (@QualityConfig CoverageWfs).

(** A [ValidationError] is logged and [None] returned; any other exception
    goes on to the caller. *)
Definition _create_dataset_config (data : Document) : Exn + option DatasetConfig :=
  match construct_dataset data with
  | Built config => inr (Some config)
  | ValidationError => inr None
  | Raised e => inl e
  end.

Definition _create_quality_config (data : Document) : Exn + option QualityConfig :=
  match construct_quality data with
  | Built config => inr (Some config)
  | ValidationError => inr None
  | Raised e => inl e
  end.

(** One turn of the inner loop of [_create_configs]. *)
Definition add_document
    (configs : list DatasetConfig * list QualityConfig) (result : Document)
    : Exn + (list DatasetConfig * list QualityConfig) :=
  let '(dataset_configs, quality_configs) := configs in
  if negb (is_mapping result) then inl (AttributeError "get")
  else
    match document_type result with
    | Some type =>
        if String.eqb type "dataset" then
          match _create_dataset_config result with
          | inl e => inl e
          | inr (Some config) => inr (dataset_configs ++ [config], quality_configs)
          | inr None => inr configs
          end
        else if String.eqb type "quality" then
          match _create_quality_config result with
          | inl e => inl e
          | inr (Some config) => inr (dataset_configs, quality_configs ++ [config])
          | inr None => inr configs
          end
        else inr configs
    | None => inr configs
    end.

(** The loop over the documents of one file. *)
Fixpoint add_documents
    (results : list Document) (configs : list DatasetConfig * list QualityConfig)
    : Exn + (list DatasetConfig * list QualityConfig) :=
  match results with
  | [] => inr configs
  | result :: rest =>
      match add_document configs result with
      | inl e => inl e
      | inr configs => add_documents rest configs
      end
  end.

(** What reading one file gives: the documents [yaml.safe_load_all] yields,
    in order, and the exception with which [open] or the YAML parser stops
    after them, if any. *)
Record YamlFile := {
  yielded : list Document;
  stopped : option Exn
}.

(** The loop over the files. *)
Fixpoint add_files
    (files : list YamlFile)
    (configs : list DatasetConfig * list QualityConfig)
    : Exn + (list DatasetConfig * list QualityConfig) :=
  match files with
  | [] => inr configs
  | file :: rest =>
      match add_documents (yielded file) configs with
      | inl e => inl e
      | inr configs =>
          match stopped file with
          | Some e => inl e
          | None => add_files rest configs
          end
      end
  end.

Definition _create_configs (files : list YamlFile)
  : Exn + (list DatasetConfig * list QualityConfig) :=
  match add_files files ([], []) with
  | inl e => inl e
  | inr configs =>
      if (List.length (fst configs) =? 0)%nat then
        inl (DokAnalysisException
               ("Could not create any dataset configurations from the files in "
                ++ dquote ++ "DOKANALYSE_CONFIG_DIR" ++ dquote)%string)
      else inr configs
  end.

(** The exception a document makes the loop raise, if any: the
    AttributeError of [result.get] for a document that is not a mapping, or
    what the constructor for its type raises other than a
    [ValidationError]. *)
Definition document_error (result : Document) : option Exn :=
  if is_mapping result then
    match document_type result with
    | Some type =>
        if String.eqb type "dataset" then
          match construct_dataset result with
          | Raised e => Some e
          | _ => None
          end
        else if String.eqb type "quality" then
          match construct_quality result with
          | Raised e => Some e
          | _ => None
          end
        else None
    | None => None
    end
  else Some (AttributeError "get").

(** The dataset configuration, or the quality configuration, a document
    gives: that of a mapping of this type from which the model is built. *)
Definition dataset_of (result : Document) : list DatasetConfig :=
  match is_mapping result, document_type result, construct_dataset result with
  | true, Some type, Built config =>
      if String.eqb type "dataset" then [config] else []
  | _, _, _ => []
  end.

Definition quality_of (result : Document) : list QualityConfig :=
  match is_mapping result, document_type result, construct_quality result with
  | true, Some type, Built config =>
      if String.eqb type "quality" then [config] else []
  | _, _, _ => []
  end.

(** The documents of all files, in file and document order, and the
    configurations they give. *)
Definition documents_of (files : list YamlFile) : list Document :=
  flat_map yielded files.

Definition valid_datasets (files : list YamlFile) : list DatasetConfig :=
  flat_map dataset_of (documents_of files).

Definition valid_qualities (files : list YamlFile) : list QualityConfig :=
  flat_map quality_of (documents_of files).

(** A file is read to its end, and none of its documents makes the loop
    raise. *)
Definition loads (file : YamlFile) : Prop :=
  stopped file = None /\
  Forall (fun result => document_error result = None) (yielded file).

(** The files before [file] load, and [file] makes the loop raise [e]: one of
    its documents is the first to do so, or reading it stops with [e] after
    documents that all pass. *)
Definition first_failure (files : list YamlFile) (e : Exn) : Prop :=
  exists files_before file files_after,
    files = files_before ++ file :: files_after /\
    Forall loads files_before /\
    ((exists before result after,
        yielded file = before ++ result :: after /\
        Forall (fun result => document_error result = None) before /\
        document_error result = Some e) \/
     (Forall (fun result => document_error result = None) (yielded file) /\
      stopped file = Some e)).

End Configuration.

(** ** services/fact_sheet/roads.py *)

(** A dict of running totals, in insertion order: [d[k] += v] for a key the
    dict holds, [d[k] = v] for a new one. *)
Section Totals.

Context {K V : Type}.
Variable eqb : K -> K -> bool.
Variable add : V -> V -> V.

Fixpoint add_to_key (d : list (K * V)) (k : K) (v : V) : list (K * V) :=
  match d with
  | [] => [(k, v)]
  | (k0, v0) :: rest =>
      if eqb k0 k then (k0, add v0 v) :: rest
      else (k0, v0) :: add_to_key rest k v
  end.

(** The keys of a list, each once, in the order of their first appearance. *)
Fixpoint distinct (keys : list K) : list K :=
  match keys with
  | [] => []
  | k :: rest => k :: filter (fun x => negb (eqb x k)) (distinct rest)
  end.

(** The values listed under a key, in order, and their sum, added up from
    the first one in this order ([default] when there is none). *)
Definition values_of (k : K) (entries : list (K * V)) : list V :=
  map snd (filter (fun entry => eqb (fst entry) k) entries).

Definition total (default : V) (k : K) (entries : list (K * V)) : V :=
  match values_of k entries with
  | [] => default
  | v :: vs => fold_left add vs v
  end.

End Totals.

Section Roads.

Context {Geometry Num Feature PropValue Metadata CoverageWfs GeoJson RequestContext : Type}.
Variable ext :
  @Collaborators Geometry Num Feature PropValue Metadata CoverageWfs GeoJson
                 RequestContext.

(** [geometry.Length()] of OGR. *)
Variable Length : Geometry -> Num.

(** [props.get('typeVeg')] and
    [props.get('vegsystemreferanse', {}).get('vegsystem', {}).get('vegkategori')]
    for the properties of a feature: a string, or [None]. *)
Variable typeVeg : Feature -> option string.
Variable vegkategori : Feature -> option string.

(** [utils/helpers/common.py], applied to a key of the dict of totals. *)
Variable from_camel_case : option string -> string.

(** [==] on values that are a string or [None]. *)
Definition key_eqb (a b : option string) : bool :=
  match a, b with
  | Some x, Some y => String.eqb x y
  | None, None => true
  | _, _ => false
  end.

(** The road type of a feature: for "enkelBilveg" with a road category, the
    label of the first entry of the road category codelist with this value,
    when there is one.  The generator over the codelist raises when the
    codelist is [None]. *)
Definition road_type_of (feature : Feature) : Exn + option string :=
  let road_type := typeVeg feature in
  if key_eqb road_type (Some "enkelBilveg") then
    match vegkategori feature with
    | Some road_category =>
        match get_codelist ext "vegkategori" with
        | None => inl (TypeError "'NoneType' object is not iterable")
        | Some road_categories =>
            match find (fun rc => String.eqb (entry_value rc) road_category)
                       road_categories with
            | Some entry => inr (entry_label entry)
            | None => inr road_type
            end
        end
    | None => inr road_type
    end
  else inr road_type.

(** One turn of the loop over the features. *)
Definition add_feature
    (road_types : list (option string * Num)) (feature : Feature)
    : Exn + list (option string * Num) :=
  let json_str := dumps_geometry ext feature in
  let geometry := geometry_from_json ext json_str in
  match road_type_of feature with
  | inl e => inl e
  | inr road_type =>
      match geometry with
      | None => inl (AttributeError "Length")
      | Some g =>
          inr (add_to_key key_eqb (num_add ext) road_types road_type (Length g))
      end
  end.

Fixpoint collect_roads
    (features : list Feature) (road_types : list (option string * Num))
    : Exn + list (option string * Num) :=
  match features with
  | [] => inr road_types
  | feature :: rest =>
      match add_feature road_types feature with
      | inl e => inl e
      | inr road_types => collect_roads rest road_types
      end
  end.

(** An entry of the result: a dict with the keys ['roadType'] and
    ['length']. *)
Record RoadEntry := { roadType : string; road_length : Num }.

(** [features] is [response.get('features', [])]. *)
Definition _map_response (features : list Feature) : Exn + list RoadEntry :=
  match collect_roads features [] with
  | inl e => inl e
  | inr road_types =>
      inr (map (fun item =>
                  {| roadType := from_camel_case (fst item);
                     road_length := round_ndigits ext (snd item) 2 |})
               road_types)
  end.

(** The road type and the length of a feature, when both are there. *)
Definition typed_length (feature : Feature) : option (option string * Num) :=
  match road_type_of feature,
        geometry_from_json ext (dumps_geometry ext feature) with
  | inr road_type, Some g => Some (road_type, Length g)
  | _, _ => None
  end.

End Roads.

Section More.

Context {Geometry : Type}.
Context {Num : Type}.
Context {Feature : Type}.
Context {PropValue : Type}.
Context {Metadata : Type}.
Context {CoverageWfs : Type}.
Context {GeoJson : Type}.
Context {RequestContext : Type}.
Context {FactSheet : Type}.   (* models/fact_sheet.py *)
Context {Report : Type}.      (* what [report] holds once it is set *)

Variable ext :
  @Collaborators Geometry Num Feature PropValue Metadata CoverageWfs GeoJson
                 RequestContext.

(** [utils/helpers/geometry.py]: [add_geojson_crs] writes the CRS of
    [orig_epsg] into the GeoJSON dict it is given. *)
Variable add_geojson_crs : GeoJson -> Z -> GeoJson.

(** [props.get(key)] on the dict [__map_properties] builds. *)
Definition dict_get (props : @Props PropValue) (key : string) : option PropValue :=
  match find (fun entry => String.eqb (fst entry) key) props with
  | Some entry => Some (snd entry)
  | None => None
  end.

(** ** models/analysis_response.py *)

Record AnalysisResponse := {
  response_input_geometry : GeoJson;
  response_input_geometry_area : Num;
  response_municipality_number : string;
  response_municipality_name : string;
  response_fact_sheet : FactSheet;
  response_result_list : list (@Analysis Geometry Num PropValue Metadata GeoJson);
  response_report : option Report
}.

Definition create
    (geo_json : GeoJson) (geometry : Geometry) (epsg orig_epsg buffer : Z)
    (fact_sheet : FactSheet) (municipality_number municipality_name : string)
    : AnalysisResponse :=
  let geo_json := add_geojson_crs geo_json orig_epsg in
  let geometry_area :=
    if 0 <? buffer then
      let buffered_geom := create_buffered_geometry ext geometry buffer epsg in
      round_ndigits ext (GetArea ext buffered_geom) 2
    else round_ndigits ext (GetArea ext geometry) 2 in
  {| response_input_geometry := geo_json;
     response_input_geometry_area := geometry_area;
     response_municipality_number := municipality_number;
     response_municipality_name := municipality_name;
     response_fact_sheet := fact_sheet;
     response_result_list := [];
     response_report := None |}.

(** ** Analysis.run, its last stages

    Lines 76 to 84 of [run]: the distance stage, the step label and the
    default data; and lines 86 to 90: the guidance data and the quality
    measurements. *)
Abbreviation M_ := (@M Geometry Num PropValue Metadata CoverageWfs GeoJson).

Definition deliver (ty : PyType) : M_ unit :=
  bind get_self (fun a =>
  bind (if ResultStatus_eqb (result_status a) NO_HIT_GREEN
           || ResultStatus_eqb (result_status a) NO_HIT_YELLOW
        then await_method ext ty "set_distance_to_object"
        else ret tt) (fun _ =>
  bind (call_str ty "add_run_algorithm" "deliver result") (fun _ =>
  bind (assign (fun a =>
                  set_run_on_input_geometry_json
                    (Some (create_run_on_input_geometry_json
                             ext (run_on_input_geometry a) (epsg a) (orig_epsg a)))
                    a)) (fun _ =>
  await_method ext ty "set_default_data")))).

Definition annotate
    (context : RequestContext)
    (include_guidance include_quality_measurement : bool) : M_ unit :=
  bind get_self (fun a =>
  bind (if include_guidance
           && match geolett a with Some _ => true | None => false end
        then private "__set_guidance_data" (__set_guidance_data ext)
        else ret tt) (fun _ =>
  if include_quality_measurement
  then private "__set_quality_measurements"
               (__set_quality_measurements ext context)
  else ret tt)).

End More.
(** ** A concrete deployment

    One instance of the collaborators, on which the model runs by
    computation.  A geometry is its text, a feature is the text of its
    geometry (["null"] when it has none), numbers are integers, and a WFS
    reference stands for the coverage values the service returns. *)

Definition demo_indicator
    (kind : QualityIndicatorType) (thresholds : list string)
    (wfs : option (list string)) : @QualityIndicator (list string) :=
  {| indicator_type := kind;
     indicator_quality_dimension_id := "fullstendighet_dekning";
     indicator_quality_dimension_name := "Fullstendighetsdekning";
     indicator_quality_warning_text := "Datasettet har ikke full dekning";
     indicator_warning_threshold := thresholds;
     indicator_wfs := wfs |}.

Definition demo_quality_configs : list (@QualityConfig (list string)) :=
  [ {| quality_config_dataset_id := Some "ikke-relevant";
       quality_config_indicators :=
         [demo_indicator COVERAGE ["ikkeKartlagt"] (Some ["ikkeRelevant"])] |};
    {| quality_config_dataset_id := Some "ikke-kartlagt";
       quality_config_indicators :=
         [demo_indicator COVERAGE ["ikkeKartlagt"] (Some ["ikkeKartlagt"])] |};
    {| quality_config_dataset_id := Some "kartlagt";
       quality_config_indicators :=
         [demo_indicator COVERAGE ["ikkeKartlagt"] (Some ["kartlagt"])] |};
    {| quality_config_dataset_id := Some "coverage-second";
       quality_config_indicators :=
         [demo_indicator OTHER_KIND [] None;
          demo_indicator COVERAGE ["ikkeKartlagt"] (Some ["kartlagt"])] |};
    {| quality_config_dataset_id := Some "two-coverage";
       quality_config_indicators :=
         [demo_indicator COVERAGE ["ikkeKartlagt"] (Some ["kartlagt"]);
          demo_indicator COVERAGE ["ikkeKartlagt"] (Some ["kartlagt"])] |} ].

(** The dataset service answers by layer name. *)
Definition demo_query_ogc_api
    (base layer geom_field : string) (geometry : option string) (epsg : Z)
    : Z * option (list string) :=
  if String.eqb layer "timeout" then (408, None)
  else if String.eqb layer "error" then (500, None)
  else if String.eqb layer "empty" then (200, Some [])
  else if String.eqb layer "hit"
       then (200, Some ["POLYGON a"; "LINESTRING b"; "null"; "POLYGON cd"])
  else (200, None).

Definition demo_geometry_type (g : string) : Z :=
  if String.prefix "POLYGON" g then wkbPolygon
  else if String.prefix "MULTIPOLYGON" g then wkbMultiPolygon
  else 2.

Definition demo_ext
  : @Collaborators string Z string string string (list string) unit unit :=
  {| _load_config := ([], demo_quality_configs);
     get_threshold_values := fun qi => indicator_warning_threshold qi;
     get_values_from_wfs := fun wfs _ _ => (wfs, 50);
     get_codelist := fun _ => None;
     get_kartkatalog_metadata := fun id => Some id;
     _fetch_geolett_data := Some [];
     _fetch_local_geolett_data := [];
     get_raster_result := fun _ _ => None;
     get_cartography_url := fun _ _ => None;
     get_dataset_quality := fun _ _ _ _ => ([], []);
     get_object_quality := fun _ _ => ([], []);
     query_ogc_api := demo_query_ogc_api;
     create_buffered_geometry := fun g _ _ => g;
     create_run_on_input_geometry_json := fun _ _ _ => tt;
     geometry_from_json := fun s => if String.eqb s "null" then None else Some s;
     transform_geometry := fun g _ _ => g;
     Clone := fun g => g;
     GetArea := fun g => Z.of_nat (String.length g);
     Intersection := fun _ g => Some g;
     GetGeometryType := demo_geometry_type;
     Distance := fun _ g => Z.of_nat (String.length g);
     dumps_geometry := fun feature => feature;
     get_property := fun feature _ => feature;
     num_of_Z := fun z => z;
     num_add := Z.add;
     num_lt := Z.ltb;
     round_ndigits := fun x _ => x;
     round_int := fun x => x;
     str_num := fun _ => "50";
     lower := fun s => s;
     splitlines := fun s => [s];
     lstrip := fun s _ => s;
     last_segment := fun s => s;
     keys_to_camel_case := fun props => props |}.

Definition demo_layer (name : string) : Layer :=
  {| layer_ogc_api := name; layer_wms := "wms"; layer_geolett_id := None;
     layer_result_status := HIT_RED |}.

Definition demo_config (layers : list string) : DatasetConfig :=
  {| config_title := "Kvikkleire"; config_themes := ["Samfunnssikkerhet"];
     config_layers := map demo_layer layers; config_ogc_api := "https://ogc";
     config_geom_field := "geom"; config_properties := ["navn"];
     config_wms := "https://wms" |}.

(** A fresh analysis object of the demo, as [__init__] leaves it. *)
Definition demo_analysis (dataset_id : UUID) (layers : list string)
  : @Analysis string Z string string unit :=
  __init__ dataset_id (demo_config layers) "POLYGON input" 25833 4326 None.

(** A subclass of [OgcApiAnalysis] that binds the three names the pipeline
    looks up to the methods [OgcApiAnalysis] and [Analysis] hold under other
    names:
    [[
      class Bound(OgcApiAnalysis):
          run_queries = OgcApiAnalysis._run_queries
          set_distance_to_object = OgcApiAnalysis._set_distance_to_object
          _add_run_algorithm = Analysis.add_run_algorithm
    ]] *)
Definition Bound_class : PyType :=
  class_
    [ ("run_queries", OgcApiAnalysis__run_queries);
      ("set_distance_to_object", OgcApiAnalysis__set_distance_to_object);
      ("_add_run_algorithm", Analysis_add_run_algorithm) ]
    OgcApiAnalysis_class.



(** ** A deployment with a guidance register

    The deployment above, with a guidance register of one entry that the
    layers of its datasets refer to. *)

Definition demo_geolett : Geolett :=
  {| geolett_id := "9e0b8aa2-1f3c-4d55-8a4e-2f6d3b7c1a10";
     tittel := "Kvikkleire og skredfare";
     forklarendeTekst := "Omradet ligger i en faresone";
     dialogtekst := "Vurder grunnforholdene";
     lenker := [ {| lenke_href := "https://veileder"; lenke_tittel := "Veileder" |} ];
     muligeTiltak := "Grunnundersokelse av omradet" |}.

(** The codelist of road categories. *)
Definition demo_road_categories : list CodelistEntry :=
  [ {| entry_value := "E"; entry_label := Some "Europaveg" |};
    {| entry_value := "F"; entry_label := Some "Fylkesveg" |} ].

Definition guided_ext
  : @Collaborators string Z string string string (list string) unit unit :=
  {| _load_config := _load_config demo_ext;
     get_threshold_values := get_threshold_values demo_ext;
     get_values_from_wfs := get_values_from_wfs demo_ext;
     get_codelist :=
       fun name =>
         if String.eqb name "vegkategori" then Some demo_road_categories
         else None;
     get_kartkatalog_metadata := get_kartkatalog_metadata demo_ext;
     _fetch_geolett_data := Some [demo_geolett];
     _fetch_local_geolett_data := [];
     get_raster_result := get_raster_result demo_ext;
     get_cartography_url := get_cartography_url demo_ext;
     get_dataset_quality := get_dataset_quality demo_ext;
     get_object_quality := get_object_quality demo_ext;
     query_ogc_api := query_ogc_api demo_ext;
     create_buffered_geometry := create_buffered_geometry demo_ext;
     create_run_on_input_geometry_json := create_run_on_input_geometry_json demo_ext;
     geometry_from_json := geometry_from_json demo_ext;
     transform_geometry := transform_geometry demo_ext;
     Clone := Clone demo_ext;
     GetArea := GetArea demo_ext;
     Intersection := Intersection demo_ext;
     GetGeometryType := GetGeometryType demo_ext;
     Distance := Distance demo_ext;
     dumps_geometry := dumps_geometry demo_ext;
     get_property := get_property demo_ext;
     num_of_Z := num_of_Z demo_ext;
     num_add := num_add demo_ext;
     num_lt := num_lt demo_ext;
     round_ndigits := round_ndigits demo_ext;
     round_int := round_int demo_ext;
     str_num := str_num demo_ext;
     lower := lower demo_ext;
     splitlines := splitlines demo_ext;
     lstrip := lstrip demo_ext;
     last_segment := last_segment demo_ext;
     keys_to_camel_case := keys_to_camel_case demo_ext |}.

(** The demo deployment with a buffer that changes the geometry: the
    buffered geometry is 9 units larger. *)
Definition buffering_ext
  : @Collaborators string Z string string string (list string) unit unit :=
  {| _load_config := _load_config demo_ext;
     get_threshold_values := get_threshold_values demo_ext;
     get_values_from_wfs := get_values_from_wfs demo_ext;
     get_codelist := get_codelist demo_ext;
     get_kartkatalog_metadata := get_kartkatalog_metadata demo_ext;
     _fetch_geolett_data := _fetch_geolett_data demo_ext;
     _fetch_local_geolett_data := _fetch_local_geolett_data demo_ext;
     get_raster_result := get_raster_result demo_ext;
     get_cartography_url := get_cartography_url demo_ext;
     get_dataset_quality := get_dataset_quality demo_ext;
     get_object_quality := get_object_quality demo_ext;
     query_ogc_api := query_ogc_api demo_ext;
     create_buffered_geometry :=
       fun g _ _ => (g ++ " buffered")%string;
     create_run_on_input_geometry_json := create_run_on_input_geometry_json demo_ext;
     geometry_from_json := geometry_from_json demo_ext;
     transform_geometry := transform_geometry demo_ext;
     Clone := Clone demo_ext;
     GetArea := GetArea demo_ext;
     Intersection := Intersection demo_ext;
     GetGeometryType := GetGeometryType demo_ext;
     Distance := Distance demo_ext;
     dumps_geometry := dumps_geometry demo_ext;
     get_property := get_property demo_ext;
     num_of_Z := num_of_Z demo_ext;
     num_add := num_add demo_ext;
     num_lt := num_lt demo_ext;
     round_ndigits := round_ndigits demo_ext;
     round_int := round_int demo_ext;
     str_num := str_num demo_ext;
     lower := lower demo_ext;
     splitlines := splitlines demo_ext;
     lstrip := lstrip demo_ext;
     last_segment := last_segment demo_ext;
     keys_to_camel_case := keys_to_camel_case demo_ext |}.

Definition guided_layer (name : string) : Layer :=
  {| layer_ogc_api := name; layer_wms := "wms";
     layer_geolett_id := Some (geolett_id demo_geolett);
     layer_result_status := HIT_RED |}.

Definition guided_config (layers : list string) : DatasetConfig :=
  {| config_title := "Kvikkleire"; config_themes := ["Samfunnssikkerhet"];
     config_layers := map guided_layer layers; config_ogc_api := "https://ogc";
     config_geom_field := "geom"; config_properties := ["navn"];
     config_wms := "https://wms" |}.

(** A fresh analysis object of this deployment, with a buffer of 10. *)
Definition guided_analysis (dataset_id : UUID) (layers : list string)
  : @Analysis string Z string string unit :=
  __init__ dataset_id (guided_config layers) "POLYGON input" 25833 4326 (Some 10).

(** A small codelist. *)
Definition demo_codelist : list CodelistEntry :=
  [ {| entry_value := "kartlagt"; entry_label := Some "Kartlagt" |};
    {| entry_value := "ikkeKartlagt"; entry_label := Some "Ikke kartlagt" |};
    {| entry_value := "ikkeKartlagt"; entry_label := Some "Uten dekning" |} ].

(** Road features of the deployment: the text of a feature starts with its
    type ("bil" for "enkelBilveg", "gang" for "gangOgSykkelveg"), followed by
    its road category when it has one; its geometry is the text itself. *)
Definition demo_typeVeg (feature : string) : option string :=
  if String.prefix "bil" feature then Some "enkelBilveg"
  else if String.prefix "gang" feature then Some "gangOgSykkelveg"
  else None.

Definition demo_vegkategori (feature : string) : option string :=
  if String.prefix "bilE" feature then Some "E"
  else if String.prefix "bilF" feature then Some "F"
  else None.

Definition demo_Length (g : string) : Z := Z.of_nat (String.length g).

Definition demo_from_camel_case (key : option string) : string :=
  match key with
  | Some s => s
  | None => "None"
  end.

Definition demo_roads : list string :=
  ["bilE 1"; "gang 22"; "bilE 333"; "bil 4444"].
(** ** Relations between the worlds before and after a stage

    Each says which attributes of [self] a stage leaves alone and which calls
    it may add to the log. *)

Section Frames.

Context {Geometry Num PropValue Metadata CoverageWfs GeoJson : Type}.

Abbreviation World_ := (@World Geometry Num PropValue Metadata CoverageWfs GeoJson).
Abbreviation Call_ := (@Call Geometry CoverageWfs).

(** [l'] is [l] followed by calls that all satisfy [p]. *)
Definition extends_by (p : Call_ -> bool) (l l' : list Call_) : Prop :=
  exists new, l' = l ++ new /\ forallb p new = true.

Definition is_invoke (name : string) (c : Call_) : bool :=
  match c with
  | Invoke n => String.eqb n name
  | _ => false
  end.

(** The calls of [prepare]: its two private methods, the step-label
    appender and the coverage evaluator. *)
Definition prepare_call (c : Call_) : bool :=
  match c with
  | Invoke name =>
      str_in name ["__set_input_geometry"; "__run_coverage_analysis";
                   "add_run_algorithm"]
  | GetCoverageQuality _ => true
  | QueryOgcApi _ _ _ => false
  end.

(** The calls of the query stage and of [set_default_data]: anything but
    the area and the distance stage. *)
Definition query_call (c : Call_) : bool :=
  negb (is_invoke "__set_geometry_areas" c)
  && negb (is_invoke "set_distance_to_object" c).

(** The calls of the distance stage and the final stages: neither a stage
    before them nor the coverage evaluator. *)
Definition late_call (c : Call_) : bool :=
  match c with
  | Invoke name =>
      negb (str_in name ["__set_input_geometry"; "__run_coverage_analysis";
                         "run_queries"; "__set_geometry_areas"])
  | GetCoverageQuality _ => false
  | QueryOgcApi _ _ _ => true
  end.

Definition prepared (w w' : World_) : Prop :=
  dataset_id (self w') = dataset_id (self w) /\
  config (self w') = config (self w) /\
  geometry (self w') = geometry (self w) /\
  epsg (self w') = epsg (self w) /\
  geometries (self w') = geometries (self w) /\
  geolett (self w') = geolett (self w) /\
  input_geometry_area (self w') = input_geometry_area (self w) /\
  hit_area (self w') = hit_area (self w) /\
  distance_to_object (self w') = distance_to_object (self w) /\
  result_status (self w') = result_status (self w) /\
  extends_by prepare_call (calls w) (calls w').

Definition queried (w w' : World_) : Prop :=
  dataset_id (self w') = dataset_id (self w) /\
  config (self w') = config (self w) /\
  epsg (self w') = epsg (self w) /\
  run_on_input_geometry (self w') = run_on_input_geometry (self w) /\
  input_geometry_area (self w') = input_geometry_area (self w) /\
  hit_area (self w') = hit_area (self w) /\
  distance_to_object (self w') = distance_to_object (self w) /\
  extends_by query_call (calls w) (calls w').

Definition finished (w w' : World_) : Prop :=
  input_geometry_area (self w') = input_geometry_area (self w) /\
  hit_area (self w') = hit_area (self w) /\
  result_status (self w') = result_status (self w) /\
  extends_by late_call (calls w) (calls w').

(** No constraint on the worlds: used when only the exceptions matter. *)
Definition any_world (w w' : World_) : Prop := True.

(** [keeps R E c]: whatever the start, [c] leaves a world related by [R] to
    the one it started in, and an exception it raises satisfies [E]. *)
Definition keeps {A : Type} (R : World_ -> World_ -> Prop) (E : Exn -> Prop)
    (c : @M Geometry Num PropValue Metadata CoverageWfs GeoJson A) : Prop :=
  forall w, R w (snd (c w)) /\ (forall e, fst (c w) = inl e -> E e).

(** Any exception but [DokAnalysisException]. *)
Definition not_dok (e : Exn) : Prop :=
  match e with
  | DokAnalysisException _ => False
  | _ => True
  end.

End Frames.


(** ** Relations for the invariants of a whole run *)

Section Invariants.

Context {Geometry Num PropValue Metadata CoverageWfs GeoJson : Type}.

Abbreviation World__ := (@World Geometry Num PropValue Metadata CoverageWfs GeoJson).

(** What the caller gave the object stays what it was. *)
Definition same_inputs (w w' : World__) : Prop :=
  dataset_id (self w') = dataset_id (self w) /\
  config (self w') = config (self w) /\
  geometry (self w') = geometry (self w) /\
  epsg (self w') = epsg (self w) /\
  orig_epsg (self w') = orig_epsg (self w) /\
  buffer (self w') = buffer (self w) /\
  coverage_statuses (self w') = coverage_statuses (self w).

(** The lists the pipeline collects only grow at their end. *)
Definition only_appended (w w' : World__) : Prop :=
  prefix_of (run_algorithm (self w)) (run_algorithm (self w')) /\
  prefix_of (quality_measurement (self w)) (quality_measurement (self w')) /\
  prefix_of (quality_warning (self w)) (quality_warning (self w')) /\
  prefix_of (guidance_uri (self w)) (guidance_uri (self w')) /\
  prefix_of (possible_actions (self w)) (possible_actions (self w')).

(** A step label other than "add buffer". *)
Definition not_add_buffer (label : string) : bool :=
  negb (String.eqb label "add buffer").

(** The step labels added are not "add buffer". *)
Definition no_buffer_label (w w' : World__) : Prop :=
  appended_by not_add_buffer (run_algorithm (self w)) (run_algorithm (self w')).

(** The guidance attributes stay what they were. *)
Definition guidance_untouched (w w' : World__) : Prop :=
  description (self w') = description (self w) /\
  guidance_text (self w') = guidance_text (self w) /\
  guidance_uri (self w') = guidance_uri (self w) /\
  possible_actions (self w') = possible_actions (self w).

(** The result status and the guidance entry stay what they were, and with
    the status NO_HIT_GREEN so do the two guidance texts. *)
Definition guidance_rule (w w' : World__) : Prop :=
  result_status (self w') = result_status (self w) /\
  geolett (self w') = geolett (self w) /\
  (result_status (self w) = NO_HIT_GREEN ->
   description (self w') = description (self w) /\
   guidance_text (self w') = guidance_text (self w)).

(** With the status NO_HIT_GREEN at the end, the two guidance texts are what
    they were. *)
Definition green_keeps_texts (w w' : World__) : Prop :=
  result_status (self w') = NO_HIT_GREEN ->
  description (self w') = description (self w) /\
  guidance_text (self w') = guidance_text (self w).

(** The result status, the guidance entry and the guidance attributes stay
    what they were. *)
Definition same_guidance (w w' : World__) : Prop :=
  result_status (self w') = result_status (self w) /\
  geolett (self w') = geolett (self w) /\
  guidance_untouched w w'.

(** The calls in the log are still there, in their order, at its front. *)
Definition calls_grow (w w' : World__) : Prop :=
  prefix_of (calls w) (calls w').

(** The step label [_run_queries] adds for a layer it has asked, and the
    calls it makes for such a layer: the dataset query, which reports 200,
    and the step-label appender. *)
Definition intersect_label (layer : Layer) : string :=
  ("intersect layer " ++ layer_ogc_api layer)%string.

Definition layer_calls (run_on : option Geometry) (layer : Layer)
  : list (@Call Geometry CoverageWfs) :=
  [QueryOgcApi (layer_ogc_api layer) run_on 200; Invoke "_add_run_algorithm"].

(** The title, the themes, the dataset metadata and what they are computed
    from stay what they were. *)
Definition same_default_data (w w' : World__) : Prop :=
  title (self w') = title (self w) /\
  themes (self w') = themes (self w) /\
  run_on_dataset (self w') = run_on_dataset (self w) /\
  geolett (self w') = geolett (self w).

(** The distance stage has not run: the distance is what it was and the
    calls added are not calls of [set_distance_to_object]. *)
Definition not_distance_call (c : @Call Geometry CoverageWfs) : bool :=
  negb (is_invoke "set_distance_to_object" c).

Definition no_distance_stage (w w' : World__) : Prop :=
  distance_to_object (self w') = distance_to_object (self w) /\
  result_status (self w') = result_status (self w) /\
  extends_by not_distance_call (calls w) (calls w').

(** As [no_distance_stage], but the result status may change. *)
Definition distance_untouched (w w' : World__) : Prop :=
  distance_to_object (self w') = distance_to_object (self w) /\
  extends_by not_distance_call (calls w) (calls w').

(** The working geometry stays what it was. *)
Definition same_working_geometry (w w' : World__) : Prop :=
  run_on_input_geometry (self w') = run_on_input_geometry (self w).

End Invariants.
(** * Properties *)

Section CoverageQuality.

Context {Geometry Num Feature PropValue Metadata CoverageWfs GeoJson RequestContext : Type}.
Variable ext :
  @Collaborators Geometry Num Feature PropValue Metadata CoverageWfs GeoJson
                 RequestContext.

Lemma str_in_In (v : string) (values : list string) :
  str_in v values = true <-> In v values.
Proof.
  unfold str_in. rewrite existsb_exists. split.
  - intros [x [Hin Heq]]. apply String.eqb_eq in Heq. now subst.
  - intros Hin. exists v. split; [assumption | apply String.eqb_refl].
Qed.

(** [_has_coverage] is false exactly on a non-empty list that holds nothing
    but "ikkeKartlagt". *)
Lemma _has_coverage_false_iff (values : list string) :
  _has_coverage values = false <->
  values <> [] /\ (forall v, In v values -> v = "ikkeKartlagt").
Proof.
  unfold _has_coverage. split.
  - destruct (str_in "ikkeKartlagt" values) eqn:Hin; [|discriminate].
    intros Hex. split.
    + apply str_in_In in Hin. intros ->. contradiction.
    + intros v Hv.
      destruct (String.eqb v "ikkeKartlagt") eqn:Hv'.
      * now apply String.eqb_eq.
      * assert (existsb (fun value => negb (String.eqb value "ikkeKartlagt")) values = true).
        { apply existsb_exists. exists v. now rewrite Hv'. }
        congruence.
  - intros [Hne Hall].
    assert (Hin : str_in "ikkeKartlagt" values = true).
    { destruct values as [|v rest]; [contradiction|].
      apply str_in_In. left. apply Hall. now left. }
    rewrite Hin.
    apply not_true_is_false. intros Hex.
    apply existsb_exists in Hex. destruct Hex as [v [Hv Hneq]].
    rewrite (Hall v Hv) in Hneq. discriminate.
Qed.

Lemma get_coverage_quality_has_coverage
    (quality_indicator : QualityIndicator) (geometry : option Geometry) (epsg : Z) :
  snd (get_coverage_quality ext quality_indicator geometry epsg) =
  match fst (_get_values_from_web_service ext quality_indicator geometry epsg) with
  | [] => false
  | values => _has_coverage values
  end.
Proof.
  unfold get_coverage_quality, _get_coverage_quality_data.
  destruct (_get_values_from_web_service ext quality_indicator geometry epsg)
    as [values percent].
  destruct values; reflexivity.
Qed.

(** C5: an empty list of coverage values gives no measurements, no warning
    and hasCoverage = false; a list holding nothing but "ikkeKartlagt" gives
    hasCoverage = false; "ikkeKartlagt" together with a value that is neither
    sentinel gives hasCoverage = true; and so does every other combination. *)
Theorem coverage_adequacy_by_values
    (quality_indicator : QualityIndicator) (geometry : option Geometry) (epsg : Z) :
  let values :=
    fst (_get_values_from_web_service ext quality_indicator geometry epsg) in
  let result := get_coverage_quality ext quality_indicator geometry epsg in
  (values = [] -> result = ([], None, false)) /\
  (values <> [] -> (forall v, In v values -> v = "ikkeKartlagt") ->
   snd result = false) /\
  (In "ikkeKartlagt" values ->
   (exists v, In v values /\ v <> "ikkeKartlagt" /\ v <> "ikkeRelevant") ->
   snd result = true) /\
  (values <> [] -> ~ (forall v, In v values -> v = "ikkeKartlagt") ->
   snd result = true).
Proof.
  cbv zeta.
  rewrite get_coverage_quality_has_coverage.
  unfold get_coverage_quality, _get_coverage_quality_data.
  destruct (_get_values_from_web_service ext quality_indicator geometry epsg)
    as [values percent].
  cbn [fst].
  repeat split.
  - intros ->. reflexivity.
  - intros Hne Hall. destruct values as [|v rest]; [reflexivity|].
    apply _has_coverage_false_iff. split; [discriminate | assumption].
  - intros Hin [v [Hv [Hk _]]].
    destruct values as [|v0 rest]; [contradiction|].
    apply not_false_is_true. intros Hf.
    apply _has_coverage_false_iff in Hf. destruct Hf as [_ Hall].
    apply Hk, Hall, Hv.
  - intros Hne Hnot.
    destruct values as [|v0 rest]; [contradiction|].
    apply not_false_is_true. intros Hf.
    apply _has_coverage_false_iff in Hf. destruct Hf as [_ Hall].
    apply Hnot, Hall.
Qed.

(** [should_warn] finds a value that is not the empty string and is one of
    the threshold values. *)
Lemma should_warn_iff (threshold_values values : list string) :
  should_warn threshold_values values = true <->
  exists v, In v values /\ v <> "" /\ In v threshold_values.
Proof.
  unfold should_warn, truthy. rewrite existsb_exists. split.
  - intros [v [Hv Hb]].
    apply andb_true_iff in Hb. destruct Hb as [Hex Hne].
    apply existsb_exists in Hex. destruct Hex as [t [Ht Hb]].
    apply andb_true_iff in Hb. destruct Hb as [Heq _].
    apply String.eqb_eq in Heq. subst t.
    exists v. repeat split; try assumption.
    intros ->. discriminate.
  - intros [v [Hv [Hne Ht]]].
    assert (Hv' : negb (String.eqb v "") = true).
    { apply negb_true_iff. now apply String.eqb_neq. }
    exists v. split; [assumption|].
    apply andb_true_iff. split; [|assumption].
    apply existsb_exists. exists v. split; [assumption|].
    now rewrite String.eqb_refl.
Qed.

End CoverageQuality.

Section CoverageWarning.

Context {Geometry Num Feature PropValue Metadata CoverageWfs GeoJson RequestContext : Type}.
Variable ext :
  @Collaborators Geometry Num Feature PropValue Metadata CoverageWfs GeoJson
                 RequestContext.

(** The coverage warning for values that are not the empty string: it is
    produced exactly when a non-empty returned value is one of the threshold
    values, and its text is the percentage with a decimal comma, " % av " and
    the lower-cased warning text when the percentage lies strictly between 0
    and 100, the warning text itself otherwise. *)
Theorem coverage_warning_text
    (quality_indicator : QualityIndicator) (values : list string) (percent : Num) :
  let threshold_values := get_threshold_values ext quality_indicator in
  let base := indicator_quality_warning_text quality_indicator in
  let warning := _get_warning_text ext quality_indicator values percent in
  (warning <> None <->
   exists v, In v values /\ v <> "" /\ In v threshold_values) /\
  (forall text, warning = Some text ->
     text =
     if num_lt ext (num_of_Z ext 0) percent && num_lt ext percent (num_of_Z ext 100)
     then (replace "." "," (str_num ext percent) ++ " % av " ++ lower ext base)%string
     else base).
Proof.
  cbv zeta. unfold _get_warning_text.
  rewrite <- should_warn_iff.
  destruct (should_warn (get_threshold_values ext quality_indicator) values).
  - split.
    + split; [reflexivity|].
      intros _.
      destruct (num_lt ext (num_of_Z ext 0) percent
                && num_lt ext percent (num_of_Z ext 100)); discriminate.
    + intros text.
      destruct (num_lt ext (num_of_Z ext 0) percent
                && num_lt ext percent (num_of_Z ext 100));
        intros H; now inversion H.
  - split.
    + split; [intros H; now contradiction H | discriminate].
    + discriminate.
Qed.

End CoverageWarning.

(** ** The display order of quality measurements *)

Section DisplayOrder.

Variable qms : list QualityMeasurement.

(** The loop of [__sort_quality_measurements] appends, id by id, the
    measurements of that dimension. *)
Lemma sort_loop_flat_map (order : list string) (acc : list QualityMeasurement) :
  fold_left
    (fun sorted id =>
       let result :=
         filter (fun qm => String.eqb (quality_dimension_id qm) id) qms in
       if (0 <? List.length result)%nat then sorted ++ result else sorted)
    order acc
  = acc ++ flat_map (fun id => filter (has_dimension id) qms) order.
Proof.
  revert acc. induction order as [|id order IH]; intros acc; cbn.
  - now rewrite app_nil_r.
  - rewrite IH. unfold has_dimension at 2.
    destruct (filter (fun qm => String.eqb (quality_dimension_id qm) id) qms)
      as [|qm rest] eqn:Hf; cbn.
    + reflexivity.
    + now rewrite <- app_assoc.
Qed.

Lemma in_segments (order : list string) (qm : QualityMeasurement) :
  In qm (flat_map (fun id => filter (has_dimension id) qms) order) <->
  In qm qms /\ In (quality_dimension_id qm) order.
Proof.
  rewrite in_flat_map. split.
  - intros [id [Hid Hin]]. apply filter_In in Hin. destruct Hin as [Hin Heq].
    apply String.eqb_eq in Heq. subst id. now split.
  - intros [Hin Hid]. exists (quality_dimension_id qm). split; [assumption|].
    apply filter_In. split; [assumption|]. apply String.eqb_refl.
Qed.

Lemma filter_segment (d id : string) :
  filter (has_dimension d) (filter (has_dimension id) qms) =
  if String.eqb id d then filter (has_dimension d) qms else [].
Proof.
  induction qms as [|qm rest IH]; cbn.
  - now destruct (String.eqb id d).
  - destruct (has_dimension id qm) eqn:Hid; cbn.
    + unfold has_dimension in Hid. apply String.eqb_eq in Hid.
      destruct (String.eqb id d) eqn:Hd.
      * now rewrite IH.
      * rewrite IH.
        assert (Hf : has_dimension d qm = false).
        { unfold has_dimension. rewrite Hid. exact Hd. }
        now rewrite Hf.
    + destruct (String.eqb id d) eqn:Hd.
      * apply String.eqb_eq in Hd. subst d. now rewrite Hid.
      * exact IH.
Qed.

Lemma filter_segments_absent (d : string) (order : list string) :
  ~ In d order ->
  filter (has_dimension d)
         (flat_map (fun id => filter (has_dimension id) qms) order) = [].
Proof.
  induction order as [|id order IH]; intros Hnot; cbn; [reflexivity|].
  rewrite filter_app, filter_segment, IH.
  - destruct (String.eqb id d) eqn:Hd; [|reflexivity].
    apply String.eqb_eq in Hd. subst. exfalso. apply Hnot. now left.
  - intros Hin. apply Hnot. now right.
Qed.

Lemma filter_segments_present (d : string) (order : list string) :
  NoDup order -> In d order ->
  filter (has_dimension d)
         (flat_map (fun id => filter (has_dimension id) qms) order)
  = filter (has_dimension d) qms.
Proof.
  induction order as [|id order IH]; intros Hnd Hin; [contradiction|].
  inversion Hnd as [|? ? Hnotin Hnd']; subst.
  cbn. rewrite filter_app, filter_segment.
  destruct (String.eqb id d) eqn:Hd.
  - apply String.eqb_eq in Hd. subst d.
    rewrite filter_segments_absent by assumption. now rewrite app_nil_r.
  - destruct Hin as [->|Hin].
    + rewrite String.eqb_refl in Hd. discriminate.
    + now rewrite IH.
Qed.

Lemma segments_sorted (order : list string) :
  NoDup order ->
  StronglySorted
    (fun x y => (index_of (quality_dimension_id x) order
                 <= index_of (quality_dimension_id y) order)%nat)
    (flat_map (fun id => filter (has_dimension id) qms) order).
Proof.
  induction order as [|id order IH]; intros Hnd; cbn; [constructor|].
  inversion Hnd as [|? ? Hnotin Hnd']; subst.
  specialize (IH Hnd').
  assert (Hhead : forall x, In x (filter (has_dimension id) qms) ->
                            String.eqb id (quality_dimension_id x) = true).
  { intros x Hx. apply filter_In in Hx. destruct Hx as [_ Hx].
    unfold has_dimension in Hx. now rewrite String.eqb_sym. }
  assert (Htail : forall y,
             In y (flat_map (fun i => filter (has_dimension i) qms) order) ->
             String.eqb id (quality_dimension_id y) = false).
  { intros y Hy. apply in_segments in Hy. destruct Hy as [_ Hy].
    apply String.eqb_neq. intros ->. contradiction. }
  induction (filter (has_dimension id) qms) as [|x seg IHseg]; cbn.
  - clear Hhead.
    induction IH as [|y l Hsorted IHl Hall]; constructor.
    + apply IHl. intros z Hz. apply Htail. now right.
    + rewrite Forall_forall in *. intros z Hz.
      rewrite (Htail y) by now left.
      rewrite (Htail z) by now right.
      apply le_n_S, Hall, Hz.
  - constructor.
    + apply IHseg. intros z Hz. apply Hhead. now right.
    + rewrite Forall_forall. intros z Hz.
      rewrite (Hhead x) by now left. apply Nat.le_0_l.
Qed.

End DisplayOrder.

(** ** Reasoning about the pipeline *)

Section Pipeline.

Context {Geometry Num Feature PropValue Metadata CoverageWfs GeoJson RequestContext : Type}.
Variable ext :
  @Collaborators Geometry Num Feature PropValue Metadata CoverageWfs GeoJson
                 RequestContext.

Abbreviation World' := (@World Geometry Num PropValue Metadata CoverageWfs GeoJson).
Abbreviation M' := (@M Geometry Num PropValue Metadata CoverageWfs GeoJson).
Abbreviation Analysis' := (@Analysis Geometry Num PropValue Metadata GeoJson).

(** C8: the serialized quality measurements are ordered by the place of
    their dimension id in the fixed priority list; a measurement is in the
    output exactly when it is in the input and its dimension id is in that
    list; and the measurements of one dimension are those of the input, in
    their input order. *)
Theorem quality_measurements_display_order (a : Analysis') :
  let serialized := key_qualityMeasurement (to_dict ext a) in
  StronglySorted (fun x y => (priority x <= priority y)%nat) serialized /\
  (forall qm, In qm serialized <->
              In qm (quality_measurement a) /\
              In (quality_dimension_id qm) _QMS_SORT_ORDER) /\
  (forall id, In id _QMS_SORT_ORDER ->
              filter (has_dimension id) serialized =
              filter (has_dimension id) (quality_measurement a)).
Proof.
  assert (Hnd : NoDup _QMS_SORT_ORDER).
  { unfold _QMS_SORT_ORDER.
    repeat (constructor; [cbn; intuition discriminate|]). constructor. }
  cbv zeta. cbn [to_dict key_qualityMeasurement].
  rewrite map_id. unfold __sort_quality_measurements.
  rewrite sort_loop_flat_map. cbn [app].
  split; [|split].
  - apply segments_sorted, Hnd.
  - intros qm. apply in_segments.
  - intros id Hid. now apply filter_segments_present.
Qed.

(** *** The frame rule for the monad *)

Section Frame.

Variable R : World' -> World' -> Prop.
Variable E : Exn -> Prop.
Hypothesis R_refl : forall w, R w w.
Hypothesis R_trans : forall w1 w2 w3, R w1 w2 -> R w2 w3 -> R w1 w3.

Lemma keeps_ret {A : Type} (x : A) : keeps R E (ret x).
Proof. intros w. split; [apply R_refl | discriminate]. Qed.

Lemma keeps_raise {A : Type} (e : Exn) : E e -> keeps R E (@raise _ _ _ _ _ _ A e).
Proof.
  intros He w. split; [apply R_refl|]. cbn. intros e' H. now inversion H; subst.
Qed.

Lemma keeps_get_self : keeps R E get_self.
Proof. intros w. split; [apply R_refl | discriminate]. Qed.

Lemma keeps_lift {A : Type} (r : Exn + A) :
  (forall e, r = inl e -> E e) -> keeps R E (lift r).
Proof.
  intros He. destruct r as [e|x]; cbn.
  - apply keeps_raise. now apply He.
  - apply keeps_ret.
Qed.

Lemma keeps_assign (f : Analysis' -> Analysis') :
  (forall w, R w {| self := f (self w); calls := calls w |}) ->
  keeps R E (assign f).
Proof. intros H w. split; [apply H | discriminate]. Qed.

Lemma keeps_log (c : Call) :
  (forall w, R w {| self := self w; calls := calls w ++ [c] |}) ->
  keeps R E (log c).
Proof. intros H w. split; [apply H | discriminate]. Qed.

Lemma keeps_bind {A B : Type} (c : M' A) (k : A -> M' B) :
  keeps R E c -> (forall x, keeps R E (k x)) -> keeps R E (bind c k).
Proof.
  intros Hc Hk w. unfold bind.
  destruct (Hc w) as [HR HE].
  destruct (c w) as [[e|x] w1]; cbn in *.
  - split; [assumption|]. intros e' H. inversion H; subst. now apply HE.
  - destruct (Hk x w1) as [HR' HE'].
    split; [eapply R_trans; eassumption | exact HE'].
Qed.

End Frame.

(** *** The stage relations are preorders *)

Abbreviation Call' := (@Call Geometry CoverageWfs).

Lemma extends_by_refl (p : Call' -> bool) (l : list Call') : extends_by p l l.
Proof. exists []. split; [now rewrite app_nil_r | reflexivity]. Qed.

Lemma extends_by_trans (p : Call' -> bool) (l1 l2 l3 : list Call') :
  extends_by p l1 l2 -> extends_by p l2 l3 -> extends_by p l1 l3.
Proof.
  intros [n1 [-> H1]] [n2 [-> H2]]. exists (n1 ++ n2). split.
  - now rewrite app_assoc.
  - rewrite forallb_app, H1, H2. reflexivity.
Qed.

Lemma extends_by_snoc (p : Call' -> bool) (l : list Call') (c : Call') :
  p c = true -> extends_by p l (l ++ [c]).
Proof. intros H. exists [c]. split; [reflexivity | cbn; now rewrite H]. Qed.

Lemma extends_by_not_in (p : Call' -> bool) (l l' : list Call') (c : Call') :
  extends_by p l l' -> p c = false -> ~ In c l -> ~ In c l'.
Proof.
  intros [new [-> Hall]] Hp Hnot Hin.
  apply in_app_or in Hin. destruct Hin as [Hin|Hin]; [contradiction|].
  rewrite forallb_forall in Hall. specialize (Hall c Hin). congruence.
Qed.

Lemma prepared_refl (w : World') : prepared w w.
Proof. unfold prepared. repeat split; apply extends_by_refl. Qed.

Lemma prepared_trans (w1 w2 w3 : World') :
  prepared w1 w2 -> prepared w2 w3 -> prepared w1 w3.
Proof.
  unfold prepared. intros H1 H2.
  repeat match goal with H : _ /\ _ |- _ => destruct H end.
  repeat match goal with |- _ /\ _ => split end; try congruence.
  eapply extends_by_trans; eassumption.
Qed.

Lemma queried_refl (w : World') : queried w w.
Proof. unfold queried. repeat split; apply extends_by_refl. Qed.

Lemma queried_trans (w1 w2 w3 : World') :
  queried w1 w2 -> queried w2 w3 -> queried w1 w3.
Proof.
  unfold queried. intros H1 H2.
  repeat match goal with H : _ /\ _ |- _ => destruct H end.
  repeat match goal with |- _ /\ _ => split end; try congruence.
  eapply extends_by_trans; eassumption.
Qed.

Lemma finished_refl (w : World') : finished w w.
Proof. unfold finished. repeat split; apply extends_by_refl. Qed.

Lemma finished_trans (w1 w2 w3 : World') :
  finished w1 w2 -> finished w2 w3 -> finished w1 w3.
Proof.
  unfold finished. intros H1 H2.
  repeat match goal with H : _ /\ _ |- _ => destruct H end.
  repeat match goal with |- _ /\ _ => split end; try congruence.
  eapply extends_by_trans; eassumption.
Qed.

Lemma any_world_refl (w : World') : any_world w w.
Proof. exact I. Qed.

Lemma any_world_trans (w1 w2 w3 : World') :
  any_world w1 w2 -> any_world w2 w3 -> any_world w1 w3.
Proof. intros _ _. exact I. Qed.

Lemma get_geolett_data_not_dok (id : option UUID) (e : Exn) :
  get_geolett_data ext id = inl e -> not_dok e.
Proof.
  unfold get_geolett_data. destruct id as [id|]; [|discriminate].
  destruct (if uuid_in_strs id _LOCAL_GEOLETT_IDS
            then Some (_fetch_local_geolett_data ext)
            else _fetch_geolett_data ext); [discriminate|].
  intros H. inversion H. exact I.
Qed.

(** The loop over the features raises at most [AttributeError] and changes
    nothing. *)
Lemma keeps_feature_distances
    (R : World' -> World' -> Prop) (E : Exn -> Prop)
    (R_refl : forall w, R w w)
    (R_trans : forall w1 w2 w3, R w1 w2 -> R w2 w3 -> R w1 w3)
    (E_attr : forall attr, E (AttributeError attr))
    (run_on : option Geometry) (features : list Feature) :
  keeps R E (feature_distances ext run_on features).
Proof.
  induction features as [|feature rest IH]; cbn.
  - now apply keeps_ret.
  - destruct (__get_geometry_from_response ext feature); [|exact IH].
    destruct run_on.
    + apply keeps_bind; [assumption | exact IH |].
      intros distances. now apply keeps_ret.
    + apply keeps_raise; [assumption | apply E_attr].
Qed.

(** *** Stepping through a computation under a frame *)

Ltac rel_refl :=
  first [ exact prepared_refl | exact queried_refl | exact finished_refl
        | exact any_world_refl ].

Ltac rel_trans :=
  first [ exact prepared_trans | exact queried_trans | exact finished_trans
        | exact any_world_trans ].

Ltac extends_solve :=
  first
    [ apply extends_by_refl
    | eapply extends_by_trans;
      [ | apply extends_by_snoc; reflexivity ]; extends_solve ].

Ltac rel_step :=
  intros;
  first
    [ exact I
    | unfold prepared, queried, finished; cbn;
      repeat match goal with |- _ /\ _ => split end;
      try reflexivity;
      extends_solve ].

Ltac exn_ok :=
  first [ exact I | assumption | intros; exact I
        | intros; eapply get_geolett_data_not_dok; eassumption ].

Ltac keeps_step :=
  cbv beta iota zeta;
  lazymatch goal with
  | H : keeps ?R ?E ?c |- keeps ?R ?E ?c => exact H
  | H : forall g, keeps ?R ?E (query_layers _ ?ty ?ls g)
    |- keeps ?R ?E (query_layers _ ?ty ?ls _) => apply H
  | H : forall ls g, keeps ?R ?E (query_layers _ ?ty ls g)
    |- keeps ?R ?E (query_layers _ ?ty _ _) => apply H
  | |- keeps ?R ?E (bind _ _) =>
      apply (keeps_bind R E); [rel_trans | | intro]
  | |- keeps ?R ?E (ret _) => apply (keeps_ret R E); rel_refl
  | |- keeps ?R ?E (raise _) => apply (keeps_raise R E); [rel_refl | exn_ok]
  | |- keeps ?R ?E get_self => apply (keeps_get_self R E); rel_refl
  | |- keeps ?R ?E (lift _) =>
      apply (keeps_lift R E); [rel_refl | exn_ok]
  | |- keeps ?R ?E (feature_distances _ _ _) =>
      apply (keeps_feature_distances R E); [rel_refl | rel_trans | exn_ok]
  | |- keeps ?R ?E (assign _) => apply (keeps_assign R E); rel_step
  | |- keeps ?R ?E (log _) => apply (keeps_log R E); rel_step
  | H : ?ty ?name = _ |- keeps _ _ (match ?ty ?name with _ => _ end) =>
      rewrite H
  | |- keeps _ _ (match ?x with _ => _ end) => destruct x eqn:?
  end.

Ltac keeps_run := repeat keeps_step.

Ltac keeps_unfold :=
  unfold finish, prepare, await_method, method_body, _run_queries,
    _set_distance_to_object, set_default_data, __set_guidance_data,
    __set_quality_measurements, __set_geometry_areas, __set_input_geometry,
    __run_coverage_analysis, call_str, private, add_run_algorithm.

Lemma finish_finished
    (ty : PyType) (context : RequestContext)
    (include_guidance include_quality_measurement : bool) :
  Analysis_subclass ty ->
  keeps finished not_dok
        (finish ext ty context include_guidance include_quality_measurement).
Proof.
  intros (Hadd & Hdef & Hdist).
  keeps_unfold.
  destruct Hdist as [Hdist|Hdist]; keeps_run.
Qed.

Lemma query_layers_not_dok (ty : PyType) (layers : list Layer) :
  forall geolett_data,
    keeps any_world not_dok (query_layers ext ty layers geolett_data).
Proof.
  induction layers as [|layer rest IH]; intros geolett_data;
    cbn [query_layers]; keeps_unfold; keeps_run.
Qed.

Lemma after_prepare_not_dok
    (ty : PyType) (context : RequestContext)
    (include_guidance include_quality_measurement : bool) :
  Analysis_subclass ty ->
  keeps any_world not_dok
        (after_prepare ext ty context include_guidance
                       include_quality_measurement).
Proof.
  intros (Hadd & Hdef & Hdist).
  pose proof (query_layers_not_dok ty) as Hloop.
  unfold after_prepare. keeps_unfold.
  destruct Hdist as [Hdist|Hdist]; keeps_run.
Qed.

Lemma prepare_prepared (ty : PyType) :
  keeps prepared (fun _ => True) (prepare ext ty).
Proof. keeps_unfold. keeps_run. Qed.

(** [run] is [prepare] followed by [after_prepare]. *)
Lemma run_after_prepare
    (ty : PyType) (context : RequestContext)
    (include_guidance include_quality_measurement : bool) (w : World') :
  run ext ty context include_guidance include_quality_measurement w =
  match prepare ext ty w with
  | (inl e, w1) => (inl e, w1)
  | (inr _, w1) =>
      after_prepare ext ty context include_guidance
                    include_quality_measurement w1
  end.
Proof.
  unfold run, prepare, after_prepare, bind.
  destruct (private "__set_input_geometry" (__set_input_geometry ext ty) w)
    as [[e|[]] w1]; [reflexivity|].
  destruct (private "__run_coverage_analysis" (__run_coverage_analysis ext ty) w1)
    as [[e|[]] w2]; reflexivity.
Qed.

Lemma set_input_geometry_outcome (ty : PyType) (w : World') :
  ty "add_run_algorithm" = Some Analysis_add_run_algorithm ->
  exists w1,
    private "__set_input_geometry" (__set_input_geometry ext ty) w = (inr tt, w1) /\
    dataset_id (self w1) = dataset_id (self w) /\
    epsg (self w1) = epsg (self w) /\
    has_coverage (self w1) = has_coverage (self w) /\
    run_on_input_geometry (self w1) = Some (working_geometry ext (self w)).
Proof.
  intros Hadd.
  unfold private, __set_input_geometry, call_str, bind, log, add_run_algorithm,
    assign, get_self, working_geometry.
  rewrite Hadd. cbn.
  destruct (0 <? buffer (self w)); cbn; eexists; repeat split.
Qed.

Lemma run_coverage_analysis_outcome (ty : PyType) (w : World') :
  ty "add_run_algorithm" = Some Analysis_add_run_algorithm ->
  let qis := get_quality_indicator_configs ext (dataset_id (self w)) in
  let n := List.length (coverage_indicators ext (dataset_id (self w))) in
  let r := private "__run_coverage_analysis" (__run_coverage_analysis ext ty) w in
  ((1 < n)%nat ->
   fst r = inl (DokAnalysisException
                  "A dataset can only have one coverage quality indicator")) /\
  (n = 0%nat ->
   fst r = inr tt /\ has_coverage (self (snd r)) = has_coverage (self w)) /\
  (n = 1%nat ->
   exists qi,
     nth_error qis 0 = Some qi /\
     fst r = inr tt /\
     has_coverage (self (snd r)) =
       snd (get_coverage_quality ext qi (run_on_input_geometry (self w))
                                 (epsg (self w))) /\
     In (GetCoverageQuality qi) (calls (snd r))).
Proof.
  intros Hadd. cbv zeta.
  unfold coverage_indicators, is_coverage, private, __run_coverage_analysis,
    call_str, bind, log, add_run_algorithm, assign, get_self.
  rewrite Hadd. cbn.
  destruct (get_quality_indicator_configs ext (dataset_id (self w)))
    as [|qi rest] eqn:Hqis; cbn [List.length Nat.eqb].
  - cbn. split; [|split]; intros H; try lia. now split.
  - destruct (filter
                (fun indicator : QualityIndicator =>
                   QualityIndicatorType_eqb (indicator_type indicator) COVERAGE)
                (qi :: rest)) as [|c1 [|c2 more]] eqn:Hcov;
      cbn [List.length Nat.eqb Nat.ltb Nat.leb].
    + cbn. split; [|split]; intros H; try lia. now split.
    + cbn.
      destruct (get_coverage_quality ext qi (run_on_input_geometry (self w))
                                     (epsg (self w)))
        as [[measurements warning] has_cov] eqn:Hq.
      split; [|split]; intros H; try lia.
      exists qi. split; [reflexivity|]. rewrite ?Hq.
      destruct warning; cbn; (split; [reflexivity|]); (split; [reflexivity|]);
        apply in_or_app; right; now left.
    + cbn. split; [|split]; intros H; try lia. reflexivity.
Qed.

Lemma prepare_outcome (ty : PyType) (w : World') :
  ty "add_run_algorithm" = Some Analysis_add_run_algorithm ->
  let qis := get_quality_indicator_configs ext (dataset_id (self w)) in
  let n := List.length (coverage_indicators ext (dataset_id (self w))) in
  let r := prepare ext ty w in
  ((1 < n)%nat ->
   fst r = inl (DokAnalysisException
                  "A dataset can only have one coverage quality indicator")) /\
  (n = 0%nat ->
   fst r = inr tt /\ has_coverage (self (snd r)) = has_coverage (self w)) /\
  (n = 1%nat ->
   exists qi,
     nth_error qis 0 = Some qi /\
     fst r = inr tt /\
     has_coverage (self (snd r)) =
       snd (get_coverage_quality ext qi (Some (working_geometry ext (self w)))
                                 (epsg (self w))) /\
     In (GetCoverageQuality qi) (calls (snd r))).
Proof.
  intros Hadd. cbv zeta.
  destruct (set_input_geometry_outcome ty w Hadd)
    as [w1 (Heq & Hid & Hepsg & Hhc & Hgeo)].
  pose proof (run_coverage_analysis_outcome ty w1 Hadd) as Hcov.
  cbv zeta in Hcov. rewrite Hid, Hepsg, Hhc, Hgeo in Hcov.
  unfold prepare, bind. rewrite Heq. exact Hcov.
Qed.

(** C3: with more than one COVERAGE-kind indicator configured for the
    dataset, [run] raises the DokAnalysisException of the coverage check, and
    neither the query stage nor a dataset query has run by then; with none or
    one configured, [run] raises no DokAnalysisException. *)
Theorem coverage_indicator_configuration_error
    (ty : PyType) (context : RequestContext)
    (include_guidance include_quality_measurement : bool) (a : Analysis') :
  Analysis_subclass ty ->
  let n := List.length (coverage_indicators ext (dataset_id a)) in
  let r := run ext ty context include_guidance include_quality_measurement
               (start a) in
  ((1 < n)%nat ->
   fst r = inl (DokAnalysisException
                  "A dataset can only have one coverage quality indicator") /\
   ~ In (Invoke "run_queries") (calls (snd r)) /\
   (forall layer geometry status_code,
      ~ In (QueryOgcApi layer geometry status_code) (calls (snd r)))) /\
  ((n <= 1)%nat -> ~ is_DokAnalysisException (fst r)).
Proof.
  intros Hsub. pose proof Hsub as (Hadd & _). cbv zeta.
  rewrite run_after_prepare.
  pose proof (prepare_outcome ty (start a) Hadd) as Hout. cbv zeta in Hout.
  destruct Hout as (Hmany & Hnone & Hone).
  destruct (prepare_prepared ty (start a)) as [Hframe _].
  change (dataset_id (self (start a))) with (dataset_id a) in *.
  destruct (prepare ext ty (start a)) as [[e|[]] w1]; cbn [fst snd] in *.
  - split.
    + intros Hn. split; [now apply Hmany|].
      destruct Hframe as (_ & _ & _ & _ & _ & _ & _ & _ & _ & _ & Hcalls).
      split; [|intros layer geometry status_code];
        (eapply extends_by_not_in; [exact Hcalls | reflexivity | intros []]).
    + intros Hn Hdok.
      assert (Hcase : List.length (coverage_indicators ext (dataset_id a)) = 0%nat
                      \/ List.length (coverage_indicators ext (dataset_id a)) = 1%nat)
        by lia.
      destruct Hcase as [H0|H1].
      * destruct (Hnone H0) as [Habs _]. discriminate.
      * destruct (Hone H1) as [qi (_ & Habs & _)]. discriminate.
  - split.
    + intros Hn. specialize (Hmany Hn). discriminate.
    + intros _ Hdok.
      destruct (after_prepare_not_dok ty context include_guidance
                  include_quality_measurement Hsub w1) as [_ Hexn].
      destruct (fst (after_prepare ext ty context include_guidance
                                   include_quality_measurement w1))
        as [e|] eqn:Hr; [|exact Hdok].
      specialize (Hexn e eq_refl). destruct e; cbn in *; contradiction.
Qed.

(** When coverage is denied, [run] ends with NO_HIT_YELLOW, the areas it
    started with and no call of the query stage. *)
Lemma after_prepare_without_coverage
    (ty : PyType) (context : RequestContext)
    (include_guidance include_quality_measurement : bool) (w : World') :
  Analysis_subclass ty ->
  has_coverage (self w) = false ->
  let w' := snd (after_prepare ext ty context include_guidance
                               include_quality_measurement w) in
  result_status (self w') = NO_HIT_YELLOW /\
  hit_area (self w') = hit_area (self w) /\
  input_geometry_area (self w') = input_geometry_area (self w) /\
  extends_by late_call (calls w) (calls w').
Proof.
  intros Hsub Hcov. cbv zeta.
  assert (Heq : after_prepare ext ty context include_guidance
                              include_quality_measurement w
                = finish ext ty context include_guidance
                         include_quality_measurement
                         {| self := set_result_status NO_HIT_YELLOW (self w);
                            calls := calls w |}).
  { unfold after_prepare, bind, get_self, assign. now rewrite Hcov. }
  rewrite Heq. clear Heq.
  destruct (finish_finished ty context include_guidance
              include_quality_measurement Hsub
              {| self := set_result_status NO_HIT_YELLOW (self w);
                 calls := calls w |}) as [(Harea & Hhit & Hstatus & Hcalls) _].
  cbn in Harea, Hhit, Hstatus, Hcalls.
  repeat split; assumption.
Qed.

Lemma bind_unfold {A B : Type} (c : M' A) (k : A -> M' B) (w : World') :
  bind c k w =
  match c w with
  | (inl e, w') => (inl e, w')
  | (inr x, w') => k x w'
  end.
Proof. reflexivity. Qed.

(** [run] is [through_queries] followed by [after_queries], or by the
    NO_HIT_YELLOW branch when the query stage was skipped. *)
Lemma run_through_queries
    (ty : PyType) (context : RequestContext)
    (include_guidance include_quality_measurement : bool) (w : World') :
  run ext ty context include_guidance include_quality_measurement w =
  match through_queries ext ty w with
  | (inl e, w1) => (inl e, w1)
  | (inr true, w1) =>
      after_queries ext ty context include_guidance
                    include_quality_measurement w1
  | (inr false, w1) =>
      bind (assign (set_result_status NO_HIT_YELLOW))
           (fun _ => finish ext ty context include_guidance
                            include_quality_measurement) w1
  end.
Proof.
  rewrite run_after_prepare.
  unfold through_queries, after_prepare.
  rewrite (bind_unfold (prepare ext ty)).
  destruct (prepare ext ty w) as [[e|[]] w1]; [reflexivity|].
  rewrite !(bind_unfold get_self). unfold get_self.
  destruct (has_coverage (self w1)); [|reflexivity].
  rewrite !(bind_unfold (await_method ext ty "run_queries")).
  destruct (await_method ext ty "run_queries" w1) as [[e|[]] w2]; reflexivity.
Qed.

(** The loop of [__set_geometry_areas] adds up the polygonal hit areas. *)
Lemma add_hit_area_sum
    (run_on : Geometry) (result_geometries : list (option Geometry)) (acc : Num) :
  fold_left (add_hit_area ext run_on) result_geometries acc =
  fold_left (num_add ext) (polygonal_hit_areas ext run_on result_geometries) acc.
Proof.
  revert acc. induction result_geometries as [|geometry rest IH]; intros acc;
    [reflexivity|].
  cbn [fold_left polygonal_hit_areas flat_map].
  rewrite fold_left_app. rewrite IH. f_equal.
  unfold add_hit_area, is_polygonal.
  destruct geometry as [geom|]; [|reflexivity].
  destruct (Intersection ext run_on geom) as [intersection|]; [|reflexivity].
  destruct ((GetGeometryType ext intersection =? wkbPolygon)
            || (GetGeometryType ext intersection =? wkbMultiPolygon));
    reflexivity.
Qed.

Lemma set_geometry_areas_outcome (w : World') (run_on : Geometry) :
  run_on_input_geometry (self w) = Some run_on ->
  exists w2,
    private "__set_geometry_areas" (__set_geometry_areas ext) w = (inr tt, w2) /\
    input_geometry_area (self w2) =
      Some (round_ndigits ext (GetArea ext run_on) 2) /\
    hit_area (self w2) =
      match geometries (self w) with
      | [] => hit_area (self w)
      | result_geometries =>
          Some (round_ndigits ext (hit_area_sum ext run_on result_geometries) 2)
      end.
Proof.
  intros Hgeo.
  unfold private, __set_geometry_areas, bind, log, get_self, assign.
  cbn. rewrite Hgeo. cbn.
  destruct (geometries (self w)) as [|g rest] eqn:Hgs.
  - eexists. repeat split.
  - eexists. split; [reflexivity|]. split; [reflexivity|].
    rewrite add_hit_area_sum. reflexivity.
Qed.

(** C7, as the code has it: when the query stage has completed without
    TIMEOUT or ERROR, inputGeometryArea is the area of the working geometry
    rounded to 2 decimals; when the query left at least one result geometry,
    hitArea is the sum of the areas of the polygon and multi-polygon
    intersections of the non-null result geometries with the working
    geometry, rounded to 2 decimals once; when it left none, hitArea stays as
    it was. *)
Theorem geometry_areas_after_queries
    (ty : PyType) (context : RequestContext)
    (include_guidance include_quality_measurement : bool)
    (w0 w1 : World') (run_on : Geometry) :
  Analysis_subclass ty ->
  through_queries ext ty w0 = (inr true, w1) ->
  result_status (self w1) <> TIMEOUT ->
  result_status (self w1) <> ERROR ->
  run_on_input_geometry (self w1) = Some run_on ->
  let w' := snd (run ext ty context include_guidance
                     include_quality_measurement w0) in
  input_geometry_area (self w') =
    Some (round_ndigits ext (GetArea ext run_on) 2) /\
  hit_area (self w') =
    match geometries (self w1) with
    | [] => hit_area (self w1)
    | result_geometries =>
        Some (round_ndigits ext (hit_area_sum ext run_on result_geometries) 2)
    end.
Proof.
  intros Hsub Hq Htimeout Herror Hgeo. cbv zeta.
  rewrite run_through_queries, Hq.
  unfold after_queries. rewrite (bind_unfold get_self). unfold get_self.
  assert (Hstatus : ResultStatus_eqb (result_status (self w1)) TIMEOUT
                    || ResultStatus_eqb (result_status (self w1)) ERROR = false).
  { destruct (result_status (self w1)); try reflexivity; contradiction. }
  rewrite Hstatus.
  destruct (set_geometry_areas_outcome w1 run_on Hgeo)
    as [w2 (Heq & Harea & Hhit)].
  rewrite bind_unfold, Heq.
  destruct (finish_finished ty context include_guidance
              include_quality_measurement Hsub w2)
    as [(Harea' & Hhit' & _) _].
  rewrite Harea', Hhit'. split; assumption.
Qed.

Lemma coverage_analysis_queried (ty : PyType) :
  keeps queried (fun _ => True)
        (private "__run_coverage_analysis" (__run_coverage_analysis ext ty)).
Proof. keeps_unfold. keeps_run. Qed.

Lemma prepare_working_geometry (ty : PyType) (w : World') :
  ty "add_run_algorithm" = Some Analysis_add_run_algorithm ->
  run_on_input_geometry (self (snd (prepare ext ty w))) =
  Some (working_geometry ext (self w)).
Proof.
  intros Hadd.
  destruct (set_input_geometry_outcome ty w Hadd)
    as [w1 (Heq & _ & _ & _ & Hgeo)].
  unfold prepare. rewrite bind_unfold, Heq.
  destruct (coverage_analysis_queried ty w1) as [(_ & _ & _ & Hsame & _) _].
  rewrite <- Hgeo, <- Hsame.
  now destruct (private "__run_coverage_analysis"
                        (__run_coverage_analysis ext ty) w1) as [[e|[]] w2].
Qed.

(** The loop of [_run_queries] stops at the first layer whose query does
    not report 200, with TIMEOUT for 408 and ERROR otherwise. *)
Lemma query_layers_failure
    (ty : PyType) (cfg : DatasetConfig) (run_on : option Geometry) (e : Z)
    (layer : Layer) (post : list Layer) (status_code : Z)
    (api_response : option (list Feature)) :
  query_ogc_api ext (config_ogc_api cfg) (layer_ogc_api layer)
                (config_geom_field cfg) run_on e = (status_code, api_response) ->
  status_code <> 200 ->
  forall (pre : list Layer) (geolett_data : option Geolett) (w : World'),
    config (self w) = cfg ->
    run_on_input_geometry (self w) = run_on ->
    epsg (self w) = e ->
    (pre = [] \/ ty "_add_run_algorithm" = Some Analysis_add_run_algorithm) ->
    (forall l, In l pre ->
       without_hit (query_ogc_api ext (config_ogc_api cfg) (layer_ogc_api l)
                                  (config_geom_field cfg) run_on e)) ->
    exists w',
      query_layers ext ty (pre ++ layer :: post) geolett_data w
        = (inr geolett_data, w') /\
      result_status (self w') = (if status_code =? 408 then TIMEOUT else ERROR) /\
      geolett (self w') = geolett (self w) /\
      queried w w'.
Proof.
  intros Hquery Hstatus pre.
  induction pre as [|l pre IH]; intros geolett_data w Hcfg Hgeo Hepsg Happ Hpre.
  - cbn [app query_layers].
    unfold bind, get_self, log, assign, ret.
    rewrite Hcfg, Hgeo, Hepsg, Hquery.
    apply Z.eqb_neq in Hstatus.
    destruct (status_code =? 408) eqn:H408; [|rewrite Hstatus]; cbn;
      eexists; (split; [reflexivity|]); (split; [reflexivity|]);
      (split; [reflexivity|]); rel_step.
  - destruct Happ as [Happ|Happ]; [discriminate|].
    destruct (Hpre l (or_introl eq_refl)) as [H200 Hnone].
    cbn [app query_layers].
    unfold bind at 1, get_self.
    rewrite Hcfg, Hgeo, Hepsg.
    destruct (query_ogc_api ext (config_ogc_api cfg) (layer_ogc_api l)
                            (config_geom_field cfg) run_on e)
      as [code response]. cbn [fst snd] in H200, Hnone. subst code.
    unfold bind at 1, log. cbn [Z.eqb Pos.eqb negb].
    unfold bind at 1, call_str. rewrite Happ.
    unfold bind at 1, log. unfold add_run_algorithm, assign.
    match goal with
    | |- exists _, ?f ?w2 = _ /\ _ =>
        set (W2 := w2);
        destruct (IH geolett_data W2) as [w' (Heq & Hres & Hlett & Hframe)];
        [ exact Hcfg | exact Hgeo | exact Hepsg | now right
        | intros l' Hl'; apply Hpre; now right | ]
    end.
    assert (Hstep : queried w W2) by (subst W2; rel_step).
    exists w'.
    destruct Hnone as [->| ->]; cbn -[query_layers]; rewrite Heq;
      (split; [reflexivity|]); (split; [exact Hres|]);
      (split; [exact Hlett|]);
      (eapply queried_trans; [exact Hstep | exact Hframe]).
Qed.

Lemma _run_queries_failure
    (ty : PyType) (cfg : DatasetConfig) (run_on : option Geometry) (e : Z)
    (pre : list Layer) (layer : Layer) (post : list Layer) (status_code : Z)
    (api_response : option (list Feature)) (geolett_data : option Geolett)
    (w : World') :
  config (self w) = cfg ->
  run_on_input_geometry (self w) = run_on ->
  epsg (self w) = e ->
  config_layers cfg = pre ++ layer :: post ->
  (pre = [] \/ ty "_add_run_algorithm" = Some Analysis_add_run_algorithm) ->
  (forall l, In l pre ->
     without_hit (query_ogc_api ext (config_ogc_api cfg) (layer_ogc_api l)
                                (config_geom_field cfg) run_on e)) ->
  get_geolett_data ext (layer_geolett_id (hd layer pre)) = inr geolett_data ->
  query_ogc_api ext (config_ogc_api cfg) (layer_ogc_api layer)
                (config_geom_field cfg) run_on e = (status_code, api_response) ->
  status_code <> 200 ->
  exists w',
    _run_queries ext ty w = (inr tt, w') /\
    result_status (self w') = (if status_code =? 408 then TIMEOUT else ERROR) /\
    geolett (self w') = geolett_data /\
    queried w w'.
Proof.
  intros Hcfg Hgeo Hepsg Hlayers Happ Hpre Hlett Hquery Hstatus.
  destruct (query_layers_failure ty cfg run_on e layer post status_code
              api_response Hquery Hstatus pre geolett_data w
              Hcfg Hgeo Hepsg Happ Hpre)
    as [w' (Heq & Hres & _ & Hframe)].
  unfold _run_queries. rewrite (bind_unfold get_self). unfold get_self.
  rewrite Hcfg, Hlayers.
  assert (Hfirst : nth_error (pre ++ layer :: post) 0 = Some (hd layer pre))
    by now destruct pre.
  rewrite Hfirst, bind_unfold, Hlett. cbn [lift ret].
  rewrite bind_unfold, Heq. unfold assign.
  eexists. split; [reflexivity|]. cbn.
  split; [exact Hres|]. split; [reflexivity|].
  eapply queried_trans; [exact Hframe|]. rel_step.
Qed.

Lemma set_default_data_outcome (ty : PyType) (w : World') :
  ty "set_default_data" = Some Analysis_set_default_data ->
  exists w',
    await_method ext ty "set_default_data" w = (inr tt, w') /\
    title (self w') =
      Some (match geolett (self w) with
            | Some g => tittel g
            | None => config_title (config (self w))
            end) /\
    themes (self w') = Some (config_themes (config (self w))) /\
    run_on_dataset (self w') =
      get_kartkatalog_metadata ext (dataset_id (self w)) /\
    result_status (self w') = result_status (self w) /\
    queried w w'.
Proof.
  intros Hdef.
  unfold await_method. rewrite Hdef.
  unfold method_body, set_default_data, bind, log, get_self, assign.
  cbn. eexists. split; [reflexivity|]. cbn.
  repeat (split; [reflexivity|]). rel_step.
Qed.

(** For a class of the [Analysis] hierarchy that binds run_queries to
    [_run_queries], and [_add_run_algorithm] to the appender when a layer
    comes before: when the coverage is adequate, the layers before some layer
    answer 200 without a hit and the dataset service reports a status other
    than 200 for that layer, the result status becomes TIMEOUT for 408 and
    ERROR otherwise, [run] returns without the area stage and without the
    distance stage, the areas and distanceToObject keep their defaults, and
    title, themes and dataset metadata are set.  No class under src/ binds
    run_queries so. *)
Theorem query_failure_short_circuits
    (ty : PyType) (context : RequestContext)
    (include_guidance include_quality_measurement : bool)
    (dataset_id : UUID) (config : DatasetConfig) (geometry : Geometry)
    (epsg orig_epsg : Z) (buffer : option Z)
    (pre : list Layer) (layer : Layer) (post : list Layer)
    (status_code : Z) (api_response : option (list Feature))
    (geolett_data : option Geolett) :
  let a : Analysis' := __init__ dataset_id config geometry epsg orig_epsg buffer in
  let ask := fun l : Layer =>
    query_ogc_api ext (config_ogc_api config) (layer_ogc_api l)
                  (config_geom_field config)
                  (Some (working_geometry ext a)) epsg in
  Analysis_subclass ty ->
  ty "run_queries" = Some OgcApiAnalysis__run_queries ->
  fst (prepare ext ty (start a)) = inr tt ->
  has_coverage (self (snd (prepare ext ty (start a)))) = true ->
  config_layers config = pre ++ layer :: post ->
  (pre = [] \/ ty "_add_run_algorithm" = Some Analysis_add_run_algorithm) ->
  (forall l, In l pre -> without_hit (ask l)) ->
  get_geolett_data ext (layer_geolett_id (hd layer pre)) = inr geolett_data ->
  ask layer = (status_code, api_response) ->
  status_code <> 200 ->
  let r := run ext ty context include_guidance include_quality_measurement
               (start a) in
  fst r = inr tt /\
  result_status (self (snd r)) = (if status_code =? 408 then TIMEOUT else ERROR) /\
  ~ In (Invoke "__set_geometry_areas") (calls (snd r)) /\
  ~ In (Invoke "set_distance_to_object") (calls (snd r)) /\
  input_geometry_area (self (snd r)) = None /\
  hit_area (self (snd r)) = None /\
  distance_to_object (self (snd r)) = 0 /\
  title (self (snd r)) =
    Some (match geolett_data with
          | Some g => tittel g
          | None => config_title config
          end) /\
  themes (self (snd r)) = Some (config_themes config) /\
  run_on_dataset (self (snd r)) = get_kartkatalog_metadata ext dataset_id.
Proof.
  cbv zeta.
  set (a := __init__ dataset_id config geometry epsg orig_epsg buffer).
  intros Hsub Hq Hret Hcov Hlayers Happ Hpre Hlett Hquery Hstatus.
  pose proof Hsub as (Hadd & Hdef & _).
  rewrite run_after_prepare.
  pose proof (prepare_working_geometry ty (start a) Hadd) as Hgeo.
  destruct (prepare_prepared ty (start a)) as [Hframe _].
  destruct (prepare ext ty (start a)) as [[e|[]] w1]; cbn [fst snd] in *;
    [discriminate|].
  destruct Hframe as (Hid1 & Hcfg1 & _ & Hepsg1 & _ & _ & Harea1 & Hhit1 & Hdist1
                      & _ & Hcalls1).
  cbn in Hid1, Hcfg1, Hepsg1, Harea1, Hhit1, Hdist1, Hcalls1.
  (* the query stage *)
  set (w1a := {| self := self w1; calls := calls w1 ++ [Invoke "run_queries"] |}).
  destruct (_run_queries_failure ty config (Some (working_geometry ext a)) epsg
              pre layer post status_code api_response geolett_data w1a
              Hcfg1 Hgeo Hepsg1 Hlayers Happ Hpre Hlett Hquery Hstatus)
    as [w2 (Heq & Hres & Hlett2 & Hframe2)].
  assert (Hfail : ResultStatus_eqb (result_status (self w2)) TIMEOUT
                  || ResultStatus_eqb (result_status (self w2)) ERROR = true).
  { rewrite Hres. now destruct (status_code =? 408). }
  destruct (set_default_data_outcome ty w2 Hdef)
    as [w3 (Heq3 & Htitle & Hthemes & Hmeta & Hres3 & Hframe3)].
  assert (Hawait : await_method ext ty "run_queries" w1 = (inr tt, w2)).
  { unfold await_method. rewrite Hq.
    cbn [method_body is_coroutine_function].
    rewrite bind_unfold. unfold log. fold w1a.
    rewrite bind_unfold, Heq. reflexivity. }
  assert (Hrun : after_prepare ext ty context include_guidance
                               include_quality_measurement w1 = (inr tt, w3)).
  { unfold after_prepare. rewrite (bind_unfold get_self). unfold get_self.
    rewrite Hcov, bind_unfold, Hawait, bind_unfold, Hfail. exact Heq3. }
  rewrite Hrun. cbn [fst snd].
  pose proof (queried_trans _ _ _ Hframe2 Hframe3)
    as (Hid & Hcfg & _ & _ & Harea & Hhit & Hdist & Hcalls).
  cbn in Hid, Hcfg, Harea, Hhit, Hdist, Hcalls.
  assert (Hcalls1a : extends_by query_call [] (calls w1a)).
  { destruct Hcalls1 as [new [Hnew Hall]]. cbn in Hnew.
    exists (new ++ [Invoke "run_queries"]). split.
    - subst w1a. cbn. now rewrite Hnew.
    - rewrite forallb_app. apply andb_true_iff. split; [|reflexivity].
      rewrite forallb_forall in *. intros c Hc. specialize (Hall c Hc).
      destruct c as [name| |]; try reflexivity.
      cbn in Hall. unfold query_call. cbn.
      destruct (String.eqb name "__set_geometry_areas") eqn:H1;
        [apply String.eqb_eq in H1; subst; discriminate|].
      destruct (String.eqb name "set_distance_to_object") eqn:H2;
        [apply String.eqb_eq in H2; subst; discriminate|].
      reflexivity. }
  pose proof (extends_by_trans _ _ _ _ Hcalls1a Hcalls) as Hall.
  split; [reflexivity|].
  split; [now rewrite Hres3|].
  split; [eapply extends_by_not_in; [exact Hall | reflexivity | intros []]|].
  split; [eapply extends_by_not_in; [exact Hall | reflexivity | intros []]|].
  split; [now rewrite Harea, Harea1|].
  split; [now rewrite Hhit, Hhit1|].
  split; [now rewrite Hdist, Hdist1|].
  split.
  { rewrite Htitle, Hlett2.
    destruct Hframe2 as (_ & Hcfg2 & _). rewrite Hcfg2. cbn. now rewrite Hcfg1. }
  split.
  { rewrite Hthemes.
    destruct Hframe2 as (_ & Hcfg2 & _). rewrite Hcfg2. cbn. now rewrite Hcfg1. }
  rewrite Hmeta.
  destruct Hframe2 as (Hid2 & _). rewrite Hid2. cbn. now rewrite Hid1.
Qed.

(** *** The distance stage *)

Lemma feature_distances_rounded
    (run_on : Geometry) (features : list Feature) (w : World') :
  feature_distances ext (Some run_on) features w
  = (inr (rounded_distances ext run_on features), w).
Proof.
  induction features as [|feature rest IH]; [reflexivity|].
  cbn [feature_distances rounded_distances flat_map].
  destruct (__get_geometry_from_response ext feature) as [feature_geom|].
  - rewrite bind_unfold. fold (rounded_distances ext run_on rest) in *.
    rewrite IH. reflexivity.
  - exact IH.
Qed.

Lemma minimum_min (d x : Z) (l : list Z) :
  minimum (Z.min d x) l = Z.min d (minimum x l).
Proof.
  unfold minimum. revert d x.
  induction l as [|y l IH]; intros d x; cbn; [reflexivity|].
  rewrite <- IH. f_equal. now rewrite Z.min_assoc.
Qed.

(** After [list.sort()] the first element is the least one. *)
Lemma sort_head (d : Z) (l : list Z) :
  exists rest, sort (d :: l) = minimum d l :: rest.
Proof.
  revert d. induction l as [|x l IH]; intros d.
  - exists []. reflexivity.
  - destruct (IH x) as [rest Hrest].
    change (sort (d :: x :: l)) with (insert_sorted d (sort (x :: l))).
    rewrite Hrest. cbn [insert_sorted].
    change (minimum d (x :: l)) with (minimum (Z.min d x) l).
    rewrite minimum_min.
    destruct (d <=? minimum x l) eqn:Hle.
    + apply Z.leb_le in Hle. rewrite Z.min_l by assumption. eauto.
    + apply Z.leb_gt in Hle. rewrite Z.min_r by lia. eauto.
Qed.

Lemma sort_nil_iff (l : list Z) : sort l = [] <-> l = [].
Proof.
  split; [|intros ->; reflexivity].
  destruct l as [|d l]; [reflexivity|].
  destruct (sort_head d l) as [rest H]. rewrite H. discriminate.
Qed.

(** The distance stage of a class that binds [_add_run_algorithm] to the
    step-label appender: it queries the first layer with the input geometry
    buffered by 20000 and stores the least rounded distance from the working
    geometry to a returned feature geometry, or [sys.maxsize] when there is
    no response or no feature geometry. *)
Theorem distance_to_nearest_object
    (ty : PyType) (w : World') (layer : Layer) (rest : list Layer)
    (run_on : Geometry) (status_code : Z) (response : option (list Feature)) :
  ty "_add_run_algorithm" = Some Analysis_add_run_algorithm ->
  config_layers (config (self w)) = layer :: rest ->
  run_on_input_geometry (self w) = Some run_on ->
  let buffered_geom :=
    create_buffered_geometry ext (geometry (self w)) 20000 (epsg (self w)) in
  query_ogc_api ext (config_ogc_api (config (self w))) (layer_ogc_api layer)
                (config_geom_field (config (self w))) (Some buffered_geom)
                (epsg (self w)) = (status_code, response) ->
  let r := _set_distance_to_object ext ty w in
  fst r = inr tt /\
  In (QueryOgcApi (layer_ogc_api layer) (Some buffered_geom) status_code)
     (calls (snd r)) /\
  distance_to_object (self (snd r)) =
    match response with
    | None => maxsize
    | Some features =>
        match rounded_distances ext run_on features with
        | [] => maxsize
        | d :: ds => minimum d ds
        end
    end.
Proof.
  intros Happ Hlayers Hgeo. cbv zeta. intros Hquery.
  unfold _set_distance_to_object.
  rewrite (bind_unfold get_self). unfold get_self.
  rewrite Hlayers. cbn [nth_error]. rewrite Hquery.
  rewrite bind_unfold. unfold log.
  destruct response as [features|].
  - cbn [self]. rewrite Hgeo, bind_unfold, feature_distances_rounded.
    rewrite bind_unfold. unfold call_str. rewrite Happ.
    unfold add_run_algorithm. rewrite bind_unfold. unfold log, assign.
    destruct (rounded_distances ext run_on features) as [|d ds] eqn:Hds.
    + cbn. repeat split. apply in_or_app. left. apply in_or_app. right. now left.
    + destruct (sort_head d ds) as [tail Hsort]. rewrite Hsort.
      cbn. repeat split. apply in_or_app. left. apply in_or_app. right. now left.
  - unfold assign. cbn. repeat split. apply in_or_app. right. now left.
Qed.

(** The coverage check of a dataset with exactly one COVERAGE-kind
    indicator calls the coverage evaluator with the indicator at position 0
    of the dataset's quality indicators and takes its verdict on coverage. *)
Theorem coverage_check_uses_position_zero (ty : PyType) (a : Analysis') :
  ty "add_run_algorithm" = Some Analysis_add_run_algorithm ->
  List.length (coverage_indicators ext (dataset_id a)) = 1%nat ->
  let r := prepare ext ty (start a) in
  exists quality_indicator,
    nth_error (get_quality_indicator_configs ext (dataset_id a)) 0
      = Some quality_indicator /\
    fst r = inr tt /\
    In (GetCoverageQuality quality_indicator) (calls (snd r)) /\
    has_coverage (self (snd r)) =
      snd (get_coverage_quality ext quality_indicator
                                (Some (working_geometry ext a)) (epsg a)).
Proof.
  intros Hadd Hone. cbv zeta.
  destruct (prepare_outcome ty (start a) Hadd) as (_ & _ & H).
  destruct (H Hone) as [qi (Hnth & Hret & Hcov & Hin)].
  exists qi. repeat split; assumption.
Qed.

(** *** Invariants of a whole run *)

Abbreviation keeps' := (@keeps Geometry Num PropValue Metadata CoverageWfs GeoJson).

Lemma appended_by_refl {A : Type} (p : A -> bool) (l : list A) :
  appended_by p l l.
Proof. exists []. split; [now rewrite app_nil_r | reflexivity]. Qed.

Lemma appended_by_trans {A : Type} (p : A -> bool) (l1 l2 l3 : list A) :
  appended_by p l1 l2 -> appended_by p l2 l3 -> appended_by p l1 l3.
Proof.
  intros [s1 [-> H1]] [s2 [-> H2]]. exists (s1 ++ s2). split.
  - now rewrite app_assoc.
  - rewrite forallb_app, H1, H2. reflexivity.
Qed.

Lemma appended_by_app {A : Type} (p : A -> bool) (l suffix : list A) :
  forallb p suffix = true -> appended_by p l (l ++ suffix).
Proof. intros H. now exists suffix. Qed.

Lemma prefix_of_app {A : Type} (l suffix : list A) : prefix_of l (l ++ suffix).
Proof.
  apply appended_by_app. induction suffix; [reflexivity | assumption].
Qed.

Lemma same_inputs_refl (w : World') : same_inputs w w.
Proof. unfold same_inputs. repeat split. Qed.

Lemma same_inputs_trans (w1 w2 w3 : World') :
  same_inputs w1 w2 -> same_inputs w2 w3 -> same_inputs w1 w3.
Proof.
  unfold same_inputs. intros H1 H2.
  repeat match goal with H : _ /\ _ |- _ => destruct H end.
  repeat match goal with |- _ /\ _ => split end; congruence.
Qed.

Lemma only_appended_refl (w : World') : only_appended w w.
Proof. unfold only_appended, prefix_of. repeat split; apply appended_by_refl. Qed.

Lemma only_appended_trans (w1 w2 w3 : World') :
  only_appended w1 w2 -> only_appended w2 w3 -> only_appended w1 w3.
Proof.
  unfold only_appended, prefix_of. intros H1 H2.
  repeat match goal with H : _ /\ _ |- _ => destruct H end.
  repeat match goal with |- _ /\ _ => split end;
    eapply appended_by_trans; eassumption.
Qed.

Lemma no_buffer_label_refl (w : World') : no_buffer_label w w.
Proof. apply appended_by_refl. Qed.

Lemma no_buffer_label_trans (w1 w2 w3 : World') :
  no_buffer_label w1 w2 -> no_buffer_label w2 w3 -> no_buffer_label w1 w3.
Proof. apply appended_by_trans. Qed.

Lemma guidance_untouched_refl (w : World') : guidance_untouched w w.
Proof. unfold guidance_untouched. repeat split. Qed.

Lemma guidance_untouched_trans (w1 w2 w3 : World') :
  guidance_untouched w1 w2 -> guidance_untouched w2 w3 ->
  guidance_untouched w1 w3.
Proof.
  unfold guidance_untouched. intros H1 H2.
  repeat match goal with H : _ /\ _ |- _ => destruct H end.
  repeat match goal with |- _ /\ _ => split end; congruence.
Qed.

Lemma same_guidance_refl (w : World') : same_guidance w w.
Proof. unfold same_guidance, guidance_untouched. repeat split. Qed.

Lemma same_guidance_trans (w1 w2 w3 : World') :
  same_guidance w1 w2 -> same_guidance w2 w3 -> same_guidance w1 w3.
Proof.
  unfold same_guidance, guidance_untouched. intros H1 H2.
  repeat match goal with H : _ /\ _ |- _ => destruct H end.
  repeat match goal with |- _ /\ _ => split end; congruence.
Qed.

Lemma guidance_rule_refl (w : World') : guidance_rule w w.
Proof. unfold guidance_rule. repeat split. Qed.

Lemma guidance_rule_trans (w1 w2 w3 : World') :
  guidance_rule w1 w2 -> guidance_rule w2 w3 -> guidance_rule w1 w3.
Proof.
  unfold guidance_rule. intros (Hs1 & Hg1 & Ht1) (Hs2 & Hg2 & Ht2).
  split; [congruence|]. split; [congruence|].
  intros Hgreen. destruct (Ht1 Hgreen) as [Hd1 Hx1].
  rewrite <- Hs1 in Hgreen. destruct (Ht2 Hgreen) as [Hd2 Hx2].
  split; congruence.
Qed.

Lemma same_guidance_rule (w w' : World') :
  same_guidance w w' -> guidance_rule w w'.
Proof.
  unfold same_guidance, guidance_untouched, guidance_rule.
  intros (Hs & Hg & Hd & Hx & _). repeat split; assumption.
Qed.

Ltac rel_refl ::=
  first [ exact prepared_refl | exact queried_refl | exact finished_refl
        | exact any_world_refl | exact same_inputs_refl
        | exact only_appended_refl | exact no_buffer_label_refl
        | exact guidance_untouched_refl | exact same_guidance_refl
        | exact guidance_rule_refl ].

Ltac rel_trans ::=
  first [ exact prepared_trans | exact queried_trans | exact finished_trans
        | exact any_world_trans | exact same_inputs_trans
        | exact only_appended_trans | exact no_buffer_label_trans
        | exact guidance_untouched_trans | exact same_guidance_trans
        | exact guidance_rule_trans ].

Ltac list_step :=
  first [ apply appended_by_refl
        | apply prefix_of_app
        | apply appended_by_app; reflexivity ].

Ltac rel_step ::=
  intros;
  first
    [ exact I
    | unfold prepared, queried, finished; cbn;
      repeat match goal with |- _ /\ _ => split end;
      try reflexivity;
      extends_solve
    | unfold same_inputs, only_appended, no_buffer_label, same_guidance,
        guidance_untouched, prefix_of;
      cbn;
      repeat match goal with |- _ /\ _ => split end;
      try reflexivity;
      list_step
    | apply same_guidance_rule; unfold same_guidance, guidance_untouched; cbn;
      repeat match goal with |- _ /\ _ => split end;
      reflexivity ].

(** Stepping with the lemmas in the context for the calls that go through
    the class. *)
Ltac keeps_call :=
  match goal with
  | H : forall name arg, keeps ?R ?E (call_str ?ty name arg)
    |- keeps ?R ?E (call_str ?ty _ _) => apply H
  | H : forall name, keeps ?R ?E (await_method _ ?ty name)
    |- keeps ?R ?E (await_method _ ?ty _) => apply H
  end.

Ltac keeps_mod := repeat first [ keeps_call | keeps_step ].

Ltac keeps_call_str :=
  intros; unfold call_str, add_run_algorithm;
  match goal with
  | |- keeps _ _ (match ?ty ?name with _ => _ end) =>
      destruct (ty name) as [[]|]
  end; keeps_run.

Ltac keeps_query_layers :=
  match goal with
  | |- forall layers, _ =>
      let layer := fresh "layer" in
      let rest := fresh "rest" in
      let IH := fresh "IH" in
      intros layers; induction layers as [|layer rest IH]; intros;
      cbn [query_layers]; keeps_mod
  end.

Ltac keeps_await :=
  intros; unfold await_method;
  match goal with
  | |- keeps _ _ (match ?ty ?name with _ => _ end) =>
      destruct (ty name) as [[]|]
  end;
  unfold method_body, _run_queries, _set_distance_to_object, set_default_data;
  keeps_mod.

Ltac keeps_whole_run :=
  unfold run, finish, private, __set_input_geometry, __run_coverage_analysis,
    __set_geometry_areas, __set_guidance_data, __set_quality_measurements;
  keeps_mod.

Section AnyClass.

Variable ty : PyType.

Lemma call_str_same_inputs (name arg : string) :
  keeps' same_inputs (fun _ => True) (call_str ty name arg).
Proof. keeps_call_str. Qed.

Lemma query_layers_same_inputs :
  forall layers geolett_data,
    keeps' same_inputs (fun _ => True) (query_layers ext ty layers geolett_data).
Proof.
  pose proof call_str_same_inputs as Hcall. keeps_query_layers.
Qed.

Lemma await_method_same_inputs (name : string) :
  keeps' same_inputs (fun _ => True) (await_method ext ty name).
Proof.
  pose proof call_str_same_inputs as Hcall.
  pose proof query_layers_same_inputs as Hloop.
  keeps_await.
Qed.

Lemma call_str_only_appended (name arg : string) :
  keeps' only_appended (fun _ => True) (call_str ty name arg).
Proof. keeps_call_str. Qed.

Lemma query_layers_only_appended :
  forall layers geolett_data,
    keeps' only_appended (fun _ => True) (query_layers ext ty layers geolett_data).
Proof.
  pose proof call_str_only_appended as Hcall. keeps_query_layers.
Qed.

Lemma await_method_only_appended (name : string) :
  keeps' only_appended (fun _ => True) (await_method ext ty name).
Proof.
  pose proof call_str_only_appended as Hcall.
  pose proof query_layers_only_appended as Hloop.
  keeps_await.
Qed.

Lemma call_str_guidance_untouched (name arg : string) :
  keeps' guidance_untouched (fun _ => True) (call_str ty name arg).
Proof. keeps_call_str. Qed.

Lemma query_layers_guidance_untouched :
  forall layers geolett_data,
    keeps' guidance_untouched (fun _ => True)
           (query_layers ext ty layers geolett_data).
Proof.
  pose proof call_str_guidance_untouched as Hcall. keeps_query_layers.
Qed.

Lemma await_method_guidance_untouched (name : string) :
  keeps' guidance_untouched (fun _ => True) (await_method ext ty name).
Proof.
  pose proof call_str_guidance_untouched as Hcall.
  pose proof query_layers_guidance_untouched as Hloop.
  keeps_await.
Qed.

End AnyClass.

(** Whatever methods of [Analysis] and [OgcApiAnalysis] the class binds the
    names to that [run] looks up, and whether [run] returns or raises: the
    dataset id, the configuration, the input geometry, the two EPSG codes,
    the buffer and the coverage statuses of the object are what they were
    before the run. *)
Theorem run_keeps_inputs
    (ty : PyType) (context : RequestContext)
    (include_guidance include_quality_measurement : bool) (w : World') :
  let a' := self (snd (run ext ty context include_guidance
                           include_quality_measurement w)) in
  dataset_id a' = dataset_id (self w) /\
  config a' = config (self w) /\
  geometry a' = geometry (self w) /\
  epsg a' = epsg (self w) /\
  orig_epsg a' = orig_epsg (self w) /\
  buffer a' = buffer (self w) /\
  coverage_statuses a' = coverage_statuses (self w).
Proof.
  pose proof (call_str_same_inputs ty) as Hcall.
  pose proof (await_method_same_inputs ty) as Hawait.
  assert (H : keeps' same_inputs (fun _ => True)
                     (run ext ty context include_guidance
                          include_quality_measurement))
    by keeps_whole_run.
  exact (proj1 (H w)).
Qed.

(** Whatever methods of [Analysis] and [OgcApiAnalysis] the class binds the
    names to that [run] looks up, and whether [run] returns or raises: the
    step labels, the quality measurements, the quality warnings, the guidance
    links and the possible actions the object held before the run are still
    there, in their order, at the front of the lists; a run only appends to
    them. *)
Theorem run_only_appends
    (ty : PyType) (context : RequestContext)
    (include_guidance include_quality_measurement : bool) (w : World') :
  let a' := self (snd (run ext ty context include_guidance
                           include_quality_measurement w)) in
  prefix_of (run_algorithm (self w)) (run_algorithm a') /\
  prefix_of (quality_measurement (self w)) (quality_measurement a') /\
  prefix_of (quality_warning (self w)) (quality_warning a') /\
  prefix_of (guidance_uri (self w)) (guidance_uri a') /\
  prefix_of (possible_actions (self w)) (possible_actions a').
Proof.
  pose proof (call_str_only_appended ty) as Hcall.
  pose proof (await_method_only_appended ty) as Hawait.
  assert (H : keeps' only_appended (fun _ => True)
                     (run ext ty context include_guidance
                          include_quality_measurement))
    by keeps_whole_run.
  exact (proj1 (H w)).
Qed.

(** *** The step labels *)

Ltac list_step ::=
  first [ apply appended_by_refl
        | apply prefix_of_app
        | apply appended_by_app; reflexivity
        | apply appended_by_app; cbn [forallb];
          match goal with
          | H : not_add_buffer _ = true |- _ => rewrite H; reflexivity
          end ].

Lemma call_str_no_buffer_label (ty : PyType) (name arg : string) :
  not_add_buffer arg = true ->
  keeps' no_buffer_label (fun _ => True) (call_str ty name arg).
Proof.
  intros Harg. unfold call_str, add_run_algorithm.
  destruct (ty name) as [[]|]; keeps_run.
Qed.

Ltac keeps_label :=
  lazymatch goal with
  | |- keeps no_buffer_label _ (call_str _ _ _) =>
      apply call_str_no_buffer_label; reflexivity
  end.

Ltac keeps_labels := repeat first [ keeps_label | keeps_call | keeps_step ].

Lemma query_layers_no_buffer_label (ty : PyType) :
  forall layers geolett_data,
    keeps' no_buffer_label (fun _ => True)
           (query_layers ext ty layers geolett_data).
Proof.
  intros layers. induction layers as [|layer rest IH]; intros;
    cbn [query_layers]; keeps_labels.
Qed.

Lemma await_method_no_buffer_label (ty : PyType) (name : string) :
  keeps' no_buffer_label (fun _ => True) (await_method ext ty name).
Proof.
  pose proof (query_layers_no_buffer_label ty) as Hloop.
  unfold await_method. destruct (ty name) as [[]|];
    unfold method_body, _run_queries, _set_distance_to_object, set_default_data;
    keeps_labels.
Qed.

Lemma after_prepare_no_buffer_label
    (ty : PyType) (context : RequestContext)
    (include_guidance include_quality_measurement : bool) :
  keeps' no_buffer_label (fun _ => True)
         (after_prepare ext ty context include_guidance
                        include_quality_measurement).
Proof.
  pose proof (await_method_no_buffer_label ty) as Hawait.
  unfold after_prepare, finish, private, __set_geometry_areas,
    __set_guidance_data, __set_quality_measurements.
  keeps_labels.
Qed.

Lemma coverage_analysis_no_buffer_label (ty : PyType) :
  keeps' no_buffer_label (fun _ => True)
         (private "__run_coverage_analysis" (__run_coverage_analysis ext ty)).
Proof. unfold private, __run_coverage_analysis. keeps_labels. Qed.

(** For a class that inherits [add_run_algorithm], and whether [run] returns
    or raises: the step labels after the run are those before it, then
    "set input_geometry", then "add buffer" exactly when the buffer is
    positive, then labels none of which is "add buffer". *)
Theorem add_buffer_label_iff_positive_buffer
    (ty : PyType) (context : RequestContext)
    (include_guidance include_quality_measurement : bool) (w : World') :
  ty "add_run_algorithm" = Some Analysis_add_run_algorithm ->
  exists labels,
    run_algorithm (self (snd (run ext ty context include_guidance
                                  include_quality_measurement w))) =
      run_algorithm (self w)
      ++ "set input_geometry"
         :: (if 0 <? buffer (self w) then ["add buffer"] else []) ++ labels /\
    forallb not_add_buffer labels = true.
Proof.
  intros Hadd.
  assert (Hfirst :
    exists w1,
      private "__set_input_geometry" (__set_input_geometry ext ty) w
        = (inr tt, w1) /\
      run_algorithm (self w1) =
        run_algorithm (self w)
        ++ "set input_geometry"
           :: (if 0 <? buffer (self w) then ["add buffer"] else [])).
  { unfold private, __set_input_geometry, call_str, bind, log,
      add_run_algorithm, assign, get_self.
    rewrite Hadd. cbn.
    destruct (0 <? buffer (self w)); cbn; eexists; (split; [reflexivity|]); cbn;
      [now rewrite <- app_assoc | reflexivity]. }
  destruct Hfirst as [w1 [Heq Hlabels]].
  rewrite run_after_prepare. unfold prepare. rewrite bind_unfold, Heq.
  destruct (coverage_analysis_no_buffer_label ty w1) as [[l1 [H1 Hall1]] _].
  destruct (private "__run_coverage_analysis" (__run_coverage_analysis ext ty) w1)
    as [[e|[]] w2]; cbn [snd] in *.
  - exists l1. split; [|exact Hall1].
    rewrite H1, Hlabels, <- app_assoc. reflexivity.
  - destruct (after_prepare_no_buffer_label
                ty context include_guidance include_quality_measurement w2)
      as [[l2 [H2 Hall2]] _].
    exists (l1 ++ l2). split.
    + rewrite H2, H1, Hlabels, <- !app_assoc. reflexivity.
    + rewrite forallb_app, Hall1, Hall2. reflexivity.
Qed.

(** *** The guidance texts *)

Lemma keeps_seq {A B : Type}
    (R1 R2 R3 : World' -> World' -> Prop) (E : Exn -> Prop)
    (c : M' A) (k : A -> M' B) :
  (forall w1 w2, R1 w1 w2 -> R3 w1 w2) ->
  (forall w1 w2 w3, R1 w1 w2 -> R2 w2 w3 -> R3 w1 w3) ->
  keeps R1 E c -> (forall x, keeps R2 E (k x)) -> keeps R3 E (bind c k).
Proof.
  intros Hweak Hcomp Hc Hk w. unfold bind.
  destruct (Hc w) as [HR HE].
  destruct (c w) as [[e|x] w1]; cbn in *.
  - split; [now apply Hweak|]. intros e' H. inversion H; subst. now apply HE.
  - destruct (Hk x w1) as [HR' HE'].
    split; [eapply Hcomp; eassumption | exact HE'].
Qed.

Lemma keeps_weaken {A : Type}
    (R1 R2 : World' -> World' -> Prop) (E : Exn -> Prop) (c : M' A) :
  (forall w1 w2, R1 w1 w2 -> R2 w1 w2) -> keeps R1 E c -> keeps R2 E c.
Proof.
  intros Hweak Hc w. destruct (Hc w) as [HR HE].
  split; [now apply Hweak | exact HE].
Qed.

Lemma untouched_green (w1 w2 : World') :
  guidance_untouched w1 w2 -> green_keeps_texts w1 w2.
Proof. intros (Hd & Hx & _) _. now split. Qed.

Lemma untouched_then_green (w1 w2 w3 : World') :
  guidance_untouched w1 w2 -> green_keeps_texts w2 w3 ->
  green_keeps_texts w1 w3.
Proof.
  intros (Hd & Hx & _) Hgreen Hstatus.
  destruct (Hgreen Hstatus) as [Hd' Hx']. split; congruence.
Qed.

Lemma rule_green (w1 w2 : World') :
  guidance_rule w1 w2 -> green_keeps_texts w1 w2.
Proof.
  intros (Hs & _ & Ht) Hstatus. apply Ht. congruence.
Qed.

Lemma untouched_first {A B : Type} (E : Exn -> Prop)
    (c : M' A) (k : A -> M' B) :
  keeps guidance_untouched E c ->
  (forall x, keeps green_keeps_texts E (k x)) ->
  keeps green_keeps_texts E (bind c k).
Proof.
  apply keeps_seq; [exact untouched_green | exact untouched_then_green].
Qed.

(** [__set_guidance_data] writes the two texts only when the status is not
    NO_HIT_GREEN, and leaves the status and the guidance entry alone. *)
Lemma set_guidance_data_rule :
  keeps' guidance_rule (fun _ => True) (__set_guidance_data ext).
Proof.
  intros w. split; [|intros; exact I].
  unfold __set_guidance_data, bind, get_self, assign, guidance_rule.
  destruct (geolett (self w)) as [g|] eqn:Hlett;
    [|cbn; repeat split; assumption].
  destruct (result_status (self w)) eqn:Hstatus; cbn;
    rewrite ?Hstatus; repeat split; intros; congruence.
Qed.

Lemma finish_green
    (ty : PyType) (context : RequestContext)
    (include_guidance include_quality_measurement : bool) :
  keeps' green_keeps_texts (fun _ => True)
         (finish ext ty context include_guidance include_quality_measurement).
Proof.
  pose proof (call_str_guidance_untouched ty) as Hcall.
  pose proof (await_method_guidance_untouched ty) as Hawait.
  pose proof set_guidance_data_rule as Hguide.
  unfold finish.
  apply untouched_first; [keeps_mod | intros a].
  apply untouched_first; [keeps_mod | intros _].
  apply untouched_first; [keeps_mod | intros _].
  apply untouched_first; [keeps_mod | intros _].
  apply untouched_first; [keeps_mod | intros _].
  apply (keeps_weaken guidance_rule); [exact rule_green|].
  unfold private, __set_quality_measurements. keeps_mod.
Qed.

(** Whatever methods of [Analysis] and [OgcApiAnalysis] the class binds the
    names to that [run] looks up, and whether [run] returns or raises: when
    the result status is NO_HIT_GREEN at the end, the description and the
    guidance text are what they were before the run. *)
Theorem green_result_has_no_guidance_texts
    (ty : PyType) (context : RequestContext)
    (include_guidance include_quality_measurement : bool) (w : World') :
  let a' := self (snd (run ext ty context include_guidance
                           include_quality_measurement w)) in
  result_status a' = NO_HIT_GREEN ->
  description a' = description (self w) /\
  guidance_text a' = guidance_text (self w).
Proof.
  pose proof (call_str_guidance_untouched ty) as Hcall.
  pose proof (await_method_guidance_untouched ty) as Hawait.
  assert (H : keeps' green_keeps_texts (fun _ => True)
                     (run ext ty context include_guidance
                          include_quality_measurement)).
  { unfold run.
    apply untouched_first;
      [unfold private, __set_input_geometry; keeps_mod | intros _].
    apply untouched_first;
      [unfold private, __run_coverage_analysis; keeps_mod | intros _].
    apply untouched_first; [keeps_mod | intros a].
    destruct (has_coverage a).
    - apply untouched_first; [keeps_mod | intros _].
      apply untouched_first; [keeps_mod | intros a2].
      destruct (ResultStatus_eqb (result_status a2) TIMEOUT
                || ResultStatus_eqb (result_status a2) ERROR).
      + apply (keeps_weaken guidance_untouched); [exact untouched_green|].
        keeps_mod.
      + apply untouched_first;
          [unfold private, __set_geometry_areas; keeps_mod | intros _].
        apply finish_green.
    - apply untouched_first; [keeps_mod | intros _].
      apply finish_green. }
  exact (proj1 (H w)).
Qed.

(** *** The guidance data of a run that returns *)

(** [finish] is [deliver] followed by [annotate]. *)
Lemma finish_deliver_annotate
    (ty : PyType) (context : RequestContext)
    (include_guidance include_quality_measurement : bool) (w : World') :
  finish ext ty context include_guidance include_quality_measurement w =
  match deliver ext ty w with
  | (inl e, w1) => (inl e, w1)
  | (inr _, w1) =>
      annotate ext context include_guidance include_quality_measurement w1
  end.
Proof.
  unfold finish, deliver, annotate, bind, get_self, assign.
  destruct ((if ResultStatus_eqb (result_status (self w)) NO_HIT_GREEN
                || ResultStatus_eqb (result_status (self w)) NO_HIT_YELLOW
             then await_method ext ty "set_distance_to_object"
             else ret tt) w) as [[e|[]] w1]; [reflexivity|].
  destruct (call_str ty "add_run_algorithm" "deliver result" w1)
    as [[e|[]] w2]; [reflexivity|].
  destruct (await_method ext ty "set_default_data" _) as [[e|[]] w3];
    reflexivity.
Qed.

Lemma deliver_guidance_untouched (ty : PyType) :
  keeps' guidance_untouched (fun _ => True) (deliver ext ty).
Proof.
  pose proof (call_str_guidance_untouched ty) as Hcall.
  pose proof (await_method_guidance_untouched ty) as Hawait.
  unfold deliver. keeps_mod.
Qed.

Lemma quality_measurements_same_guidance
    (context : RequestContext) (include_quality_measurement : bool) :
  keeps' same_guidance (fun _ => True)
         (if include_quality_measurement
          then private "__set_quality_measurements"
                       (__set_quality_measurements ext context)
          else ret tt).
Proof. unfold private, __set_quality_measurements. keeps_mod. Qed.

(** [__set_guidance_data] on an object that holds a guidance entry. *)
Lemma set_guidance_data_outcome (w : World') (g : Geolett) :
  geolett (self w) = Some g ->
  exists w',
    private "__set_guidance_data" (__set_guidance_data ext) w = (inr tt, w') /\
    geolett (self w') = Some g /\
    result_status (self w') = result_status (self w) /\
    (result_status (self w) <> NO_HIT_GREEN ->
     description (self w') = Some (forklarendeTekst g) /\
     guidance_text (self w') = Some (dialogtekst g)) /\
    guidance_uri (self w') =
      guidance_uri (self w)
      ++ map (fun link => {| href := lenke_href link;
                             uri_title := lenke_tittel link |})
             (lenker g) /\
    possible_actions (self w') =
      possible_actions (self w)
      ++ map (fun line => lstrip ext line "- ") (splitlines ext (muligeTiltak g)).
Proof.
  intros Hlett.
  unfold private, __set_guidance_data, bind, log, get_self, assign.
  cbn. rewrite Hlett.
  destruct (result_status (self w)) eqn:Hstatus; cbn; eexists;
    (split; [reflexivity|]); cbn; rewrite ?Hlett, ?Hstatus;
    repeat split; intros; congruence.
Qed.

(** What [annotate] leaves when guidance is asked for, it returns, and the
    object holds a guidance entry at the end. *)
Lemma annotate_outcome
    (context : RequestContext) (include_quality_measurement : bool)
    (w w' : World') (g : Geolett) :
  annotate ext context true include_quality_measurement w = (inr tt, w') ->
  geolett (self w') = Some g ->
  (result_status (self w') <> NO_HIT_GREEN ->
   description (self w') = Some (forklarendeTekst g) /\
   guidance_text (self w') = Some (dialogtekst g)) /\
  guidance_uri (self w') =
    guidance_uri (self w)
    ++ map (fun link => {| href := lenke_href link;
                           uri_title := lenke_tittel link |})
           (lenker g) /\
  possible_actions (self w') =
    possible_actions (self w)
    ++ map (fun line => lstrip ext line "- ") (splitlines ext (muligeTiltak g)).
Proof.
  unfold annotate. rewrite (bind_unfold get_self). unfold get_self.
  cbn [andb].
  pose proof (quality_measurements_same_guidance
                context include_quality_measurement) as Hq.
  destruct (geolett (self w)) as [g0|] eqn:Hlett; rewrite bind_unfold.
  - destruct (set_guidance_data_outcome w g0 Hlett)
      as [w4 (Heq & Hlett4 & Hstatus4 & Htexts & Huri & Hactions)].
    rewrite Heq.
    destruct (Hq w4) as [(Hs & Hg & Hd & Hx & Hu & Hp) _].
    intros Hret Hfinal. rewrite Hret in *. cbn [snd] in *.
    assert (g0 = g) by congruence. subst g0.
    split; [|split]; [|congruence|congruence].
    intros Hnot. rewrite Hd, Hx. apply Htexts. congruence.
  - cbn [ret].
    destruct (Hq w) as [(_ & Hg & _) _].
    intros Hret Hfinal. rewrite Hret in *. cbn [snd] in *. congruence.
Qed.

Lemma prepare_guidance_untouched (ty : PyType) :
  keeps' guidance_untouched (fun _ => True) (prepare ext ty).
Proof.
  pose proof (call_str_guidance_untouched ty) as Hcall.
  unfold prepare, private, __set_input_geometry, __run_coverage_analysis.
  keeps_mod.
Qed.

Lemma set_geometry_areas_guidance_untouched :
  keeps' guidance_untouched (fun _ => True)
         (private "__set_geometry_areas" (__set_geometry_areas ext)).
Proof. unfold private, __set_geometry_areas. keeps_mod. Qed.

(** For a class that inherits [set_default_data]: when [run] is asked for
    guidance and returns with a guidance entry on the object and a result
    status other than TIMEOUT and ERROR, the guidance links and the possible
    actions are those before the run followed by one link per link of the
    entry and one action per line of its "muligeTiltak"; and when the status
    is not NO_HIT_GREEN either, the description and the guidance text are
    the entry's "forklarendeTekst" and "dialogtekst". *)
Theorem guidance_data_from_geolett
    (ty : PyType) (context : RequestContext)
    (include_quality_measurement : bool) (w w' : World') (g : Geolett) :
  ty "set_default_data" = Some Analysis_set_default_data ->
  run ext ty context true include_quality_measurement w = (inr tt, w') ->
  geolett (self w') = Some g ->
  result_status (self w') <> TIMEOUT ->
  result_status (self w') <> ERROR ->
  (result_status (self w') <> NO_HIT_GREEN ->
   description (self w') = Some (forklarendeTekst g) /\
   guidance_text (self w') = Some (dialogtekst g)) /\
  guidance_uri (self w') =
    guidance_uri (self w)
    ++ map (fun link => {| href := lenke_href link;
                           uri_title := lenke_tittel link |})
           (lenker g) /\
  possible_actions (self w') =
    possible_actions (self w)
    ++ map (fun line => lstrip ext line "- ") (splitlines ext (muligeTiltak g)).
Proof.
  intros Hdef Hrun Hlett Htimeout Herror.
  (* what [finish] gives, from the world it starts in *)
  assert (Hfinish : forall w3,
            guidance_untouched w w3 ->
            finish ext ty context true include_quality_measurement w3
              = (inr tt, w') ->
            (result_status (self w') <> NO_HIT_GREEN ->
             description (self w') = Some (forklarendeTekst g) /\
             guidance_text (self w') = Some (dialogtekst g)) /\
            guidance_uri (self w') =
              guidance_uri (self w)
              ++ map (fun link => {| href := lenke_href link;
                                     uri_title := lenke_tittel link |})
                     (lenker g) /\
            possible_actions (self w') =
              possible_actions (self w)
              ++ map (fun line => lstrip ext line "- ")
                     (splitlines ext (muligeTiltak g))).
  { intros w3 (_ & _ & Hu3 & Hp3) Hfin.
    rewrite finish_deliver_annotate in Hfin.
    destruct (deliver_guidance_untouched ty w3) as [(_ & _ & Hu4 & Hp4) _].
    destruct (deliver ext ty w3) as [[e|[]] w4]; [discriminate|].
    cbn [snd] in Hu4, Hp4.
    destruct (annotate_outcome context include_quality_measurement w4 w' g
                Hfin Hlett) as (Htexts & Huri & Hactions).
    split; [exact Htexts|]. split; congruence. }
  rewrite run_after_prepare in Hrun.
  destruct (prepare_guidance_untouched ty w) as [H1 _].
  destruct (prepare ext ty w) as [[e|[]] w1]; [discriminate|].
  cbn [snd] in H1.
  unfold after_prepare in Hrun.
  rewrite (bind_unfold get_self) in Hrun. unfold get_self in Hrun.
  destruct (has_coverage (self w1)).
  - rewrite bind_unfold in Hrun.
    destruct (await_method_guidance_untouched ty "run_queries" w1) as [H2 _].
    destruct (await_method ext ty "run_queries" w1) as [[e|[]] w2];
      [discriminate|].
    cbn [snd] in H2.
    rewrite (bind_unfold get_self) in Hrun. unfold get_self in Hrun.
    destruct (ResultStatus_eqb (result_status (self w2)) TIMEOUT
              || ResultStatus_eqb (result_status (self w2)) ERROR) eqn:Hfail.
    + destruct (set_default_data_outcome ty w2 Hdef)
        as [w3 (Heq & _ & _ & _ & Hstatus & _)].
      rewrite Heq in Hrun. inversion Hrun; subst w3.
      rewrite Hstatus in Htimeout, Herror.
      destruct (result_status (self w2)); try discriminate; contradiction.
    + rewrite bind_unfold in Hrun.
      destruct set_geometry_areas_guidance_untouched with (w := w2) as [H3 _].
      destruct (private "__set_geometry_areas" (__set_geometry_areas ext) w2)
        as [[e|[]] w3]; [discriminate|].
      cbn [snd] in H3.
      apply (Hfinish w3); [|exact Hrun].
      eapply guidance_untouched_trans; [exact H1|].
      eapply guidance_untouched_trans; [exact H2 | exact H3].
  - rewrite bind_unfold in Hrun. unfold assign in Hrun.
    eapply Hfinish; [|exact Hrun].
    eapply guidance_untouched_trans; [exact H1|]. rel_step.
Qed.

(** *** The loop of [_run_queries] *)

(** The layers that answer 200 without a record leave their step labels and
    their calls, and nothing else. *)
Lemma query_layers_skip
    (ty : PyType) (rest : list Layer) :
  ty "_add_run_algorithm" = Some Analysis_add_run_algorithm ->
  forall (pre : list Layer) (geolett_data : option Geolett) (w : World'),
    (forall l, In l pre ->
       without_hit (query_ogc_api ext (config_ogc_api (config (self w)))
                                  (layer_ogc_api l)
                                  (config_geom_field (config (self w)))
                                  (run_on_input_geometry (self w))
                                  (epsg (self w)))) ->
    query_layers ext ty (pre ++ rest) geolett_data w =
    query_layers ext ty rest geolett_data
      {| self := set_run_algorithm
                   (run_algorithm (self w) ++ map intersect_label pre) (self w);
         calls := calls w
                  ++ flat_map (layer_calls (run_on_input_geometry (self w))) pre |}.
Proof.
  intros Happ pre. induction pre as [|l pre IH]; intros geolett_data w Hpre.
  - cbn [app map flat_map]. f_equal.
    destruct w as [a cs]. destruct a. cbn. now rewrite !app_nil_r.
  - destruct (Hpre l (or_introl eq_refl)) as [H200 Hnone].
    cbn [app query_layers].
    rewrite (bind_unfold get_self). unfold get_self.
    destruct (query_ogc_api ext (config_ogc_api (config (self w)))
                            (layer_ogc_api l)
                            (config_geom_field (config (self w)))
                            (run_on_input_geometry (self w)) (epsg (self w)))
      as [code response]. cbn [fst snd] in H200, Hnone. subst code.
    rewrite bind_unfold. unfold log at 1. cbn [Z.eqb Pos.eqb negb].
    rewrite bind_unfold. unfold call_str. rewrite Happ.
    rewrite bind_unfold. unfold log at 1. unfold add_run_algorithm, assign.
    cbn [self calls].
    assert (Hnext :
      forall W2 : World',
        W2 = {| self := set_run_algorithm
                          (run_algorithm (self w) ++ [intersect_label l]) (self w);
                calls := (calls w
                          ++ [QueryOgcApi (layer_ogc_api l)
                                          (run_on_input_geometry (self w)) 200])
                         ++ [Invoke "_add_run_algorithm"] |} ->
        query_layers ext ty (pre ++ rest) geolett_data W2 =
        query_layers ext ty rest geolett_data
          {| self := set_run_algorithm
                       (run_algorithm (self w) ++ map intersect_label (l :: pre))
                       (self w);
             calls := calls w
                      ++ flat_map (layer_calls (run_on_input_geometry (self w)))
                                  (l :: pre) |}).
    { intros W2 ->. rewrite IH.
      - f_equal. cbn. rewrite <- !app_assoc. reflexivity.
      - intros l' Hl'. cbn. apply Hpre. now right. }
    destruct Hnone as [->| ->]; cbn -[query_layers]; now apply Hnext.
Qed.

(** The loop at a layer that answers 200 with records. *)
Lemma query_layers_hit
    (ty : PyType) (layer : Layer) (post : list Layer)
    (feature : Feature) (features : list Feature)
    (first_geolett geolett_data : option Geolett) (w : World') :
  ty "_add_run_algorithm" = Some Analysis_add_run_algorithm ->
  query_ogc_api ext (config_ogc_api (config (self w))) (layer_ogc_api layer)
                (config_geom_field (config (self w)))
                (run_on_input_geometry (self w)) (epsg (self w))
    = (200, Some (feature :: features)) ->
  get_geolett_data ext (layer_geolett_id layer) = inr geolett_data ->
  exists w',
    query_layers ext ty (layer :: post) first_geolett w
      = (inr geolett_data, w') /\
    result_status (self w') = layer_result_status layer /\
    data (self w') =
      map (fun feature =>
             __map_properties ext feature (config_properties (config (self w))))
          (feature :: features) /\
    geometries (self w') =
      map (__get_geometry_from_response ext) (feature :: features) /\
    raster_result (self w') =
      get_raster_result ext (config_wms (config (self w))) (layer_wms layer) /\
    cartography (self w') =
      get_cartography_url ext (config_wms (config (self w))) (layer_wms layer) /\
    run_algorithm (self w') = run_algorithm (self w) ++ [intersect_label layer] /\
    calls w' = calls w ++ layer_calls (run_on_input_geometry (self w)) layer.
Proof.
  intros Happ Hquery Hlett.
  cbn [query_layers].
  rewrite (bind_unfold get_self). unfold get_self. rewrite Hquery.
  rewrite bind_unfold. unfold log at 1. cbn [Z.eqb Pos.eqb negb].
  rewrite bind_unfold. unfold call_str. rewrite Happ.
  rewrite bind_unfold. unfold log at 1. unfold add_run_algorithm, assign.
  cbn [__parse_response fst snd map List.length Nat.ltb Nat.leb].
  rewrite bind_unfold, Hlett. cbn [lift ret].
  unfold bind, ret. cbn.
  eexists. split; [reflexivity|]. cbn.
  repeat (split; [reflexivity|]). now rewrite <- app_assoc.
Qed.

(** For a class that binds [_add_run_algorithm] to the step-label appender:
    when the layers before one layer answer 200 without a record and that
    layer answers 200 with records, [_run_queries] returns, takes the result
    status, the guidance entry, the raster result and the cartography of
    that layer, stores the mapped properties and the geometries of its
    records, adds one step label per layer asked, and asks no layer after
    it. *)
Theorem first_layer_with_records_decides
    (ty : PyType) (w : World')
    (pre : list Layer) (layer : Layer) (post : list Layer)
    (features : list Feature) (first_geolett geolett_data : option Geolett) :
  let cfg := config (self w) in
  let run_on := run_on_input_geometry (self w) in
  let ask := fun l : Layer =>
    query_ogc_api ext (config_ogc_api cfg) (layer_ogc_api l)
                  (config_geom_field cfg) run_on (epsg (self w)) in
  ty "_add_run_algorithm" = Some Analysis_add_run_algorithm ->
  config_layers cfg = pre ++ layer :: post ->
  (forall l, In l pre -> without_hit (ask l)) ->
  ask layer = (200, Some features) ->
  features <> [] ->
  get_geolett_data ext (layer_geolett_id (hd layer pre)) = inr first_geolett ->
  get_geolett_data ext (layer_geolett_id layer) = inr geolett_data ->
  let r := _run_queries ext ty w in
  fst r = inr tt /\
  result_status (self (snd r)) = layer_result_status layer /\
  geolett (self (snd r)) = geolett_data /\
  data (self (snd r)) =
    map (fun feature => __map_properties ext feature (config_properties cfg))
        features /\
  geometries (self (snd r)) = map (__get_geometry_from_response ext) features /\
  raster_result (self (snd r)) =
    get_raster_result ext (config_wms cfg) (layer_wms layer) /\
  cartography (self (snd r)) =
    get_cartography_url ext (config_wms cfg) (layer_wms layer) /\
  run_algorithm (self (snd r)) =
    run_algorithm (self w) ++ map intersect_label (pre ++ [layer]) /\
  calls (snd r) = calls w ++ flat_map (layer_calls run_on) (pre ++ [layer]).
Proof.
  cbv zeta. intros Happ Hlayers Hpre Hquery Hfeatures Hfirst Hlett.
  destruct features as [|feature features]; [contradiction|].
  unfold _run_queries. rewrite (bind_unfold get_self). unfold get_self.
  rewrite Hlayers.
  assert (Hhd : nth_error (pre ++ layer :: post) 0 = Some (hd layer pre))
    by now destruct pre.
  rewrite Hhd, bind_unfold, Hfirst. cbn [lift ret].
  rewrite bind_unfold, (query_layers_skip ty (layer :: post) Happ pre _ w Hpre).
  match goal with
  | |- context [query_layers ext ty (layer :: post) first_geolett ?W] =>
      destruct (query_layers_hit ty layer post feature features first_geolett
                                 geolett_data W Happ Hquery Hlett)
        as [w' (Heq & Hstatus & Hdata & Hgeoms & Hraster & Hcarto & Hlabels
                & Hcalls)]
  end.
  rewrite Heq. unfold assign. cbn [fst snd self calls].
  cbn in Hstatus, Hdata, Hgeoms, Hraster, Hcarto, Hlabels, Hcalls.
  split; [reflexivity|]. cbn.
  split; [exact Hstatus|]. split; [reflexivity|].
  split; [exact Hdata|]. split; [exact Hgeoms|].
  split; [exact Hraster|]. split; [exact Hcarto|].
  split.
  - rewrite Hlabels, map_app, <- app_assoc. reflexivity.
  - rewrite Hcalls, flat_map_app, <- app_assoc. cbn. reflexivity.
Qed.

(** For a class that binds [_add_run_algorithm] to the step-label appender:
    when every layer answers 200 without a record, [_run_queries] returns
    after asking every layer in order, the guidance entry is that of the
    first layer, and the result status, the records and the result
    geometries are what they were. *)
Theorem no_layer_with_records
    (ty : PyType) (w : World')
    (layer : Layer) (rest : list Layer) (geolett_data : option Geolett) :
  let cfg := config (self w) in
  let run_on := run_on_input_geometry (self w) in
  let ask := fun l : Layer =>
    query_ogc_api ext (config_ogc_api cfg) (layer_ogc_api l)
                  (config_geom_field cfg) run_on (epsg (self w)) in
  ty "_add_run_algorithm" = Some Analysis_add_run_algorithm ->
  config_layers cfg = layer :: rest ->
  (forall l, In l (layer :: rest) -> without_hit (ask l)) ->
  get_geolett_data ext (layer_geolett_id layer) = inr geolett_data ->
  let r := _run_queries ext ty w in
  fst r = inr tt /\
  result_status (self (snd r)) = result_status (self w) /\
  geolett (self (snd r)) = geolett_data /\
  data (self (snd r)) = data (self w) /\
  geometries (self (snd r)) = geometries (self w) /\
  run_algorithm (self (snd r)) =
    run_algorithm (self w) ++ map intersect_label (layer :: rest) /\
  calls (snd r) = calls w ++ flat_map (layer_calls run_on) (layer :: rest).
Proof.
  cbv zeta. intros Happ Hlayers Hall Hlett.
  unfold _run_queries. rewrite (bind_unfold get_self). unfold get_self.
  rewrite Hlayers. cbn [nth_error]. rewrite bind_unfold, Hlett. cbn [lift ret].
  pose proof (query_layers_skip ty [] Happ (layer :: rest) geolett_data w Hall)
    as Hloop.
  rewrite app_nil_r in Hloop.
  rewrite bind_unfold, Hloop. cbn [query_layers ret]. unfold assign. cbn.
  repeat (split; [reflexivity|]). reflexivity.
Qed.

(** *** The query stage and the coverage verdict *)

Lemma calls_grow_refl (w : World') : calls_grow w w.
Proof. apply appended_by_refl. Qed.

Lemma calls_grow_trans (w1 w2 w3 : World') :
  calls_grow w1 w2 -> calls_grow w2 w3 -> calls_grow w1 w3.
Proof. apply appended_by_trans. Qed.

Lemma calls_grow_In (w w' : World') (c : Call') :
  calls_grow w w' -> In c (calls w) -> In c (calls w').
Proof. intros [suffix [-> _]] Hin. apply in_or_app. now left. Qed.

Ltac rel_refl ::=
  first [ exact prepared_refl | exact queried_refl | exact finished_refl
        | exact any_world_refl | exact same_inputs_refl
        | exact only_appended_refl | exact no_buffer_label_refl
        | exact guidance_untouched_refl | exact same_guidance_refl
        | exact guidance_rule_refl | exact calls_grow_refl ].

Ltac rel_trans ::=
  first [ exact prepared_trans | exact queried_trans | exact finished_trans
        | exact any_world_trans | exact same_inputs_trans
        | exact only_appended_trans | exact no_buffer_label_trans
        | exact guidance_untouched_trans | exact same_guidance_trans
        | exact guidance_rule_trans | exact calls_grow_trans ].

Ltac rel_step ::=
  intros;
  first
    [ exact I
    | unfold prepared, queried, finished; cbn;
      repeat match goal with |- _ /\ _ => split end;
      try reflexivity;
      extends_solve
    | unfold same_inputs, only_appended, no_buffer_label, same_guidance,
        guidance_untouched, calls_grow, prefix_of;
      cbn;
      repeat match goal with |- _ /\ _ => split end;
      try reflexivity;
      list_step
    | apply same_guidance_rule; unfold same_guidance, guidance_untouched; cbn;
      repeat match goal with |- _ /\ _ => split end;
      reflexivity ].

Lemma call_str_calls_grow (ty : PyType) (name arg : string) :
  keeps' calls_grow (fun _ => True) (call_str ty name arg).
Proof. keeps_call_str. Qed.

Lemma query_layers_calls_grow (ty : PyType) :
  forall layers geolett_data,
    keeps' calls_grow (fun _ => True) (query_layers ext ty layers geolett_data).
Proof.
  pose proof (call_str_calls_grow ty) as Hcall. keeps_query_layers.
Qed.

Lemma method_body_calls_grow (ty : PyType) (m : Method) :
  keeps' calls_grow (fun _ => True) (method_body ext ty m).
Proof.
  pose proof (call_str_calls_grow ty) as Hcall.
  pose proof (query_layers_calls_grow ty) as Hloop.
  destruct m;
    unfold method_body, _run_queries, _set_distance_to_object, set_default_data;
    keeps_mod.
Qed.

Lemma await_method_calls_grow (ty : PyType) (name : string) :
  keeps' calls_grow (fun _ => True) (await_method ext ty name).
Proof.
  pose proof (call_str_calls_grow ty) as Hcall.
  pose proof (query_layers_calls_grow ty) as Hloop.
  keeps_await.
Qed.

Lemma after_queries_calls_grow
    (ty : PyType) (context : RequestContext)
    (include_guidance include_quality_measurement : bool) :
  keeps' calls_grow (fun _ => True)
         (after_queries ext ty context include_guidance
                        include_quality_measurement).
Proof.
  pose proof (call_str_calls_grow ty) as Hcall.
  pose proof (await_method_calls_grow ty) as Hawait.
  unfold after_queries, finish, private, __set_geometry_areas,
    __set_guidance_data, __set_quality_measurements.
  keeps_mod.
Qed.

(** With coverage, [after_prepare] enters the query stage and goes on from
    there. *)
Lemma after_prepare_with_coverage
    (ty : PyType) (context : RequestContext)
    (include_guidance include_quality_measurement : bool)
    (m : Method) (w : World') :
  has_coverage (self w) = true ->
  ty "run_queries" = Some m ->
  calls_grow {| self := self w; calls := calls w ++ [Invoke "run_queries"] |}
             (snd (after_prepare ext ty context include_guidance
                                 include_quality_measurement w)).
Proof.
  intros Hcov Hq.
  assert (Heq :
    after_prepare ext ty context include_guidance include_quality_measurement w
    = bind (bind (method_body ext ty m)
                 (fun _ =>
                    if is_coroutine_function m then ret tt
                    else raise (TypeError
                      "object NoneType can't be used in 'await' expression")))
           (fun _ => after_queries ext ty context include_guidance
                                   include_quality_measurement)
           {| self := self w; calls := calls w ++ [Invoke "run_queries"] |}).
  { unfold after_prepare, after_queries.
    rewrite (bind_unfold get_self). unfold get_self. rewrite Hcov.
    unfold await_method at 1. rewrite Hq.
    unfold bind at 1 2. unfold log. reflexivity. }
  rewrite Heq.
  pose proof (method_body_calls_grow ty m) as Hbody.
  pose proof (after_queries_calls_grow ty context include_guidance
                                       include_quality_measurement) as Hrest.
  assert (H : keeps' calls_grow (fun _ => True)
                (bind (bind (method_body ext ty m)
                            (fun _ =>
                               if is_coroutine_function m then ret tt
                               else raise (TypeError
                                 "object NoneType can't be used in 'await' expression")))
                      (fun _ => after_queries ext ty context include_guidance
                                              include_quality_measurement)))
    by keeps_mod.
  exact (proj1 (H _)).
Qed.

(** For a class of the [Analysis] hierarchy that binds [run_queries], on a
    fresh object of a dataset with exactly one COVERAGE-kind indicator: the
    query stage is entered exactly when the coverage evaluator, asked about
    the indicator at position 0 and the working geometry, reports coverage;
    and when it reports none, the result status at the end is
    NO_HIT_YELLOW. *)
Theorem coverage_verdict_decides_query_stage
    (ty : PyType) (context : RequestContext)
    (include_guidance include_quality_measurement : bool)
    (a : Analysis') (quality_indicator : QualityIndicator) :
  Analysis_subclass ty ->
  ty "run_queries" <> None ->
  List.length (coverage_indicators ext (dataset_id a)) = 1%nat ->
  nth_error (get_quality_indicator_configs ext (dataset_id a)) 0
    = Some quality_indicator ->
  let verdict :=
    snd (get_coverage_quality ext quality_indicator
                              (Some (working_geometry ext a)) (epsg a)) in
  let r := run ext ty context include_guidance include_quality_measurement
               (start a) in
  (In (Invoke "run_queries") (calls (snd r)) <-> verdict = true) /\
  (verdict = false -> result_status (self (snd r)) = NO_HIT_YELLOW).
Proof.
  intros Hsub Hq Hone Hnth. pose proof Hsub as (Hadd & _). cbv zeta.
  rewrite run_after_prepare.
  destruct (prepare_outcome ty (start a) Hadd) as (_ & _ & Hout).
  destruct (Hout Hone) as [qi (Hnth' & Hret & Hcov & _)]. clear Hout.
  change (dataset_id (self (start a))) with (dataset_id a) in Hnth'.
  assert (qi = quality_indicator) by congruence. subst qi.
  change (self (start a)) with a in Hcov.
  destruct (prepare_prepared ty (start a)) as [Hframe _].
  destruct Hframe as (_ & _ & _ & _ & _ & _ & _ & _ & _ & _ & Hcalls).
  destruct (prepare ext ty (start a)) as [[e|[]] w1]; cbn [fst snd] in *;
    [discriminate|].
  assert (Hbefore : ~ In (Invoke "run_queries") (calls w1)).
  { eapply extends_by_not_in; [exact Hcalls | reflexivity | intros []]. }
  rewrite <- Hcov.
  destruct (has_coverage (self w1)) eqn:Hhas.
  - split; [|discriminate]. split; [reflexivity|]. intros _.
    destruct (ty "run_queries") as [m|] eqn:Hm; [|contradiction].
    eapply calls_grow_In.
    + exact (after_prepare_with_coverage ty context include_guidance
               include_quality_measurement m w1 Hhas Hm).
    + cbn. apply in_or_app. right. now left.
  - destruct (after_prepare_without_coverage ty context include_guidance
                include_quality_measurement w1 Hsub Hhas)
      as (Hstatus & _ & _ & Hlate).
    split; [|intros _; exact Hstatus].
    split; [|discriminate]. intros Hin. exfalso.
    revert Hin. eapply extends_by_not_in; [exact Hlate | reflexivity | exact Hbefore].
Qed.

(** For a class that inherits [add_run_algorithm] and binds the two
    dispatched names to the methods of [OgcApiAnalysis]: on a fresh object
    of a dataset configured without layers and with at most one
    COVERAGE-kind indicator, [run] ends in the IndexError of
    [self.config.layers[0]], raised by the query stage when there is
    coverage and by the distance stage otherwise, and no dataset query has
    been made. *)
Theorem run_without_layers_raises_index_error
    (ty : PyType) (context : RequestContext)
    (include_guidance include_quality_measurement : bool) (a : Analysis') :
  ty "add_run_algorithm" = Some Analysis_add_run_algorithm ->
  ty "run_queries" = Some OgcApiAnalysis__run_queries ->
  ty "set_distance_to_object" = Some OgcApiAnalysis__set_distance_to_object ->
  config_layers (config a) = [] ->
  (List.length (coverage_indicators ext (dataset_id a)) <= 1)%nat ->
  let r := run ext ty context include_guidance include_quality_measurement
               (start a) in
  fst r = inl (IndexError "list index out of range") /\
  (forall layer geometry status_code,
     ~ In (QueryOgcApi layer geometry status_code) (calls (snd r))).
Proof.
  intros Hadd Hq Hd Hlayers Hn. cbv zeta.
  rewrite run_after_prepare.
  assert (Hret : fst (prepare ext ty (start a)) = inr tt).
  { destruct (prepare_outcome ty (start a) Hadd) as (_ & Hnone & Hone).
    change (dataset_id (self (start a))) with (dataset_id a) in *.
    assert (Hcase : List.length (coverage_indicators ext (dataset_id a)) = 0%nat
                    \/ List.length (coverage_indicators ext (dataset_id a)) = 1%nat)
      by lia.
    destruct Hcase as [H0|H1].
    - now destruct (Hnone H0).
    - now destruct (Hone H1) as [qi (_ & Hr & _)]. }
  destruct (prepare_prepared ty (start a)) as [Hframe _].
  destruct Hframe as (_ & Hcfg & _ & _ & _ & _ & _ & _ & _ & _ & Hcalls).
  destruct (prepare ext ty (start a)) as [[e|[]] w1]; cbn [fst snd] in *;
    [discriminate|].
  change (config (self (start a))) with (config a) in Hcfg.
  assert (Hbefore : forall layer geometry status_code,
            ~ In (QueryOgcApi layer geometry status_code) (calls w1)).
  { intros layer geometry status_code.
    eapply extends_by_not_in; [exact Hcalls | reflexivity | intros []]. }
  unfold after_prepare. rewrite (bind_unfold get_self). unfold get_self.
  destruct (has_coverage (self w1)).
  - rewrite bind_unfold. unfold await_method. rewrite Hq.
    cbn [method_body]. unfold _run_queries.
    unfold bind, log, get_self. cbn [self]. rewrite Hcfg, Hlayers. cbn.
    split; [reflexivity|]. intros layer geometry status_code Hin.
    apply in_app_or in Hin. destruct Hin as [Hin|[Hin|[]]];
      [now apply Hbefore in Hin | discriminate].
  - rewrite bind_unfold. unfold assign, finish.
    rewrite (bind_unfold get_self). unfold get_self. cbn [self].
    change (result_status (set_result_status NO_HIT_YELLOW (self w1)))
      with NO_HIT_YELLOW.
    cbn [ResultStatus_eqb orb].
    rewrite bind_unfold. unfold await_method. rewrite Hd.
    cbn [method_body]. unfold _set_distance_to_object.
    unfold bind, log, get_self. cbn [self calls].
    change (config (set_result_status NO_HIT_YELLOW (self w1)))
      with (config (self w1)).
    rewrite Hcfg, Hlayers. cbn.
    split; [reflexivity|]. intros layer geometry status_code Hin.
    apply in_app_or in Hin. destruct Hin as [Hin|[Hin|[]]];
      [now apply Hbefore in Hin | discriminate].
Qed.

(** *** The default data of a run that returns *)

Lemma same_default_data_refl (w : World') : same_default_data w w.
Proof. unfold same_default_data. repeat split. Qed.

Lemma same_default_data_trans (w1 w2 w3 : World') :
  same_default_data w1 w2 -> same_default_data w2 w3 ->
  same_default_data w1 w3.
Proof.
  unfold same_default_data. intros H1 H2.
  repeat match goal with H : _ /\ _ |- _ => destruct H end.
  repeat match goal with |- _ /\ _ => split end; congruence.
Qed.

Lemma distance_untouched_refl (w : World') : distance_untouched w w.
Proof. split; [reflexivity | apply extends_by_refl]. Qed.

Lemma distance_untouched_trans (w1 w2 w3 : World') :
  distance_untouched w1 w2 -> distance_untouched w2 w3 ->
  distance_untouched w1 w3.
Proof.
  intros [H1 C1] [H2 C2]. split; [congruence|].
  eapply extends_by_trans; eassumption.
Qed.

Lemma no_distance_stage_refl (w : World') : no_distance_stage w w.
Proof. repeat split. apply extends_by_refl. Qed.

Lemma no_distance_stage_trans (w1 w2 w3 : World') :
  no_distance_stage w1 w2 -> no_distance_stage w2 w3 ->
  no_distance_stage w1 w3.
Proof.
  intros (H1 & S1 & C1) (H2 & S2 & C2).
  split; [congruence|]. split; [congruence|].
  eapply extends_by_trans; eassumption.
Qed.

Ltac rel_refl ::=
  first [ exact prepared_refl | exact queried_refl | exact finished_refl
        | exact any_world_refl | exact same_inputs_refl
        | exact only_appended_refl | exact no_buffer_label_refl
        | exact guidance_untouched_refl | exact same_guidance_refl
        | exact guidance_rule_refl | exact calls_grow_refl
        | exact same_default_data_refl | exact distance_untouched_refl
        | exact no_distance_stage_refl ].

Ltac rel_trans ::=
  first [ exact prepared_trans | exact queried_trans | exact finished_trans
        | exact any_world_trans | exact same_inputs_trans
        | exact only_appended_trans | exact no_buffer_label_trans
        | exact guidance_untouched_trans | exact same_guidance_trans
        | exact guidance_rule_trans | exact calls_grow_trans
        | exact same_default_data_trans | exact distance_untouched_trans
        | exact no_distance_stage_trans ].

Ltac rel_step ::=
  intros;
  first
    [ exact I
    | unfold prepared, queried, finished, distance_untouched, no_distance_stage;
      cbn;
      repeat match goal with |- _ /\ _ => split end;
      try reflexivity;
      extends_solve
    | unfold same_inputs, only_appended, no_buffer_label, same_guidance,
        guidance_untouched, calls_grow, same_default_data, prefix_of;
      cbn;
      repeat match goal with |- _ /\ _ => split end;
      try reflexivity;
      list_step
    | apply same_guidance_rule; unfold same_guidance, guidance_untouched; cbn;
      repeat match goal with |- _ /\ _ => split end;
      reflexivity ].

Lemma annotate_same_default_data
    (context : RequestContext)
    (include_guidance include_quality_measurement : bool) :
  keeps' same_default_data (fun _ => True)
         (annotate ext context include_guidance include_quality_measurement).
Proof.
  unfold annotate, private, __set_guidance_data, __set_quality_measurements.
  keeps_mod.
Qed.

(** The inherited [set_default_data] leaves the guidance entry alone. *)
Lemma set_default_data_same_guidance (ty : PyType) :
  ty "set_default_data" = Some Analysis_set_default_data ->
  keeps' same_guidance (fun _ => True) (await_method ext ty "set_default_data").
Proof.
  intros Hdef. unfold await_method. rewrite Hdef.
  unfold method_body, set_default_data. keeps_mod.
Qed.

(** What the inherited [set_default_data] leaves, in terms of the object
    after the call. *)
Lemma default_data_set (ty : PyType) (w w' : World') :
  ty "set_default_data" = Some Analysis_set_default_data ->
  await_method ext ty "set_default_data" w = (inr tt, w') ->
  title (self w') =
    Some (match geolett (self w') with
          | Some g => tittel g
          | None => config_title (config (self w))
          end) /\
  themes (self w') = Some (config_themes (config (self w))) /\
  run_on_dataset (self w') = get_kartkatalog_metadata ext (dataset_id (self w)).
Proof.
  intros Hdef Hcall.
  destruct (set_default_data_outcome ty w Hdef)
    as [w2 (Heq & Htitle & Hthemes & Hmeta & _)].
  destruct (set_default_data_same_guidance ty Hdef w) as [(_ & Hlett & _) _].
  rewrite Hcall in Heq. inversion Heq; subst w2.
  rewrite Hcall in Hlett. cbn [snd] in Hlett.
  rewrite Hlett. repeat split; assumption.
Qed.

(** A [deliver] that returns has ended with [set_default_data]. *)
Lemma deliver_ends_with_default_data (ty : PyType) (w w' : World') :
  deliver ext ty w = (inr tt, w') ->
  exists w3,
    same_inputs w w3 /\
    await_method ext ty "set_default_data" w3 = (inr tt, w').
Proof.
  pose proof (call_str_same_inputs ty) as Hcall.
  pose proof (await_method_same_inputs ty) as Hawait.
  assert (Hhead :
    keeps' same_inputs (fun _ => True)
      (if ResultStatus_eqb (result_status (self w)) NO_HIT_GREEN
          || ResultStatus_eqb (result_status (self w)) NO_HIT_YELLOW
       then await_method ext ty "set_distance_to_object"
       else ret tt)) by keeps_mod.
  unfold deliver, bind, get_self, assign.
  destruct (Hhead w) as [H1 _].
  destruct ((if ResultStatus_eqb (result_status (self w)) NO_HIT_GREEN
                || ResultStatus_eqb (result_status (self w)) NO_HIT_YELLOW
             then await_method ext ty "set_distance_to_object"
             else ret tt) w) as [[e|[]] w1]; [discriminate|].
  destruct (Hcall "add_run_algorithm" "deliver result" w1) as [H2 _].
  destruct (call_str ty "add_run_algorithm" "deliver result" w1)
    as [[e|[]] w2]; [discriminate|].
  cbn [snd] in H1, H2.
  intros Hlast. eexists. split; [|exact Hlast].
  eapply same_inputs_trans; [exact H1|].
  eapply same_inputs_trans; [exact H2|]. rel_step.
Qed.

Lemma prepare_same_inputs (ty : PyType) :
  keeps' same_inputs (fun _ => True) (prepare ext ty).
Proof.
  pose proof (call_str_same_inputs ty) as Hcall.
  unfold prepare, private, __set_input_geometry, __run_coverage_analysis.
  keeps_mod.
Qed.

Lemma set_geometry_areas_same_inputs :
  keeps' same_inputs (fun _ => True)
         (private "__set_geometry_areas" (__set_geometry_areas ext)).
Proof. unfold private, __set_geometry_areas. keeps_mod. Qed.

(** For a class that inherits [set_default_data]: when [run] returns, the
    title is the "tittel" of the guidance entry the object holds at the end,
    or the configured title when it holds none; the themes are the configured
    themes; and the dataset metadata is what the catalogue gives for the
    dataset id. *)
Theorem default_data_after_run
    (ty : PyType) (context : RequestContext)
    (include_guidance include_quality_measurement : bool) (w w' : World') :
  ty "set_default_data" = Some Analysis_set_default_data ->
  run ext ty context include_guidance include_quality_measurement w
    = (inr tt, w') ->
  title (self w') =
    Some (match geolett (self w') with
          | Some g => tittel g
          | None => config_title (config (self w))
          end) /\
  themes (self w') = Some (config_themes (config (self w))) /\
  run_on_dataset (self w') = get_kartkatalog_metadata ext (dataset_id (self w)).
Proof.
  intros Hdef Hrun.
  (* the last call of [set_default_data], from a world with the inputs of [w] *)
  assert (Hlast : forall w3 w4,
            same_inputs w w3 ->
            await_method ext ty "set_default_data" w3 = (inr tt, w4) ->
            same_default_data w4 w' ->
            title (self w') =
              Some (match geolett (self w') with
                    | Some g => tittel g
                    | None => config_title (config (self w))
                    end) /\
            themes (self w') = Some (config_themes (config (self w))) /\
            run_on_dataset (self w') =
              get_kartkatalog_metadata ext (dataset_id (self w))).
  { intros w3 w4 (Hid & Hcfg & _) Hcall (Ht & Hth & Hm & Hg).
    destruct (default_data_set ty w3 w4 Hdef Hcall) as (Htitle & Hthemes & Hmeta).
    rewrite Ht, Hth, Hm, Hg, Htitle, Hthemes, Hmeta, Hcfg, Hid.
    repeat split. }
  assert (Hfinish : forall w3,
            same_inputs w w3 ->
            finish ext ty context include_guidance include_quality_measurement w3
              = (inr tt, w') ->
            title (self w') =
              Some (match geolett (self w') with
                    | Some g => tittel g
                    | None => config_title (config (self w))
                    end) /\
            themes (self w') = Some (config_themes (config (self w))) /\
            run_on_dataset (self w') =
              get_kartkatalog_metadata ext (dataset_id (self w))).
  { intros w3 H3 Hfin.
    rewrite finish_deliver_annotate in Hfin.
    destruct (deliver ext ty w3) as [[e|[]] w5] eqn:Hdeliver; [discriminate|].
    destruct (deliver_ends_with_default_data ty w3 w5 Hdeliver)
      as [w4 [H4 Hcall]].
    destruct (annotate_same_default_data context include_guidance
                include_quality_measurement w5) as [H5 _].
    rewrite Hfin in H5. cbn [snd] in H5.
    apply (Hlast w4 w5); [|exact Hcall | exact H5].
    eapply same_inputs_trans; eassumption. }
  rewrite run_after_prepare in Hrun.
  destruct (prepare_same_inputs ty w) as [H1 _].
  destruct (prepare ext ty w) as [[e|[]] w1]; [discriminate|].
  cbn [snd] in H1.
  unfold after_prepare in Hrun.
  rewrite (bind_unfold get_self) in Hrun. unfold get_self in Hrun.
  destruct (has_coverage (self w1)).
  - rewrite bind_unfold in Hrun.
    destruct (await_method_same_inputs ty "run_queries" w1) as [H2 _].
    destruct (await_method ext ty "run_queries" w1) as [[e|[]] w2];
      [discriminate|].
    cbn [snd] in H2.
    rewrite (bind_unfold get_self) in Hrun. unfold get_self in Hrun.
    destruct (ResultStatus_eqb (result_status (self w2)) TIMEOUT
              || ResultStatus_eqb (result_status (self w2)) ERROR).
    + apply (Hlast w2 w'); [|exact Hrun | apply same_default_data_refl].
      eapply same_inputs_trans; eassumption.
    + rewrite bind_unfold in Hrun.
      destruct set_geometry_areas_same_inputs with (w := w2) as [H3 _].
      destruct (private "__set_geometry_areas" (__set_geometry_areas ext) w2)
        as [[e|[]] w3]; [discriminate|].
      cbn [snd] in H3.
      apply (Hfinish w3); [|exact Hrun].
      eapply same_inputs_trans; [exact H1|].
      eapply same_inputs_trans; [exact H2 | exact H3].
  - rewrite bind_unfold in Hrun. unfold assign in Hrun.
    eapply Hfinish; [|exact Hrun].
    eapply same_inputs_trans; [exact H1|]. rel_step.
Qed.

(** *** The distance stage *)

Lemma query_layers_distance_untouched (ty : PyType) (layers : list Layer) :
  forall geolett_data,
    keeps' distance_untouched (fun _ => True)
           (query_layers ext ty layers geolett_data).
Proof.
  induction layers as [|layer rest IH]; intros geolett_data;
    cbn [query_layers]; keeps_unfold; keeps_run.
Qed.

Lemma run_queries_distance_untouched (ty : PyType) :
  ty "run_queries" = Some Analysis_run_queries \/
  ty "run_queries" = Some OgcApiAnalysis__run_queries ->
  keeps' distance_untouched (fun _ => True) (await_method ext ty "run_queries").
Proof.
  pose proof (query_layers_distance_untouched ty) as Hloop.
  intros [Hq|Hq]; keeps_unfold; keeps_run.
Qed.

Lemma prepare_distance_untouched (ty : PyType) :
  keeps' distance_untouched (fun _ => True) (prepare ext ty).
Proof. keeps_unfold. keeps_run. Qed.

Lemma set_default_data_distance_untouched (ty : PyType) :
  ty "set_default_data" = Some Analysis_set_default_data ->
  keeps' distance_untouched (fun _ => True)
         (await_method ext ty "set_default_data").
Proof. intros Hdef. keeps_unfold. keeps_run. Qed.

Lemma set_geometry_areas_distance_untouched :
  keeps' distance_untouched (fun _ => True)
         (private "__set_geometry_areas" (__set_geometry_areas ext)).
Proof. keeps_unfold. keeps_run. Qed.

(** When [finish] ends with a status other than the two NO_HIT ones, it has
    not entered the distance stage. *)
Lemma finish_without_distance_stage
    (ty : PyType) (context : RequestContext)
    (include_guidance include_quality_measurement : bool) (w : World') :
  Analysis_subclass ty ->
  let w' := snd (finish ext ty context include_guidance
                        include_quality_measurement w) in
  result_status (self w') <> NO_HIT_GREEN ->
  result_status (self w') <> NO_HIT_YELLOW ->
  distance_untouched w w'.
Proof.
  intros Hsub. cbv zeta.
  destruct (finish_finished ty context include_guidance
              include_quality_measurement Hsub w) as [(_ & _ & Hstatus & _) _].
  rewrite Hstatus. intros Hgreen Hyellow.
  assert (Hcond : ResultStatus_eqb (result_status (self w)) NO_HIT_GREEN
                  || ResultStatus_eqb (result_status (self w)) NO_HIT_YELLOW
                  = false).
  { destruct (result_status (self w)); try reflexivity; contradiction. }
  destruct Hsub as (Hadd & Hdef & _).
  unfold finish. rewrite (bind_unfold get_self). unfold get_self at 1.
  rewrite Hcond.
  match goal with
  | |- distance_untouched _ (snd (?c _)) =>
      assert (Hk : keeps' distance_untouched (fun _ => True) c)
        by (keeps_unfold; keeps_run)
  end.
  exact (proj1 (Hk w)).
Qed.

(** For a class of the [Analysis] hierarchy whose [run_queries] is the
    abstract method or the implementation of [OgcApiAnalysis], on a fresh
    object, and whether [run] returns or raises: when the result status at
    the end is neither NO_HIT_GREEN nor NO_HIT_YELLOW, [run] has not called
    [set_distance_to_object], and the distance to the nearest object is
    still the 0 the object was created with. *)
Theorem distance_stage_only_without_hit
    (ty : PyType) (context : RequestContext)
    (include_guidance include_quality_measurement : bool)
    (dataset_id : UUID) (config : DatasetConfig) (geometry : Geometry)
    (epsg orig_epsg : Z) (buffer : option Z) :
  Analysis_subclass ty ->
  ty "run_queries" = Some Analysis_run_queries \/
  ty "run_queries" = Some OgcApiAnalysis__run_queries ->
  let a : Analysis' := __init__ dataset_id config geometry epsg orig_epsg buffer in
  let r := run ext ty context include_guidance include_quality_measurement
               (start a) in
  result_status (self (snd r)) <> NO_HIT_GREEN ->
  result_status (self (snd r)) <> NO_HIT_YELLOW ->
  ~ In (Invoke "set_distance_to_object") (calls (snd r)) /\
  distance_to_object (self (snd r)) = 0.
Proof.
  intros Hsub Hq. cbv zeta.
  set (a := __init__ dataset_id config geometry epsg orig_epsg buffer).
  intros Hgreen Hyellow.
  assert (Huntouched :
    distance_untouched (start a)
      (snd (run ext ty context include_guidance include_quality_measurement
                (start a)))).
  { pose proof Hsub as (Hadd & Hdef & _).
    revert Hgreen Hyellow. rewrite run_after_prepare.
    destruct (prepare_distance_untouched ty (start a)) as [H1 _].
    destruct (prepare ext ty (start a)) as [[e|[]] w1]; cbn [snd] in H1;
      [intros _ _; exact H1|].
    unfold after_prepare. rewrite (bind_unfold get_self). unfold get_self.
    destruct (has_coverage (self w1)).
    - rewrite bind_unfold.
      destruct (run_queries_distance_untouched ty Hq w1) as [H2 _].
      destruct (await_method ext ty "run_queries" w1) as [[e|[]] w2];
        cbn [snd] in H2;
        [intros _ _; eapply distance_untouched_trans; eassumption|].
      rewrite (bind_unfold get_self). unfold get_self.
      destruct (ResultStatus_eqb (result_status (self w2)) TIMEOUT
                || ResultStatus_eqb (result_status (self w2)) ERROR).
      + intros _ _.
        destruct (set_default_data_distance_untouched ty Hdef w2) as [H3 _].
        eapply distance_untouched_trans; [exact H1|].
        eapply distance_untouched_trans; [exact H2 | exact H3].
      + rewrite bind_unfold.
        destruct set_geometry_areas_distance_untouched with (w := w2)
          as [H3 _].
        destruct (private "__set_geometry_areas" (__set_geometry_areas ext) w2)
          as [[e|[]] w3]; cbn [snd] in H3.
        * intros _ _.
          eapply distance_untouched_trans; [exact H1|].
          eapply distance_untouched_trans; [exact H2 | exact H3].
        * intros Hgreen Hyellow.
          eapply distance_untouched_trans; [exact H1|].
          eapply distance_untouched_trans; [exact H2|].
          eapply distance_untouched_trans; [exact H3|].
          now apply finish_without_distance_stage.
    - rewrite bind_unfold. unfold assign.
      intros _ Hyellow. exfalso. apply Hyellow.
      destruct (finish_finished ty context include_guidance
                  include_quality_measurement Hsub
                  {| self := set_result_status NO_HIT_YELLOW (self w1);
                     calls := calls w1 |}) as [(_ & _ & Hstatus & _) _].
      exact Hstatus. }
  destruct Huntouched as [Hdistance Hcalls]. split.
  - eapply extends_by_not_in; [exact Hcalls | reflexivity | intros []].
  - rewrite Hdistance. reflexivity.
Qed.

(** *** The working geometry and the input area of the response *)

Lemma same_working_geometry_refl (w : World') : same_working_geometry w w.
Proof. reflexivity. Qed.

Lemma same_working_geometry_trans (w1 w2 w3 : World') :
  same_working_geometry w1 w2 -> same_working_geometry w2 w3 ->
  same_working_geometry w1 w3.
Proof. unfold same_working_geometry. congruence. Qed.

Ltac rel_refl ::=
  first [ exact prepared_refl | exact queried_refl | exact finished_refl
        | exact any_world_refl | exact same_inputs_refl
        | exact only_appended_refl | exact no_buffer_label_refl
        | exact guidance_untouched_refl | exact same_guidance_refl
        | exact guidance_rule_refl | exact calls_grow_refl
        | exact same_default_data_refl | exact distance_untouched_refl
        | exact no_distance_stage_refl | exact same_working_geometry_refl ].

Ltac rel_trans ::=
  first [ exact prepared_trans | exact queried_trans | exact finished_trans
        | exact any_world_trans | exact same_inputs_trans
        | exact only_appended_trans | exact no_buffer_label_trans
        | exact guidance_untouched_trans | exact same_guidance_trans
        | exact guidance_rule_trans | exact calls_grow_trans
        | exact same_default_data_trans | exact distance_untouched_trans
        | exact no_distance_stage_trans | exact same_working_geometry_trans ].

Ltac rel_step ::=
  intros;
  first
    [ exact I
    | unfold prepared, queried, finished, distance_untouched, no_distance_stage;
      cbn;
      repeat match goal with |- _ /\ _ => split end;
      try reflexivity;
      extends_solve
    | unfold same_inputs, only_appended, no_buffer_label, same_guidance,
        guidance_untouched, calls_grow, same_default_data,
        same_working_geometry, prefix_of;
      cbn;
      repeat match goal with |- _ /\ _ => split end;
      try reflexivity;
      list_step
    | apply same_guidance_rule; unfold same_guidance, guidance_untouched; cbn;
      repeat match goal with |- _ /\ _ => split end;
      reflexivity ].

Lemma call_str_same_working_geometry (ty : PyType) (name arg : string) :
  keeps' same_working_geometry (fun _ => True) (call_str ty name arg).
Proof. keeps_call_str. Qed.

Lemma query_layers_same_working_geometry (ty : PyType) :
  forall layers geolett_data,
    keeps' same_working_geometry (fun _ => True)
           (query_layers ext ty layers geolett_data).
Proof.
  pose proof (call_str_same_working_geometry ty) as Hcall. keeps_query_layers.
Qed.

Lemma await_method_same_working_geometry (ty : PyType) (name : string) :
  keeps' same_working_geometry (fun _ => True) (await_method ext ty name).
Proof.
  pose proof (call_str_same_working_geometry ty) as Hcall.
  pose proof (query_layers_same_working_geometry ty) as Hloop.
  keeps_await.
Qed.

(** After the query stage the working geometry is still the one
    [__set_input_geometry] has computed, whatever [run_queries] is bound
    to. *)
Lemma through_queries_working_geometry (ty : PyType) (w w1 : World') :
  ty "add_run_algorithm" = Some Analysis_add_run_algorithm ->
  through_queries ext ty w = (inr true, w1) ->
  run_on_input_geometry (self w1) = Some (working_geometry ext (self w)).
Proof.
  intros Hadd. unfold through_queries.
  pose proof (prepare_working_geometry ty w Hadd) as Hgeo.
  rewrite bind_unfold.
  destruct (prepare ext ty w) as [[e|[]] w0]; [discriminate|].
  cbn [snd] in Hgeo.
  rewrite (bind_unfold get_self). unfold get_self.
  destruct (has_coverage (self w0)); [|discriminate].
  rewrite bind_unfold.
  destruct (await_method_same_working_geometry ty "run_queries" w0)
    as [Hsame _].
  destruct (await_method ext ty "run_queries" w0) as [[e|[]] w2];
    [discriminate|].
  cbn [snd] in Hsame. intros H. inversion H; subst w2.
  now rewrite Hsame.
Qed.

(** If cloning a geometry keeps its area: for a class of the [Analysis]
    hierarchy and a fresh object, when the query stage of [run] has
    completed without TIMEOUT or ERROR, the input geometry area [run] stores
    on the object is the input geometry area [AnalysisResponse.create]
    computes from the same geometry, EPSG code and buffer. *)
Theorem response_area_is_analysis_area
    {FactSheet Report : Type} (add_geojson_crs : GeoJson -> Z -> GeoJson)
    (ty : PyType) (context : RequestContext)
    (include_guidance include_quality_measurement : bool)
    (geo_json : GeoJson) (geometry : Geometry) (epsg orig_epsg buffer : Z)
    (fact_sheet : FactSheet) (municipality_number municipality_name : string)
    (dataset_id : UUID) (config : DatasetConfig) (w1 : World') :
  (forall g, GetArea ext (Clone ext g) = GetArea ext g) ->
  Analysis_subclass ty ->
  let response : @AnalysisResponse Geometry Num PropValue Metadata GeoJson
                                   FactSheet Report :=
    create ext add_geojson_crs geo_json geometry epsg orig_epsg buffer
           fact_sheet municipality_number municipality_name in
  let a : Analysis' :=
    __init__ dataset_id config geometry epsg orig_epsg (Some buffer) in
  through_queries ext ty (start a) = (inr true, w1) ->
  result_status (self w1) <> TIMEOUT ->
  result_status (self w1) <> ERROR ->
  input_geometry_area
    (self (snd (run ext ty context include_guidance
                    include_quality_measurement (start a))))
  = Some (response_input_geometry_area response).
Proof.
  intros Hclone Hsub. cbv zeta. intros Hq Htimeout Herror.
  pose proof Hsub as (Hadd & _).
  pose proof (through_queries_working_geometry ty _ w1 Hadd Hq) as Hgeo.
  rewrite run_through_queries, Hq.
  unfold after_queries. rewrite (bind_unfold get_self). unfold get_self.
  assert (Hstatus : ResultStatus_eqb (result_status (self w1)) TIMEOUT
                    || ResultStatus_eqb (result_status (self w1)) ERROR = false).
  { destruct (result_status (self w1)); try reflexivity; contradiction. }
  rewrite Hstatus.
  destruct (set_geometry_areas_outcome w1 _ Hgeo) as [w2 (Heq & Harea & _)].
  rewrite bind_unfold, Heq.
  destruct (finish_finished ty context include_guidance
              include_quality_measurement Hsub w2) as [(Harea' & _) _].
  rewrite Harea', Harea. f_equal.
  unfold create, working_geometry. cbn.
  destruct (0 <? buffer); [reflexivity|]. now rewrite Hclone.
Qed.

(** *** The coverage values and the query stage *)


End Pipeline.

(** * Properties of the code around the pipeline *)

Section Lookups.

Context {Geometry Num Feature PropValue Metadata CoverageWfs GeoJson RequestContext : Type}.
Variable ext :
  @Collaborators Geometry Num Feature PropValue Metadata CoverageWfs GeoJson
                 RequestContext.

(** The quality indicators of a dataset are those of the quality
    configurations that name no dataset or name this one, in configuration
    order; a configuration for another dataset contributes nothing. *)
Theorem quality_indicators_of_dataset (dataset_id : UUID) :
  get_quality_indicator_configs ext dataset_id =
    flat_map quality_config_indicators
             (filter (fun config =>
                        applies_to (quality_config_dataset_id config) dataset_id)
                     (snd (_load_config ext))) /\
  (forall indicator,
     In indicator (get_quality_indicator_configs ext dataset_id) <->
     exists config,
       In config (snd (_load_config ext)) /\
       (quality_config_dataset_id config = None \/
        quality_config_dataset_id config = Some dataset_id) /\
       In indicator (quality_config_indicators config)).
Proof.
  unfold get_quality_indicator_configs. split.
  - induction (snd (_load_config ext)) as [|config rest IH]; [reflexivity|].
    cbn [flat_map filter].
    destruct (applies_to (quality_config_dataset_id config) dataset_id);
      cbn [flat_map app]; now rewrite IH.
  - intros indicator. rewrite in_flat_map. split.
    + intros [config [Hin Hind]]. exists config. split; [assumption|].
      unfold applies_to in Hind.
      destruct (quality_config_dataset_id config) as [id|].
      * destruct (String.eqb id dataset_id) eqn:Heq; [|contradiction].
        apply String.eqb_eq in Heq. subst. split; [now right | assumption].
      * split; [now left | assumption].
    + intros [config (Hin & Hid & Hind)]. exists config. split; [assumption|].
      unfold applies_to.
      destruct Hid as [-> | ->]; [assumption|].
      now rewrite String.eqb_refl.
Qed.

(** The coverage measurements follow the returned values one by one, in
    order: each carries the indicator's dimension id and name, the value
    "Nei" for the two sentinels and "Ja" for anything else, and as comment the
    codelist label of the returned value. *)
Theorem coverage_measurement_per_value
    (quality_indicator : QualityIndicator) (geometry : option Geometry) (epsg : Z) :
  let values :=
    fst (_get_values_from_web_service ext quality_indicator geometry epsg) in
  let measurements :=
    fst (fst (get_coverage_quality ext quality_indicator geometry epsg)) in
  measurements =
    map (fun v =>
           {| quality_dimension_id :=
                indicator_quality_dimension_id quality_indicator;
              quality_dimension_name :=
                indicator_quality_dimension_name quality_indicator;
              value := if String.eqb v "ikkeKartlagt" || String.eqb v "ikkeRelevant"
                       then "Nei" else "Ja";
              comment :=
                _get_label_from_codelist
                  v (get_codelist ext "fullstendighet_dekning") |})
        values /\
  List.length measurements = List.length values.
Proof.
  cbv zeta.
  assert (Heq :
    fst (fst (get_coverage_quality ext quality_indicator geometry epsg)) =
    map (fun v =>
           {| quality_dimension_id :=
                indicator_quality_dimension_id quality_indicator;
              quality_dimension_name :=
                indicator_quality_dimension_name quality_indicator;
              value := if String.eqb v "ikkeKartlagt" || String.eqb v "ikkeRelevant"
                       then "Nei" else "Ja";
              comment :=
                _get_label_from_codelist
                  v (get_codelist ext "fullstendighet_dekning") |})
        (fst (_get_values_from_web_service ext quality_indicator geometry epsg))).
  { unfold get_coverage_quality, _get_coverage_quality_data.
    destruct (_get_values_from_web_service ext quality_indicator geometry epsg)
      as [values percent].
    destruct values as [|v rest]; [reflexivity|].
    cbn [fst snd data_values data_id data_name]. rewrite map_map.
    apply map_ext. intros x. cbn [meas_value meas_comment str_in existsb].
    rewrite orb_false_r.
    now rewrite (String.eqb_sym x "ikkeKartlagt"), (String.eqb_sym x "ikkeRelevant"). }
  split; [exact Heq|]. rewrite Heq. apply length_map.
Qed.

(** The label of a value is that of the first codelist entry with this
    value; without such an entry there is no label. *)
Theorem codelist_label_of_first_match
    (v : string) (before : list CodelistEntry) (entry : CodelistEntry)
    (after : list CodelistEntry) :
  (forall e, In e before -> entry_value e <> v) ->
  entry_value entry = v ->
  _get_label_from_codelist v (Some (before ++ entry :: after)) = entry_label entry /\
  _get_label_from_codelist v (Some before) = None.
Proof.
  intros Hbefore Hentry.
  assert (Hnone : find (fun e => String.eqb (entry_value e) v) before = None).
  { induction before as [|e rest IH]; [reflexivity|]. cbn.
    assert (He : String.eqb (entry_value e) v = false).
    { apply String.eqb_neq. apply Hbefore. now left. }
    rewrite He. apply IH. intros e' He'. apply Hbefore. now right. }
  assert (Hfind : find (fun e => String.eqb (entry_value e) v)
                       (before ++ entry :: after) = Some entry).
  { clear Hnone. induction before as [|e rest IH]; cbn.
    - now rewrite Hentry, String.eqb_refl.
    - assert (He : String.eqb (entry_value e) v = false).
      { apply String.eqb_neq. apply Hbefore. now left. }
      rewrite He. apply IH. intros e' He'. apply Hbefore. now right. }
  unfold _get_label_from_codelist. split.
  - rewrite Hfind. now destruct (before ++ entry :: after).
  - rewrite Hnone. now destruct before.
Qed.

Lemma hd_filter_first {A : Type} (p : A -> bool) (l : list A) (x : A) :
  hd_error (filter p l) = Some x ->
  p x = true /\
  exists before after,
    l = before ++ x :: after /\ forall y, In y before -> p y = false.
Proof.
  induction l as [|y rest IH]; [discriminate|]. cbn.
  destruct (p y) eqn:Hy; cbn.
  - intros H. inversion H; subst y. split; [assumption|].
    exists [], rest. split; [reflexivity | intros z []].
  - intros H. destruct (IH H) as [Hx [before [after [-> Hbefore]]]].
    split; [assumption|]. exists (y :: before), after.
    split; [reflexivity|]. intros z [<-|Hz]; [assumption | now apply Hbefore].
Qed.

Lemma hd_filter_none {A : Type} (p : A -> bool) (l : list A) :
  hd_error (filter p l) = None <-> forall y, In y l -> p y = false.
Proof.
  induction l as [|y rest IH]; cbn.
  - split; [intros _ z [] | reflexivity].
  - destruct (p y) eqn:Hy; cbn.
    + split; [discriminate|]. intros H. specialize (H y (or_introl eq_refl)).
      congruence.
    + rewrite IH. split.
      * intros H z [<-|Hz]; [assumption | now apply H].
      * intros H z Hz. apply H. now right.
Qed.

(** The guidance lookup: no id gives no entry; an entry that is returned has
    the id asked for; the lookup raises nothing but the TypeError of
    iterating over [None]; and for an id that is not one of the local ids the
    register read is the fetched one: the entry returned is the first of the
    register with this id, no entry is returned exactly when the register
    holds none with this id, and the lookup raises exactly when the register
    could not be fetched. *)
Theorem geolett_lookup :
  get_geolett_data ext None = inr None /\
  (forall id g,
     get_geolett_data ext (Some id) = inr (Some g) -> geolett_id g = id) /\
  (forall id e,
     get_geolett_data ext (Some id) = inl e ->
     e = TypeError "'NoneType' object is not iterable") /\
  (forall id,
     str_in id _LOCAL_GEOLETT_IDS = false ->
     (forall g,
        get_geolett_data ext (Some id) = inr (Some g) <->
        exists before after,
          _fetch_geolett_data ext = Some (before ++ g :: after) /\
          geolett_id g = id /\
          forall item, In item before -> geolett_id item <> id) /\
     (get_geolett_data ext (Some id) = inr None <->
      exists items,
        _fetch_geolett_data ext = Some items /\
        forall item, In item items -> geolett_id item <> id) /\
     (forall e,
        get_geolett_data ext (Some id) = inl e <->
        _fetch_geolett_data ext = None /\
        e = TypeError "'NoneType' object is not iterable")).
Proof.
  split; [reflexivity|].
  unfold get_geolett_data.
  split; [|split].
  - intros id g.
    destruct (if uuid_in_strs id _LOCAL_GEOLETT_IDS
              then Some (_fetch_local_geolett_data ext)
              else _fetch_geolett_data ext) as [items|]; [|discriminate].
    intros H. inversion H as [Hhd]. clear H.
    apply hd_filter_first in Hhd. destruct Hhd as [Heq _].
    now apply String.eqb_eq in Heq.
  - intros id e.
    destruct (if uuid_in_strs id _LOCAL_GEOLETT_IDS
              then Some (_fetch_local_geolett_data ext)
              else _fetch_geolett_data ext) as [items|]; [discriminate|].
    intros H. now inversion H.
  - intros id _. unfold uuid_in_strs.
    destruct (_fetch_geolett_data ext) as [items|].
    + split; [|split].
      * intros g. split.
        -- intros H. inversion H as [Hhd]. clear H.
           apply hd_filter_first in Hhd.
           destruct Hhd as [Heq [before [after [-> Hbefore]]]].
           apply String.eqb_eq in Heq.
           exists before, after. split; [reflexivity|]. split; [assumption|].
           intros item Hitem. apply String.eqb_neq. now apply Hbefore.
        -- intros [before [after (Heq & Hid & Hbefore)]].
           inversion Heq; subst items. clear Heq. f_equal.
           induction before as [|item rest IH]; cbn.
           ++ apply String.eqb_eq in Hid. now rewrite Hid.
           ++ assert (Hne : String.eqb (geolett_id item) id = false).
              { apply String.eqb_neq. apply Hbefore. now left. }
              rewrite Hne. apply IH. intros x Hx. apply Hbefore. now right.
      * split.
        -- intros H. inversion H as [Hhd]. clear H.
           exists items. split; [reflexivity|].
           intros item Hitem. apply String.eqb_neq.
           now apply (proj1 (hd_filter_none _ items) Hhd).
        -- intros [items' [Heq Hnone]]. inversion Heq; subst items'. f_equal.
           apply hd_filter_none. intros item Hitem.
           apply String.eqb_neq. now apply Hnone.
      * intros e. split; [discriminate|]. intros [Heq _]. discriminate.
    + split; [|split].
      * intros g. split; [discriminate|].
        intros [before [after (Heq & _)]]. discriminate.
      * split; [discriminate|]. intros [items [Heq _]]. discriminate.
      * intros e. split.
        -- intros H. inversion H. now split.
        -- intros [_ ->]. reflexivity.
Qed.

End Lookups.

Section MatchedRecords.

Context {Geometry Num Feature PropValue Metadata CoverageWfs GeoJson RequestContext : Type}.
Variable ext :
  @Collaborators Geometry Num Feature PropValue Metadata CoverageWfs GeoJson
                 RequestContext.

Abbreviation Props' := (@Props PropValue).

Lemma dict_get_set (props : Props') (key key' : string) (v : PropValue) :
  dict_get (dict_set props key v) key' =
  if String.eqb key key' then Some v else dict_get props key'.
Proof.
  unfold dict_get.
  induction props as [|[k old] rest IH]; cbn.
  - now destruct (String.eqb key key').
  - destruct (String.eqb k key) eqn:Hk; cbn.
    + apply String.eqb_eq in Hk. subst k.
      now destruct (String.eqb key key').
    + destruct (String.eqb k key') eqn:Hk'.
      * apply String.eqb_eq in Hk'. subst key'.
        rewrite String.eqb_sym in Hk. now rewrite Hk.
      * exact IH.
Qed.

Lemma dict_set_keys (props : Props') (key : string) (v : PropValue) :
  map fst (dict_set props key v) =
  if str_in key (map fst props) then map fst props else map fst props ++ [key].
Proof.
  unfold str_in.
  induction props as [|[k old] rest IH]; cbn; [reflexivity|].
  rewrite (String.eqb_sym key k).
  destruct (String.eqb k key) eqn:Hk; cbn.
  - apply String.eqb_eq in Hk. now subst.
  - rewrite IH.
    now destruct (existsb (String.eqb key) (map fst rest)).
Qed.

Lemma dict_set_NoDup (props : Props') (key : string) (v : PropValue) :
  NoDup (map fst props) -> NoDup (map fst (dict_set props key v)).
Proof.
  intros Hnd. rewrite dict_set_keys.
  destruct (str_in key (map fst props)) eqn:Hin; [assumption|].
  apply NoDup_app; [assumption | repeat constructor; intros [] |].
  intros k Hk [<-|[]].
  apply str_in_In in Hk. congruence.
Qed.

Lemma find_last {A : Type} (p : A -> bool) (l : list A) (x : A) :
  find p (rev (x :: l)) =
  match find p (rev l) with
  | Some y => Some y
  | None => if p x then Some x else None
  end.
Proof.
  cbn [rev]. induction (rev l) as [|y rest IH]; cbn.
  - reflexivity.
  - destruct (p y); [reflexivity | exact IH].
Qed.

Lemma map_properties_from
    (feature : Feature) (mappings : list string) (key : string) :
  forall props : Props',
    dict_get
      (fold_left
         (fun props mapping =>
            dict_set props (last_segment ext mapping)
                     (get_property ext feature mapping))
         mappings props) key =
    match find (fun mapping => String.eqb (last_segment ext mapping) key)
               (rev mappings) with
    | Some mapping => Some (get_property ext feature mapping)
    | None => dict_get props key
    end.
Proof.
  induction mappings as [|mapping rest IH]; intros props; [reflexivity|].
  cbn [fold_left]. rewrite IH, find_last, dict_get_set.
  destruct (find (fun m => String.eqb (last_segment ext m) key) (rev rest));
    [reflexivity|].
  now destruct (String.eqb (last_segment ext mapping) key).
Qed.

(** The record built from a feature has each key once, and under a key it
    holds the feature's value for the last mapping that ends in this key
    (a later mapping overwrites an earlier one with the same last segment);
    a key no mapping ends in is absent. *)
Theorem mapped_property_lookup
    (feature : Feature) (mappings : list string) (key : string) :
  dict_get (__map_properties ext feature mappings) key =
    match find (fun mapping => String.eqb (last_segment ext mapping) key)
               (rev mappings) with
    | Some mapping => Some (get_property ext feature mapping)
    | None => None
    end /\
  NoDup (map fst (__map_properties ext feature mappings)).
Proof.
  unfold __map_properties. split.
  - now rewrite map_properties_from.
  - assert (H : forall props : Props',
               NoDup (map fst props) ->
               NoDup (map fst
                        (fold_left
                           (fun props mapping =>
                              dict_set props (last_segment ext mapping)
                                       (get_property ext feature mapping))
                           mappings props))).
    { induction mappings as [|mapping rest IH]; intros props Hnd; [assumption|].
      cbn [fold_left]. apply IH. now apply dict_set_NoDup. }
    apply H. constructor.
Qed.

End MatchedRecords.

Section ConfigurationFiles.

Context {CoverageWfs : Type}.
Context {Document : Type}.
Variable is_mapping : Document -> bool.
Variable document_type : Document -> option string.
Variable construct_dataset : Document -> Constructed DatasetConfig.
Variable construct_quality : Document -> Constructed (@QualityConfig CoverageWfs).

Abbreviation document_error' :=
  (document_error is_mapping document_type construct_dataset construct_quality).
Abbreviation dataset_of' := (dataset_of is_mapping document_type construct_dataset).
Abbreviation quality_of' := (quality_of is_mapping document_type construct_quality).
Abbreviation passes result := (document_error' result = None).

(** One document: the loop raises what the document makes it raise, and
    otherwise appends the configuration the document gives. *)
Lemma add_document_outcome
    (configs : list DatasetConfig * list QualityConfig) (result : Document) :
  add_document is_mapping document_type construct_dataset construct_quality
               configs result =
  match document_error' result with
  | Some e => inl e
  | None => inr (fst configs ++ dataset_of' result,
                 snd configs ++ quality_of' result)
  end.
Proof.
  destruct configs as [dataset_configs quality_configs].
  unfold add_document, document_error, dataset_of, quality_of,
    _create_dataset_config, _create_quality_config.
  cbn [fst snd].
  destruct (is_mapping result); cbn [negb]; [|reflexivity].
  destruct (document_type result) as [type|];
    [|now rewrite !app_nil_r].
  destruct (String.eqb type "dataset") eqn:Hd.
  - apply String.eqb_eq in Hd. subst type. cbn [String.eqb Ascii.eqb Bool.eqb].
    destruct (construct_dataset result), (construct_quality result);
      now rewrite ?app_nil_r.
  - destruct (String.eqb type "quality").
    + destruct (construct_dataset result), (construct_quality result);
        now rewrite ?app_nil_r.
    + destruct (construct_dataset result), (construct_quality result);
        now rewrite ?app_nil_r.
Qed.

Lemma add_documents_outcome (results : list Document) :
  forall configs,
    match add_documents is_mapping document_type construct_dataset
                        construct_quality results configs with
    | inl e =>
        exists before result after,
          results = before ++ result :: after /\
          Forall (fun result => passes result) before /\
          document_error' result = Some e
    | inr configs' =>
        Forall (fun result => passes result) results /\
        configs' = (fst configs ++ flat_map dataset_of' results,
                    snd configs ++ flat_map quality_of' results)
    end.
Proof.
  induction results as [|result rest IH]; intros configs.
  - cbn. split; [constructor|]. rewrite !app_nil_r. now destruct configs.
  - cbn [add_documents]. rewrite add_document_outcome.
    destruct (document_error' result) as [e|] eqn:Herr.
    + exists [], result, rest. split; [reflexivity|].
      split; [constructor | exact Herr].
    + specialize (IH (fst configs ++ dataset_of' result,
                      snd configs ++ quality_of' result)).
      destruct (add_documents is_mapping document_type construct_dataset
                              construct_quality rest _) as [e|configs'].
      * destruct IH as [before [doc [after (Heq & Hbefore & Hdoc)]]].
        exists (result :: before), doc, after. split; [now rewrite Heq|].
        split; [now constructor | exact Hdoc].
      * destruct IH as [Hall Heq]. split; [now constructor|].
        rewrite Heq. cbn [fst snd flat_map]. now rewrite !app_assoc.
Qed.

Abbreviation loads' :=
  (loads is_mapping document_type construct_dataset construct_quality).
Abbreviation first_failure' :=
  (first_failure is_mapping document_type construct_dataset construct_quality).

Lemma add_files_outcome (files : list (@YamlFile Document)) :
  forall configs,
    match add_files is_mapping document_type construct_dataset
                    construct_quality files configs with
    | inl e => first_failure' files e
    | inr configs' =>
        Forall loads' files /\
        configs' = (fst configs ++ flat_map dataset_of' (documents_of files),
                    snd configs ++ flat_map quality_of' (documents_of files))
    end.
Proof.
  induction files as [|file rest IH]; intros configs.
  - cbn. split; [constructor|]. rewrite !app_nil_r. now destruct configs.
  - cbn [add_files]. unfold documents_of. cbn [flat_map].
    pose proof (add_documents_outcome (yielded file) configs) as Hfile.
    destruct (add_documents is_mapping document_type construct_dataset
                            construct_quality (yielded file) configs)
      as [e|configs1].
    + exists [], file, rest. split; [reflexivity|].
      split; [constructor|]. left. exact Hfile.
    + destruct Hfile as [Hall1 Heq1].
      destruct (stopped file) as [e|] eqn:Hstop.
      * exists [], file, rest. split; [reflexivity|].
        split; [constructor|]. right. now split.
      * specialize (IH configs1).
        destruct (add_files is_mapping document_type construct_dataset
                            construct_quality rest configs1) as [e|configs'].
        -- destruct IH as [files_before [f [files_after (Heq & Hloads & Hf)]]].
           exists (file :: files_before), f, files_after.
           split; [now rewrite Heq|].
           split; [|exact Hf]. constructor; [now split | exact Hloads].
        -- destruct IH as [Hall Heq].
           split; [constructor; [now split | exact Hall]|].
           rewrite Heq, Heq1. cbn [fst snd].
           fold (documents_of rest).
           now rewrite !flat_map_app, !app_assoc.
Qed.

(** Loading the configuration files.  When [_create_configs] returns, every
    file has been read to its end, no document has made the loop raise, the
    dataset and the quality configurations are those the documents give, in
    file and document order (a document of another type, without a type, or
    that fails validation is skipped), and there is at least one dataset
    configuration.  When it raises, either some file is the first that does
    not load and the exception is the one of its first document that makes
    the loop raise (one that is not a mapping, such as an empty document,
    with the AttributeError of [result.get]; or one whose constructor raises
    something other than a ValidationError) or, when all its documents pass,
    the one reading it stops with; or every file loads, no document gives a
    dataset configuration, and the exception is the DokAnalysisException. *)
Theorem create_configs_keeps_valid_documents (files : list (@YamlFile Document)) :
  match _create_configs is_mapping document_type construct_dataset
                        construct_quality files with
  | inr (dataset_configs, quality_configs) =>
      Forall loads' files /\
      dataset_configs =
        valid_datasets is_mapping document_type construct_dataset files /\
      quality_configs =
        valid_qualities is_mapping document_type construct_quality files /\
      dataset_configs <> []
  | inl e =>
      first_failure' files e \/
      (Forall loads' files /\
       valid_datasets is_mapping document_type construct_dataset files = [] /\
       is_DokAnalysisException (@inl Exn unit e))
  end.
Proof.
  unfold _create_configs, valid_datasets, valid_qualities.
  pose proof (add_files_outcome files ([], [])) as Hfiles.
  destruct (add_files is_mapping document_type construct_dataset
                      construct_quality files ([], [])) as [e|configs].
  - left. exact Hfiles.
  - destruct Hfiles as [Hall Heq]. cbn [fst snd app] in Heq. subst configs.
    cbn [fst snd].
    destruct (flat_map dataset_of' (documents_of files)) as [|c rest]; cbn.
    + right. split; [exact Hall|]. split; [reflexivity | exact I].
    + split; [exact Hall|]. repeat split. discriminate.
Qed.

(** A document that is not a mapping stops the load with the AttributeError,
    whatever the documents and the files after it hold. *)
Lemma document_without_get_raises
    (before : list Document) (result : Document) (after : list Document)
    (failure : option Exn) (files : list (@YamlFile Document)) :
  Forall (fun result => passes result) before ->
  is_mapping result = false ->
  _create_configs is_mapping document_type construct_dataset construct_quality
                  ({| yielded := before ++ result :: after;
                      stopped := failure |} :: files)
  = inl (AttributeError "get").
Proof.
  intros Hbefore Hmap.
  assert (Herr : document_error' result = Some (AttributeError "get"))
    by (unfold document_error; now rewrite Hmap).
  unfold _create_configs. cbn [add_files yielded].
  assert (Hdocs : forall configs,
            add_documents is_mapping document_type construct_dataset
                          construct_quality (before ++ result :: after) configs
            = inl (AttributeError "get")).
  { induction Hbefore as [|doc rest Hdoc Hrest IH]; intros configs.
    - cbn [app add_documents]. now rewrite add_document_outcome, Herr.
    - cbn [app add_documents]. rewrite add_document_outcome, Hdoc. apply IH. }
  now rewrite Hdocs.
Qed.

End ConfigurationFiles.


(** * The road summary of the fact sheet *)

Section RunningTotals.

Context {K V : Type}.
Variable eqb : K -> K -> bool.
Hypothesis eqb_spec : forall a b, eqb a b = true <-> a = b.
Variable add : V -> V -> V.

Abbreviation holds_key k d := (existsb (fun entry : K * V => eqb (fst entry) k) d).
Abbreviation add_entry :=
  (fun (d : list (K * V)) (entry : K * V) =>
     add_to_key eqb add d (fst entry) (snd entry)).

Lemma eqb_same (k : K) : eqb k k = true.
Proof. now apply eqb_spec. Qed.

Lemma eqb_swap (a b : K) : eqb a b = eqb b a.
Proof.
  destruct (eqb a b) eqn:Hab, (eqb b a) eqn:Hba; try reflexivity.
  - apply eqb_spec in Hab. subst. now rewrite eqb_same in Hba.
  - apply eqb_spec in Hba. subst. now rewrite eqb_same in Hab.
Qed.

Lemma values_of_cons (k k' : K) (v : V) (rest : list (K * V)) :
  values_of eqb k ((k', v) :: rest) =
  if eqb k' k then v :: values_of eqb k rest else values_of eqb k rest.
Proof. unfold values_of. cbn. now destruct (eqb k' k). Qed.

Lemma total_cons_other (default : V) (k k' : K) (v : V) (rest : list (K * V)) :
  eqb k' k = false ->
  total eqb add default k ((k', v) :: rest) = total eqb add default k rest.
Proof. intros H. unfold total. now rewrite values_of_cons, H. Qed.

Lemma holds_key_In (k : K) (d : list (K * V)) :
  holds_key k d = true <-> In k (map fst d).
Proof.
  rewrite existsb_exists, in_map_iff. split.
  - intros [entry [Hin Heq]]. apply eqb_spec in Heq. now exists entry.
  - intros [entry [Heq Hin]]. exists entry. split; [assumption|].
    now apply eqb_spec.
Qed.

Lemma add_to_key_absent (d : list (K * V)) (k : K) (v : V) :
  holds_key k d = false -> add_to_key eqb add d k v = d ++ [(k, v)].
Proof.
  induction d as [|[k0 v0] rest IH]; cbn; [reflexivity|].
  destruct (eqb k0 k); cbn; [discriminate|]. intros H. now rewrite IH.
Qed.

Lemma add_to_key_keys (d : list (K * V)) (k : K) (v : V) :
  map fst (add_to_key eqb add d k v) =
  if holds_key k d then map fst d else map fst d ++ [k].
Proof.
  induction d as [|[k0 v0] rest IH]; cbn; [reflexivity|].
  destruct (eqb k0 k); cbn; [reflexivity|].
  rewrite IH. now destruct (holds_key k rest).
Qed.

Lemma add_to_key_NoDup (d : list (K * V)) (k : K) (v : V) :
  NoDup (map fst d) -> NoDup (map fst (add_to_key eqb add d k v)).
Proof.
  intros Hnd. rewrite add_to_key_keys.
  destruct (holds_key k d) eqn:Hk; [assumption|].
  apply NoDup_app; [assumption | repeat constructor; intros [] |].
  intros x Hx [<-|[]]. apply holds_key_In in Hx. congruence.
Qed.

Lemma holds_key_add (d : list (K * V)) (k x : K) (v : V) :
  holds_key x (add_to_key eqb add d k v) = holds_key x d || eqb k x.
Proof.
  induction d as [|[k0 v0] rest IH]; cbn.
  - now rewrite orb_false_r.
  - destruct (eqb k0 k) eqn:Hk; cbn.
    + apply eqb_spec in Hk. subst k0. clear IH.
      now destruct (eqb k x), (holds_key x rest).
    + rewrite IH. now rewrite orb_assoc.
Qed.

(** Adding to a key the dict holds is adding one more value under it. *)
Lemma add_to_key_present (d : list (K * V)) (k : K) (v : V) (rest : list (K * V)) :
  NoDup (map fst d) ->
  holds_key k d = true ->
  map (fun entry =>
         (fst entry, fold_left add (values_of eqb (fst entry) rest) (snd entry)))
      (add_to_key eqb add d k v) =
  map (fun entry =>
         (fst entry,
          fold_left add (values_of eqb (fst entry) ((k, v) :: rest)) (snd entry)))
      d.
Proof.
  induction d as [|[k0 v0] d' IH]; [discriminate|].
  intros Hnd Hk. inversion Hnd as [|? ? Hnot Hnd']; subst.
  cbn [add_to_key]. destruct (eqb k0 k) eqn:Hk0.
  - apply eqb_spec in Hk0. subst k0. cbn [map fst snd]. f_equal.
    + now rewrite values_of_cons, eqb_same.
    + apply map_ext_in. intros [k1 v1] Hin. cbn [fst snd].
      rewrite values_of_cons.
      destruct (eqb k k1) eqn:Hk1; [|reflexivity].
      apply eqb_spec in Hk1. subst k1. exfalso. apply Hnot.
      apply in_map_iff. now exists (k, v1).
  - cbn in Hk. rewrite Hk0 in Hk. cbn in Hk.
    cbn [map fst snd]. f_equal.
    + rewrite values_of_cons. rewrite eqb_swap, Hk0. reflexivity.
    + now apply IH.
Qed.

Lemma filter_filter {A : Type} (f g : A -> bool) (l : list A) :
  filter f (filter g l) = filter (fun x => g x && f x) l.
Proof.
  induction l as [|x rest IH]; [reflexivity|]. cbn.
  destruct (g x); cbn; [destruct (f x)|]; now rewrite ?IH.
Qed.

Lemma filter_all {A : Type} (l : list A) : filter (fun _ => true) l = l.
Proof. induction l as [|x rest IH]; [reflexivity|]. cbn. now rewrite IH. Qed.

(** The dict the loop builds: the entries it started with, each with the
    values of its key added, then one entry per new key, in the order of
    their first appearance, with the total of its values. *)
Lemma accumulate_totals (default : V) :
  forall (typed acc : list (K * V)),
    NoDup (map fst acc) ->
    fold_left add_entry typed acc =
    map (fun entry =>
           (fst entry,
            fold_left add (values_of eqb (fst entry) typed) (snd entry)))
        acc
    ++ map (fun k => (k, total eqb add default k typed))
           (filter (fun k => negb (holds_key k acc))
                   (distinct eqb (map fst typed))).
Proof.
  induction typed as [|[k v] rest IH]; intros acc Hnd.
  - cbn. rewrite app_nil_r.
    induction acc as [|[k0 v0] acc' IHacc]; [reflexivity|].
    cbn. f_equal. apply IHacc. now inversion Hnd.
  - cbn [fold_left fst snd map distinct].
    rewrite IH by now apply add_to_key_NoDup.
    assert (Hrest :
      forall d,
        map (fun k0 => (k0, total eqb add default k0 rest))
            (filter (fun k0 => negb (holds_key k0 d || eqb k k0))
                    (distinct eqb (map fst rest))) =
        map (fun k0 => (k0, total eqb add default k0 ((k, v) :: rest)))
            (filter (fun k0 => negb (holds_key k0 d))
                    (filter (fun x => negb (eqb x k))
                            (distinct eqb (map fst rest))))).
    { intros d. rewrite filter_filter.
      rewrite (filter_ext (fun k0 => negb (holds_key k0 d || eqb k k0))
                          (fun x => negb (eqb x k) && negb (holds_key x d))).
      - apply map_ext_in. intros k0 Hin. apply filter_In in Hin.
        destruct Hin as [_ Hin]. apply andb_true_iff in Hin.
        destruct Hin as [Hne _]. apply negb_true_iff in Hne.
        rewrite total_cons_other; [reflexivity|]. now rewrite eqb_swap.
      - intros x. rewrite negb_orb, (eqb_swap k x). apply andb_comm. }
    rewrite (filter_ext (fun k0 => negb (holds_key k0 (add_to_key eqb add acc k v)))
                        (fun k0 => negb (holds_key k0 acc || eqb k k0)))
      by (intros x; now rewrite holds_key_add).
    rewrite Hrest.
    destruct (holds_key k acc) eqn:Hk.
    + rewrite add_to_key_present by assumption.
      cbn [filter]. rewrite Hk. reflexivity.
    + rewrite add_to_key_absent by assumption.
      cbn [filter]. rewrite Hk. cbn [negb].
      rewrite map_app, <- app_assoc. cbn [map app fst snd]. f_equal.
      * apply map_ext_in. intros [k0 v0] Hin. cbn [fst snd].
        rewrite values_of_cons.
        destruct (eqb k k0) eqn:Hk0; [|reflexivity].
        apply eqb_spec in Hk0. subst k0.
        assert (Hin' : holds_key k acc = true).
        { apply holds_key_In. apply in_map_iff. now exists (k, v0). }
        congruence.
      * f_equal. unfold total. now rewrite values_of_cons, eqb_same.
Qed.

End RunningTotals.

Section RoadSummary.

Context {Geometry Num Feature PropValue Metadata CoverageWfs GeoJson RequestContext : Type}.
Variable ext :
  @Collaborators Geometry Num Feature PropValue Metadata CoverageWfs GeoJson
                 RequestContext.
Variable Length : Geometry -> Num.
Variable typeVeg : Feature -> option string.
Variable vegkategori : Feature -> option string.
Variable from_camel_case : option string -> string.

Lemma key_eqb_spec (a b : option string) : key_eqb a b = true <-> a = b.
Proof.
  destruct a as [x|], b as [y|]; cbn; split; try discriminate; try reflexivity.
  - intros H. apply String.eqb_eq in H. now subst.
  - intros H. inversion H. apply String.eqb_refl.
Qed.

(** A loop that returns has found a road type and a geometry for every
    feature, and has added their lengths to the dict in feature order. *)
Lemma collect_roads_typed (features : list Feature) :
  forall road_types result,
    collect_roads ext Length typeVeg vegkategori features road_types = inr result ->
    exists typed,
      map (typed_length ext Length typeVeg vegkategori) features = map Some typed /\
      result =
        fold_left (fun d entry =>
                     add_to_key key_eqb (num_add ext) d (fst entry) (snd entry))
                  typed road_types.
Proof.
  induction features as [|feature rest IH]; intros road_types result.
  - cbn. intros H. inversion H. now exists [].
  - cbn [collect_roads map]. unfold add_feature, typed_length.
    destruct (road_type_of ext typeVeg vegkategori feature) as [e|road_type];
      [discriminate|].
    destruct (geometry_from_json ext (dumps_geometry ext feature)) as [g|];
      [|discriminate].
    intros H. destruct (IH _ _ H) as [typed [Htyped Hresult]].
    exists ((road_type, Length g) :: typed). split; [|exact Hresult].
    cbn [map]. f_equal. exact Htyped.
Qed.

(** When [_map_response] returns, every feature has a road type and a
    geometry, and the result has one entry per distinct road type, in the
    order in which the types first appear among the features; the entry of a
    type holds the lengths of the features of this type, added up in feature
    order and rounded to 2 decimals. *)
Theorem roads_grouped_by_type
    (features : list Feature)
    (result : list (@RoadEntry Num)) :
  _map_response ext Length typeVeg vegkategori from_camel_case features
    = inr result ->
  exists typed,
    map (typed_length ext Length typeVeg vegkategori) features = map Some typed /\
    result =
      map (fun road_type =>
             {| roadType := from_camel_case road_type;
                road_length :=
                  round_ndigits
                    ext
                    (total key_eqb (num_add ext) (num_of_Z ext 0) road_type typed)
                    2 |})
          (distinct key_eqb (map fst typed)).
Proof.
  unfold _map_response.
  destruct (collect_roads ext Length typeVeg vegkategori features [])
    as [e|road_types] eqn:Hcollect; [discriminate|].
  intros H. inversion H. clear H.
  destruct (collect_roads_typed features [] road_types Hcollect)
    as [typed [Htyped Hresult]].
  exists typed. split; [exact Htyped|].
  rewrite Hresult.
  rewrite (accumulate_totals key_eqb key_eqb_spec (num_add ext) (num_of_Z ext 0)
             typed [] (NoDup_nil _)).
  cbn [map app existsb negb]. rewrite filter_all, map_map. reflexivity.
Qed.

End RoadSummary.

(** * The pipeline on the concrete deployment *)

Ltac conj_split := repeat match goal with |- _ /\ _ => split end.

Lemma Bound_class_subclass : Analysis_subclass Bound_class.
Proof. repeat split. right. reflexivity. Qed.

Lemma OgcApiAnalysis_class_subclass : Analysis_subclass OgcApiAnalysis_class.
Proof. repeat split. left. reflexivity. Qed.



(** C3 on the deployment: the dataset with two coverage indicators. *)
Lemma coverage_indicator_configuration_error_witness :
  let r := run demo_ext OgcApiAnalysis_class tt true true
               (start (demo_analysis "two-coverage" ["hit"])) in
  fst r = inl (DokAnalysisException
                 "A dataset can only have one coverage quality indicator") /\
  ~ In (Invoke "run_queries") (calls (snd r)) /\
  (forall layer geometry status_code,
     ~ In (QueryOgcApi layer geometry status_code) (calls (snd r))).
Proof.
  apply (coverage_indicator_configuration_error
           demo_ext OgcApiAnalysis_class tt true true
           (demo_analysis "two-coverage" ["hit"])
           OgcApiAnalysis_class_subclass).
  vm_compute. lia.
Defined.

(** The subclass that binds the dispatched names, on the deployment: the
    first layer answers 200 without a hit, the second one reports 408. *)
Lemma query_failure_short_circuits_witness :
  let r := run demo_ext Bound_class tt true true
               (start (demo_analysis "kartlagt" ["empty"; "timeout"; "hit"])) in
  fst r = inr tt /\
  result_status (self (snd r)) = TIMEOUT /\
  ~ In (Invoke "__set_geometry_areas") (calls (snd r)) /\
  ~ In (Invoke "set_distance_to_object") (calls (snd r)) /\
  input_geometry_area (self (snd r)) = None /\
  hit_area (self (snd r)) = None /\
  distance_to_object (self (snd r)) = 0 /\
  title (self (snd r)) = Some "Kvikkleire" /\
  themes (self (snd r)) = Some ["Samfunnssikkerhet"] /\
  run_on_dataset (self (snd r)) = Some "kartlagt".
Proof.
  apply (query_failure_short_circuits
           demo_ext Bound_class tt true true
           "kartlagt" (demo_config ["empty"; "timeout"; "hit"])
           "POLYGON input" 25833 4326 None
           [demo_layer "empty"] (demo_layer "timeout") [demo_layer "hit"]
           408 None None).
  - exact Bound_class_subclass.
  - reflexivity.
  - reflexivity.
  - reflexivity.
  - reflexivity.
  - right. reflexivity.
  - intros l [<-|[]]. split; [reflexivity | right; reflexivity].
  - reflexivity.
  - reflexivity.
  - discriminate.
Defined.

(** C7, the claim as stated fails: the query stage completes with
    NO_HIT_GREEN and no result geometry, and hitArea stays unset instead of
    becoming the rounded empty sum. *)
Lemma hit_area_unset_without_result_geometries :
  let w0 := start (demo_analysis "kartlagt" ["empty"]) in
  let queried := through_queries demo_ext Bound_class w0 in
  let w' := snd (run demo_ext Bound_class tt true true w0) in
  fst queried = inr true /\
  result_status (self (snd queried)) = NO_HIT_GREEN /\
  run_on_input_geometry (self (snd queried)) = Some "POLYGON input" /\
  hit_area (self w') <>
    Some (round_ndigits demo_ext
            (hit_area_sum demo_ext "POLYGON input"
                          (geometries (self (snd queried)))) 2).
Proof.
  cbv zeta. conj_split; try (vm_compute; reflexivity).
  vm_compute. discriminate.
Qed.

(** The amended C7 on the deployment: the second layer returns two polygons,
    a line and a feature without geometry. *)
Lemma geometry_areas_after_queries_witness :
  let w0 := start (demo_analysis "kartlagt" ["empty"; "hit"]) in
  let w' := snd (run demo_ext Bound_class tt true true w0) in
  input_geometry_area (self w') = Some 13 /\
  hit_area (self w') = Some 19.
Proof.
  cbv zeta.
  set (w0 := start (demo_analysis "kartlagt" ["empty"; "hit"])).
  assert (Hq : through_queries demo_ext Bound_class w0
               = (inr true, snd (through_queries demo_ext Bound_class w0)))
    by (vm_compute; reflexivity).
  assert (Hgeo : run_on_input_geometry
                   (self (snd (through_queries demo_ext Bound_class w0)))
                 = Some "POLYGON input")
    by (vm_compute; reflexivity).
  assert (Htimeout : result_status
                       (self (snd (through_queries demo_ext Bound_class w0)))
                     <> TIMEOUT)
    by (vm_compute; discriminate).
  assert (Herror : result_status
                     (self (snd (through_queries demo_ext Bound_class w0)))
                   <> ERROR)
    by (vm_compute; discriminate).
  destruct (geometry_areas_after_queries
              demo_ext Bound_class tt true true w0 _ "POLYGON input"
              Bound_class_subclass Hq Htimeout Herror Hgeo) as [Harea Hhit].
  split.
  - rewrite Harea. vm_compute. reflexivity.
  - rewrite Hhit. vm_compute. reflexivity.
Defined.

(** C2, the code at the failing input: the dataset's indicators are an
    OTHER-kind indicator followed by its one COVERAGE-kind indicator, and the
    coverage evaluator is called with the OTHER-kind indicator, never with the
    COVERAGE-kind one; its verdict (no values, no coverage) decides the run. *)
Theorem coverage_evaluator_gets_first_indicator :
  let other := demo_indicator OTHER_KIND [] None in
  let coverage := demo_indicator COVERAGE ["ikkeKartlagt"] (Some ["kartlagt"]) in
  let r := run demo_ext Bound_class tt true true
               (start (demo_analysis "coverage-second" ["hit"])) in
  get_quality_indicator_configs demo_ext "coverage-second" = [other; coverage] /\
  coverage_indicators demo_ext "coverage-second" = [coverage] /\
  In (GetCoverageQuality other) (calls (snd r)) /\
  ~ In (GetCoverageQuality coverage) (calls (snd r)) /\
  snd (get_coverage_quality demo_ext coverage (Some "POLYGON input") 25833) = true /\
  has_coverage (self (snd r)) = false /\
  result_status (self (snd r)) = NO_HIT_YELLOW.
Proof.
  cbv zeta. conj_split; try (vm_compute; reflexivity).
  - vm_compute. tauto.
  - vm_compute. intros H.
    repeat (destruct H as [H|H]; [discriminate H|]). exact H.
Qed.

(** C6, the code at the failing input: the returned value "" equals the
    threshold value "", and no warning is produced. *)
Theorem empty_value_never_warns :
  let indicator := demo_indicator COVERAGE [""] (Some [""]) in
  In "" (get_threshold_values demo_ext indicator) /\
  In "" (fst (_get_values_from_web_service demo_ext indicator
                                           (Some "POLYGON input") 25833)) /\
  _get_warning_text demo_ext indicator [""] 50 = None /\
  snd (fst (get_coverage_quality demo_ext indicator (Some "POLYGON input") 25833))
    = None.
Proof.
  cbv zeta. conj_split; try (vm_compute; reflexivity); now left.
Qed.

(** C4, the code at the failing input: the one layer of the dataset reports
    408, but [run] on an [OgcApiAnalysis] object awaits the abstract
    run_queries of [Analysis], so the dataset service is never asked: the
    result status stays NO_HIT_GREEN, the area stage and the distance stage
    are entered, and [run] stops with a TypeError before title, themes and
    dataset metadata are set.  [_run_queries] itself, on a dataset whose
    first layer answers without a hit, raises the AttributeError of
    [self._add_run_algorithm] before it reaches the layer that reports 408. *)
Theorem failing_layer_never_short_circuits :
  let r := run demo_ext OgcApiAnalysis_class tt true true
               (start (demo_analysis "kartlagt" ["timeout"])) in
  let direct := _run_queries
                  demo_ext OgcApiAnalysis_class
                  (start (set_run_on_input_geometry
                            (Some "POLYGON input")
                            (demo_analysis "kartlagt" ["empty"; "timeout"]))) in
  query_ogc_api demo_ext "https://ogc" "timeout" "geom"
                (Some "POLYGON input") 25833 = (408, None) /\
  OgcApiAnalysis_class "run_queries" = Some Analysis_run_queries /\
  has_coverage (self (snd r)) = true /\
  (forall geometry status_code,
     ~ In (QueryOgcApi "timeout" geometry status_code) (calls (snd r))) /\
  result_status (self (snd r)) = NO_HIT_GREEN /\
  In (Invoke "__set_geometry_areas") (calls (snd r)) /\
  In (Invoke "set_distance_to_object") (calls (snd r)) /\
  input_geometry_area (self (snd r)) = Some 13 /\
  fst r = inl (TypeError "object NoneType can't be used in 'await' expression") /\
  title (self (snd r)) = None /\
  themes (self (snd r)) = None /\
  run_on_dataset (self (snd r)) = None /\
  fst direct = inl (AttributeError "_add_run_algorithm") /\
  result_status (self (snd direct)) = NO_HIT_GREEN /\
  (forall geometry status_code,
     ~ In (QueryOgcApi "timeout" geometry status_code) (calls (snd direct))).
Proof.
  cbv zeta. conj_split; try (vm_compute; reflexivity).
  - intros geometry status_code. vm_compute. intros H.
    repeat (destruct H as [H|H]; [discriminate H|]). exact H.
  - vm_compute. tauto.
  - vm_compute. tauto.
  - intros geometry status_code. vm_compute. intros H.
    repeat (destruct H as [H|H]; [discriminate H|]). exact H.
Qed.

(** C9, the code at the failing input: on an [OgcApiAnalysis] object the
    distance query returns features, and [_set_distance_to_object] ends in
    the AttributeError of [self._add_run_algorithm] with distanceToObject
    still 0; only without a response does it store the sentinel. *)
Theorem distance_stage_fails_on_features :
  let a := set_run_on_input_geometry (Some "POLYGON input")
                                     (demo_analysis "kartlagt" ["hit"]) in
  let r := _set_distance_to_object demo_ext OgcApiAnalysis_class (start a) in
  let none := _set_distance_to_object
                demo_ext OgcApiAnalysis_class
                (start (set_run_on_input_geometry
                          (Some "POLYGON input")
                          (demo_analysis "kartlagt" ["timeout"]))) in
  fst r = inl (AttributeError "_add_run_algorithm") /\
  distance_to_object (self (snd r)) = 0 /\
  fst none = inr tt /\
  distance_to_object (self (snd none)) = maxsize.
Proof. cbv zeta. conj_split; vm_compute; reflexivity. Qed.

(** C10, the code as written: [OgcApiAnalysis] binds none of the names
    [run] looks up.  run_queries and set_distance_to_object resolve to the
    abstract methods of [Analysis], _add_run_algorithm resolves to nothing,
    the class cannot be instantiated, and [run] on such an object stops with
    a TypeError at the distance stage, before "deliver result". *)
Theorem OgcApiAnalysis_binds_no_dispatched_name :
  let r := run demo_ext OgcApiAnalysis_class tt true true
               (start (demo_analysis "kartlagt" ["hit"])) in
  OgcApiAnalysis_class "run_queries" = Some Analysis_run_queries /\
  OgcApiAnalysis_class "set_distance_to_object"
    = Some Analysis_set_distance_to_object /\
  OgcApiAnalysis_class "_add_run_algorithm" = None /\
  OgcApiAnalysis_class "_run_queries" = Some OgcApiAnalysis__run_queries /\
  OgcApiAnalysis_class "_set_distance_to_object"
    = Some OgcApiAnalysis__set_distance_to_object /\
  abstractmethods OgcApiAnalysis_class = ["run_queries"; "set_distance_to_object"] /\
  @instantiate string Z string string unit OgcApiAnalysis_class "kartlagt"
               (demo_config ["hit"]) "POLYGON input" 25833 4326 None
    = inl (TypeError "Can't instantiate abstract class") /\
  has_coverage (self (snd r)) = true /\
  fst r = inl (TypeError "object NoneType can't be used in 'await' expression") /\
  ~ In "deliver result" (run_algorithm (self (snd r))) /\
  ~ In (QueryOgcApi "hit" (Some "POLYGON input") 200) (calls (snd r)).
Proof.
  cbv zeta. conj_split; try (vm_compute; reflexivity).
  - vm_compute. intros H.
    repeat (destruct H as [H|H]; [discriminate H|]). exact H.
  - vm_compute. intros H.
    repeat (destruct H as [H|H]; [discriminate H|]). exact H.
Qed.

(** The distance stage on the deployment, with the appender bound: the
    nearest of the three feature geometries is 9 units away. *)
Lemma distance_to_nearest_object_witness :
  let a := set_run_on_input_geometry (Some "POLYGON input")
                                     (demo_analysis "kartlagt" ["hit"]) in
  let r := _set_distance_to_object demo_ext Bound_class (start a) in
  fst r = inr tt /\
  In (QueryOgcApi "hit" (Some "POLYGON input") 200) (calls (snd r)) /\
  distance_to_object (self (snd r)) = 9.
Proof.
  cbv zeta.
  destruct (distance_to_nearest_object
              demo_ext Bound_class
              (start (set_run_on_input_geometry
                        (Some "POLYGON input")
                        (demo_analysis "kartlagt" ["hit"])))
              (demo_layer "hit") [] "POLYGON input" 200
              (Some ["POLYGON a"; "LINESTRING b"; "null"; "POLYGON cd"])
              eq_refl eq_refl eq_refl eq_refl)
    as (Hret & Hcall & Hdist).
  split; [exact Hret|]. split; [exact Hcall|].
  rewrite Hdist. vm_compute. reflexivity.
Defined.

(** The coverage check on the deployment: the indicator at position 0 is
    the OTHER-kind one. *)
Lemma coverage_check_uses_position_zero_witness :
  In (GetCoverageQuality (demo_indicator OTHER_KIND [] None))
     (calls (snd (prepare demo_ext Bound_class
                          (start (demo_analysis "coverage-second" ["hit"]))))).
Proof.
  destruct (coverage_check_uses_position_zero
              demo_ext Bound_class (demo_analysis "coverage-second" ["hit"])
              eq_refl eq_refl)
    as [qi (Hnth & _ & Hin & _)].
  vm_compute in Hnth. inversion Hnth; subst qi. exact Hin.
Defined.

(** * The further properties on the concrete deployments *)

(** The label lookup on a codelist with two entries for "ikkeKartlagt": the
    first one gives the label. *)
Lemma codelist_label_of_first_match_witness :
  _get_label_from_codelist "ikkeKartlagt" (Some demo_codelist)
    = Some "Ikke kartlagt".
Proof.
  destruct (codelist_label_of_first_match
              "ikkeKartlagt"
              [ {| entry_value := "kartlagt"; entry_label := Some "Kartlagt" |} ]
              {| entry_value := "ikkeKartlagt"; entry_label := Some "Ikke kartlagt" |}
              [ {| entry_value := "ikkeKartlagt"; entry_label := Some "Uten dekning" |} ])
    as [H _].
  - intros e [<-|[]]. discriminate.
  - reflexivity.
  - exact H.
Defined.

(** A request with a buffer of 10 on the deployment whose buffer changes the
    geometry: the run stores the area of the buffered geometry, which is the
    input area of the response. *)
Lemma response_area_is_analysis_area_witness :
  let a := __init__ "kartlagt" (demo_config ["hit"]) "POLYGON input" 25833 4326
                    (Some 10) in
  input_geometry_area
    (self (snd (run buffering_ext Bound_class tt true true (start a))))
  = Some 22 /\
  response_input_geometry_area
    (@create string Z string string string (list string) unit unit unit unit
             buffering_ext (fun geo_json _ => geo_json)
             tt "POLYGON input" 25833 4326 10 tt "4601" "Bergen")
  = 22.
Proof.
  cbv zeta.
  set (w0 := start (__init__ "kartlagt" (demo_config ["hit"]) "POLYGON input"
                             25833 4326 (Some 10))).
  assert (Hq : through_queries buffering_ext Bound_class w0
               = (inr true, snd (through_queries buffering_ext Bound_class w0)))
    by (vm_compute; reflexivity).
  assert (Htimeout : result_status
                       (self (snd (through_queries buffering_ext Bound_class w0)))
                     <> TIMEOUT)
    by (vm_compute; discriminate).
  assert (Herror : result_status
                     (self (snd (through_queries buffering_ext Bound_class w0)))
                   <> ERROR)
    by (vm_compute; discriminate).
  pose proof (response_area_is_analysis_area
                buffering_ext (Report := unit) (fun geo_json _ => geo_json)
                Bound_class tt true true tt "POLYGON input" 25833 4326 10 tt
                "4601" "Bergen" "kartlagt" (demo_config ["hit"]) _
                (fun g => eq_refl) Bound_class_subclass Hq Htimeout Herror)
    as H.
  subst w0. split; [rewrite H|]; vm_compute; reflexivity.
Defined.

(** A run with a buffer of 10: "add buffer" follows "set input_geometry". *)
Lemma add_buffer_label_iff_positive_buffer_witness :
  exists labels,
    run_algorithm
      (self (snd (run guided_ext Bound_class tt true true
                      (start (guided_analysis "kartlagt" ["hit"])))))
    = "set input_geometry" :: "add buffer" :: labels /\
    forallb not_add_buffer labels = true.
Proof.
  destruct (add_buffer_label_iff_positive_buffer
              guided_ext Bound_class tt true true
              (start (guided_analysis "kartlagt" ["hit"])) eq_refl)
    as [labels [Heq Hall]].
  exists labels. split; [|exact Hall].
  rewrite Heq. reflexivity.
Defined.

(** A run that finds no record, on the deployment with a guidance register:
    the status stays NO_HIT_GREEN and the two guidance texts stay unset,
    although the object holds a guidance entry. *)
Lemma green_result_has_no_guidance_texts_witness :
  let a' := self (snd (run guided_ext Bound_class tt true true
                           (start (guided_analysis "kartlagt" ["empty"])))) in
  description a' = None /\ guidance_text a' = None.
Proof.
  cbv zeta.
  assert (Hstatus :
    result_status
      (self (snd (run guided_ext Bound_class tt true true
                      (start (guided_analysis "kartlagt" ["empty"])))))
    = NO_HIT_GREEN) by (vm_compute; reflexivity).
  pose proof (green_result_has_no_guidance_texts
                guided_ext Bound_class tt true true
                (start (guided_analysis "kartlagt" ["empty"]))) as H.
  cbv zeta in H. destruct (H Hstatus) as [Hd Hx].
  split; [rewrite Hd | rewrite Hx]; reflexivity.
Defined.

(** A run that finds records in its second layer, on the deployment with a
    guidance register: the texts, the link and the action are those of the
    guidance entry. *)
Lemma guidance_data_from_geolett_witness :
  let a' := self (snd (run guided_ext Bound_class tt true true
                           (start (guided_analysis "kartlagt" ["empty"; "hit"])))) in
  description a' = Some "Omradet ligger i en faresone" /\
  guidance_text a' = Some "Vurder grunnforholdene" /\
  guidance_uri a' = [ {| href := "https://veileder"; uri_title := "Veileder" |} ] /\
  possible_actions a' = ["Grunnundersokelse av omradet"].
Proof.
  cbv zeta.
  set (w0 := start (guided_analysis "kartlagt" ["empty"; "hit"])).
  assert (Hrun : run guided_ext Bound_class tt true true w0
                 = (inr tt, snd (run guided_ext Bound_class tt true true w0)))
    by (vm_compute; reflexivity).
  assert (Hlett : geolett (self (snd (run guided_ext Bound_class tt true true w0)))
                  = Some demo_geolett)
    by (vm_compute; reflexivity).
  assert (Htimeout :
    result_status (self (snd (run guided_ext Bound_class tt true true w0)))
    <> TIMEOUT) by (vm_compute; discriminate).
  assert (Herror :
    result_status (self (snd (run guided_ext Bound_class tt true true w0)))
    <> ERROR) by (vm_compute; discriminate).
  assert (Hgreen :
    result_status (self (snd (run guided_ext Bound_class tt true true w0)))
    <> NO_HIT_GREEN) by (vm_compute; discriminate).
  destruct (guidance_data_from_geolett
              guided_ext Bound_class tt true w0 _ demo_geolett
              eq_refl Hrun Hlett Htimeout Herror)
    as (Htexts & Huri & Hactions).
  destruct (Htexts Hgreen) as [Hd Hx].
  split; [rewrite Hd; reflexivity|].
  split; [rewrite Hx; reflexivity|].
  split; [rewrite Huri | rewrite Hactions]; vm_compute; reflexivity.
Defined.

(** The query stage on three layers: the first answers without a record, the
    second with four records, and the third, which would report 408, is
    never asked. *)
Lemma first_layer_with_records_decides_witness :
  let a := set_run_on_input_geometry
             (Some "POLYGON input")
             (demo_analysis "kartlagt" ["empty"; "hit"; "timeout"]) in
  let r := _run_queries demo_ext Bound_class (start a) in
  result_status (self (snd r)) = HIT_RED /\
  run_algorithm (self (snd r)) = ["intersect layer empty"; "intersect layer hit"] /\
  calls (snd r) =
    [ QueryOgcApi "empty" (Some "POLYGON input") 200; Invoke "_add_run_algorithm";
      QueryOgcApi "hit" (Some "POLYGON input") 200; Invoke "_add_run_algorithm" ].
Proof.
  cbv zeta.
  assert (Hpre : forall l, In l [demo_layer "empty"] ->
            without_hit
              (query_ogc_api demo_ext "https://ogc" (layer_ogc_api l) "geom"
                             (Some "POLYGON input") 25833)).
  { intros l [<-|[]]. split; [reflexivity | right; reflexivity]. }
  assert (Hfeatures : ["POLYGON a"; "LINESTRING b"; "null"; "POLYGON cd"] <> [])
    by discriminate.
  destruct (first_layer_with_records_decides
              demo_ext Bound_class
              (start (set_run_on_input_geometry
                        (Some "POLYGON input")
                        (demo_analysis "kartlagt" ["empty"; "hit"; "timeout"])))
              [demo_layer "empty"] (demo_layer "hit") [demo_layer "timeout"]
              ["POLYGON a"; "LINESTRING b"; "null"; "POLYGON cd"] None None
              eq_refl eq_refl Hpre eq_refl Hfeatures eq_refl eq_refl)
    as (_ & Hstatus & _ & _ & _ & _ & _ & Hlabels & Hcalls).
  split; [rewrite Hstatus; reflexivity|].
  split; [rewrite Hlabels | rewrite Hcalls]; vm_compute; reflexivity.
Defined.

(** The query stage on two layers that answer without a record. *)
Lemma no_layer_with_records_witness :
  let a := set_run_on_input_geometry
             (Some "POLYGON input")
             (demo_analysis "kartlagt" ["empty"; "nothing"]) in
  let r := _run_queries demo_ext Bound_class (start a) in
  fst r = inr tt /\
  result_status (self (snd r)) = NO_HIT_GREEN /\
  run_algorithm (self (snd r)) =
    ["intersect layer empty"; "intersect layer nothing"].
Proof.
  cbv zeta.
  assert (Hall : forall l, In l [demo_layer "empty"; demo_layer "nothing"] ->
            without_hit
              (query_ogc_api demo_ext "https://ogc" (layer_ogc_api l) "geom"
                             (Some "POLYGON input") 25833)).
  { intros l [<-|[<-|[]]].
    - split; [reflexivity | right; reflexivity].
    - split; [reflexivity | left; reflexivity]. }
  destruct (no_layer_with_records
              demo_ext Bound_class
              (start (set_run_on_input_geometry
                        (Some "POLYGON input")
                        (demo_analysis "kartlagt" ["empty"; "nothing"])))
              (demo_layer "empty") [demo_layer "nothing"] None
              eq_refl eq_refl Hall eq_refl)
    as (Hret & Hstatus & _ & _ & _ & Hlabels & _).
  split; [exact Hret|].
  split; [rewrite Hstatus | rewrite Hlabels]; vm_compute; reflexivity.
Defined.

(** The dataset whose coverage source returns "kartlagt": the evaluator
    reports coverage and the query stage is entered. *)
Lemma coverage_verdict_decides_query_stage_witness :
  In (Invoke "run_queries")
     (calls (snd (run demo_ext Bound_class tt true true
                      (start (demo_analysis "kartlagt" ["hit"]))))).
Proof.
  assert (Hbound : Bound_class "run_queries" <> None)
    by (vm_compute; discriminate).
  destruct (coverage_verdict_decides_query_stage
              demo_ext Bound_class tt true true
              (demo_analysis "kartlagt" ["hit"])
              (demo_indicator COVERAGE ["ikkeKartlagt"] (Some ["kartlagt"]))
              Bound_class_subclass Hbound eq_refl eq_refl)
    as [Hiff _].
  apply Hiff. vm_compute. reflexivity.
Defined.

(** A dataset configured without layers: the run ends in the IndexError. *)
Lemma run_without_layers_raises_index_error_witness :
  fst (run demo_ext Bound_class tt true true
           (start (demo_analysis "kartlagt" [])))
  = inl (IndexError "list index out of range").
Proof.
  assert (Hn : (List.length (coverage_indicators demo_ext "kartlagt") <= 1)%nat)
    by (vm_compute; lia).
  destruct (run_without_layers_raises_index_error
              demo_ext Bound_class tt true true
              (demo_analysis "kartlagt" [])
              eq_refl eq_refl eq_refl eq_refl Hn)
    as [Hret _].
  exact Hret.
Defined.

(** A run that finds records, on the deployment with a guidance register:
    the title is that of the guidance entry. *)
Lemma default_data_after_run_witness :
  let a' := self (snd (run guided_ext Bound_class tt true true
                           (start (guided_analysis "kartlagt" ["empty"; "hit"])))) in
  title a' = Some "Kvikkleire og skredfare" /\
  themes a' = Some ["Samfunnssikkerhet"] /\
  run_on_dataset a' = Some "kartlagt".
Proof.
  cbv zeta.
  set (w0 := start (guided_analysis "kartlagt" ["empty"; "hit"])).
  assert (Hrun : run guided_ext Bound_class tt true true w0
                 = (inr tt, snd (run guided_ext Bound_class tt true true w0)))
    by (vm_compute; reflexivity).
  destruct (default_data_after_run
              guided_ext Bound_class tt true true w0 _ eq_refl Hrun)
    as (Htitle & Hthemes & Hmeta).
  split; [rewrite Htitle; vm_compute; reflexivity|].
  split; [rewrite Hthemes | rewrite Hmeta]; vm_compute; reflexivity.
Defined.

(** A run that finds records: the status is HIT_RED at the end, the distance
    stage has not run and the distance is still 0. *)
Lemma distance_stage_only_without_hit_witness :
  let r := run demo_ext Bound_class tt true true
               (start (demo_analysis "kartlagt" ["hit"])) in
  ~ In (Invoke "set_distance_to_object") (calls (snd r)) /\
  distance_to_object (self (snd r)) = 0.
Proof.
  cbv zeta.
  apply (distance_stage_only_without_hit
           demo_ext Bound_class tt true true
           "kartlagt" (demo_config ["hit"]) "POLYGON input" 25833 4326 None
           Bound_class_subclass (or_intror eq_refl)).
  - vm_compute. discriminate.
  - vm_compute. discriminate.
Defined.

(** The road summary of four features: two of the category "E", one foot
    and cycle path, and one road without category. *)
Lemma roads_grouped_by_type_witness :
  exists typed,
    map (typed_length guided_ext demo_Length demo_typeVeg demo_vegkategori)
        demo_roads = map Some typed /\
    [ {| roadType := "Europaveg"; road_length := 14 |};
      {| roadType := "gangOgSykkelveg"; road_length := 7 |};
      {| roadType := "enkelBilveg"; road_length := 8 |} ] =
    map (fun road_type =>
           {| roadType := demo_from_camel_case road_type;
              road_length :=
                round_ndigits
                  guided_ext
                  (total key_eqb (num_add guided_ext) (num_of_Z guided_ext 0)
                         road_type typed)
                  2 |})
        (distinct key_eqb (map fst typed)).
Proof.
  apply (roads_grouped_by_type
           guided_ext demo_Length demo_typeVeg demo_vegkategori
           demo_from_camel_case demo_roads).
  vm_compute. reflexivity.
Defined.
